(** * DeNewsContent: moderation and governance engine

    A shallow embedding of the [DeNewsContent] contract of
    [contracts/DeNewsToken.sol] and the verification of its lifecycle
    rules: likes, follows, moderation votes and governance proposals.

    Conventions of the embedding:
    - [uint256] and [address] values are [N]; Solidity 0.8 checked arithmetic
      is written out ([checked_add], [checked_sub] revert with a panic);
    - a Solidity [mapping] is a finite map read with a zero default
      ([m.[k]]), a storage array is a list;
    - an external function is a function of the call environment
      ([msg.sender], [block.timestamp]) and of the storage that returns
      either the new storage or the revert reason: a reverted call leaves
      no storage behind, as on the EVM;
    - emitted events are appended to a log carried beside the storage. *)

From Stdlib Require Import NArith Lia List String.
From Stdlib.Strings Require Import Byte.
From stdpp Require Import base gmap strings list fin_maps sorting.
Import ListNotations.
Local Open Scope N_scope.

(** ** Reverts and the error monad *)

Inductive Error :=
| Require_failed (reason : string)   (* require(cond, reason) and revert(reason) *)
| Panic_arithmetic                   (* Panic(0x11): checked arithmetic over- or underflow *)
| Panic_allocation                   (* Panic(0x41): decoded length too large *)
| Abi_decode_failed                  (* abi.decode on malformed data: empty revert *)
| Missing_role (role account : N)    (* AccessControl's onlyRole *)
| Reentrant_call.                    (* ReentrancyGuard's nonReentrant *)

Inductive Result (A : Type) :=
| Ok (a : A)
| Revert (e : Error).
Arguments Ok {A} a.
Arguments Revert {A} e.

Definition bind {A B} (m : Result A) (f : A -> Result B) : Result B :=
  match m with
  | Ok a => f a
  | Revert e => Revert e
  end.

Notation "x <- m ;; k" := (bind m (fun x => k))
  (at level 100, m at next level, right associativity).
Notation "m ;; k" := (bind m (fun _ => k))
  (at level 100, right associativity).

Definition require (cond : bool) (reason : string) : Result unit :=
  if cond then Ok tt else Revert (Require_failed reason).

(** ** Machine integers *)

Definition uint256_limit : N := 2 ^ 256.
Definition address_limit : N := 2 ^ 160.

Definition checked_add (a b : N) : Result N :=
  if a + b <? uint256_limit then Ok (a + b) else Revert Panic_arithmetic.

Definition checked_sub (a b : N) : Result N :=
  if b <=? a then Ok (a - b) else Revert Panic_arithmetic.

(** ** ABI encoding of proposal payloads

    [abi.encode] of one [uint256] is its 32-byte big-endian word;
    [abi.decode] reads words from the head of the data and reverts when the
    data is too short for the requested tuple. Memory is not modelled: for
    a string whose length word is below 2^64 but exceeds the data, the
    decoder reports the failed bounds check, where the compiled code, when
    the length also exceeds the memory left, panics in the allocation that
    precedes that check. Both revert, and the decoded values agree whenever
    the decoder succeeds. *)

Definition byte_of_N (n : N) : byte :=
  match Byte.of_N n with Some b => b | None => x00 end.

Definition be_to_N (bs : list byte) : N :=
  fold_left (fun acc b => acc * 256 + Byte.to_N b) bs 0.

Fixpoint N_to_be (len : nat) (n : N) : list byte :=
  match len with
  | O => []
  | S k => N_to_be k (n / 256) ++ [byte_of_N (n mod 256)]
  end.

Definition word_at (data : list byte) (offset : nat) : N :=
  be_to_N (firstn 32 (skipn offset data)).

Definition abi_encode_uint256 (n : N) : list byte := N_to_be 32 n.

Definition abi_decode_uint256 (data : list byte) : Result N :=
  if (length data <? 32)%nat then Revert Abi_decode_failed
  else Ok (word_at data 0).

Definition abi_decode_bytes32_address (data : list byte) : Result (N * N) :=
  if (length data <? 64)%nat then Revert Abi_decode_failed
  else
    let role := word_at data 0 in
    let account := word_at data 32 in
    if account <? address_limit then Ok (role, account)
    else Revert Abi_decode_failed.

Definition abi_decode_string_uint256 (data : list byte) : Result (string * N) :=
  if (length data <? 64)%nat then Revert Abi_decode_failed
  else
    let offset := word_at data 0 in
    let value := word_at data 32 in
    if 2 ^ 64 <=? offset then Revert Abi_decode_failed
    else if N.of_nat (length data) <=? offset + 31 then Revert Abi_decode_failed
    else
      let len := word_at data (N.to_nat offset) in
      if 2 ^ 64 <=? len then Revert Panic_allocation
      else if N.of_nat (length data) <? offset + 32 + len then Revert Abi_decode_failed
      else
        Ok (string_of_list_byte
              (firstn (N.to_nat len) (skipn (N.to_nat offset + 32) data)),
            value).

(** ** Solidity mappings *)

Class Zero (A : Type) := zero : A.
Global Instance N_zero : Zero N := 0.
Global Instance bool_zero : Zero bool := false.
Global Instance string_zero : Zero string := EmptyString.
Global Instance list_zero {A} : Zero (list A) := [].
Global Instance gmap_zero `{Countable K} {V} : Zero (gmap K V) := (∅ : gmap K V).

Definition read `{Countable K} `{Zero V} (m : gmap K V) (k : K) : V :=
  default zero (m !! k).

Notation "m .[ k ]" := (read m k) (at level 1, left associativity, format "m .[ k ]").

(** ** Enumerations and structs *)

Inductive UserType := Individual | Journalist | Organization.
Inductive ModerationStatus := None_ | Flagged | UnderVote | Removed.
Inductive ProposalStatus := Active | Passed | Rejected | Executed.
Inductive ProposalType := RemoveContent | UpdateParameters | GrantRole | RevokeRole.

Global Instance UserType_zero : Zero UserType := Individual.
Global Instance ModerationStatus_zero : Zero ModerationStatus := None_.
Global Instance ProposalStatus_zero : Zero ProposalStatus := Active.
Global Instance ProposalType_zero : Zero ProposalType := RemoveContent.

Global Instance ModerationStatus_eq_dec : EqDecision ModerationStatus.
Proof. solve_decision. Defined.
Global Instance ProposalStatus_eq_dec : EqDecision ProposalStatus.
Proof. solve_decision. Defined.
Global Instance ProposalType_eq_dec : EqDecision ProposalType.
Proof. solve_decision. Defined.

Module UserProfile.
Record t := mk {
  userAddress : N;
  username : string;
  metadataHash : string;
  userType : UserType;
  isVerified : bool;
  registrationTime : N
}.
Definition with_isVerified (b : bool) (u : t) : t :=
  mk (userAddress u) (username u) (metadataHash u) (userType u) b (registrationTime u).
End UserProfile.
Global Instance UserProfile_zero : Zero UserProfile.t :=
  UserProfile.mk 0 zero zero zero false 0.

Module NewsPost.
Record t := mk {
  id : N;
  author : N;
  contentHash : string;
  metadataHash : string;
  timestamp : N;
  category : string;
  likes : N;
  comments : N;
  moderationStatus : ModerationStatus
}.
Definition with_likes (n : N) (p : t) : t :=
  mk (id p) (author p) (contentHash p) (metadataHash p) (timestamp p)
     (category p) n (comments p) (moderationStatus p).
Definition with_comments (n : N) (p : t) : t :=
  mk (id p) (author p) (contentHash p) (metadataHash p) (timestamp p)
     (category p) (likes p) n (moderationStatus p).
Definition with_moderationStatus (m : ModerationStatus) (p : t) : t :=
  mk (id p) (author p) (contentHash p) (metadataHash p) (timestamp p)
     (category p) (likes p) (comments p) m.
End NewsPost.
Global Instance NewsPost_zero : Zero NewsPost.t :=
  NewsPost.mk 0 0 zero zero 0 zero 0 0 zero.

Module Comment.
Record t := mk {
  id : N;
  postId : N;
  author : N;
  content : string;
  timestamp : N;
  moderationStatus : ModerationStatus
}.
End Comment.

Module Proposal.
Record t := mk {
  id : N;
  proposer : N;
  proposalType : ProposalType;
  data : list byte;
  startTime : N;
  endTime : N;
  forVotes : N;
  againstVotes : N;
  status : ProposalStatus;
  descriptionHash : string
}.
Definition with_forVotes (n : N) (p : t) : t :=
  mk (id p) (proposer p) (proposalType p) (data p) (startTime p) (endTime p)
     n (againstVotes p) (status p) (descriptionHash p).
Definition with_againstVotes (n : N) (p : t) : t :=
  mk (id p) (proposer p) (proposalType p) (data p) (startTime p) (endTime p)
     (forVotes p) n (status p) (descriptionHash p).
Definition with_status (st : ProposalStatus) (p : t) : t :=
  mk (id p) (proposer p) (proposalType p) (data p) (startTime p) (endTime p)
     (forVotes p) (againstVotes p) st (descriptionHash p).
End Proposal.
Global Instance Proposal_zero : Zero Proposal.t :=
  Proposal.mk 0 0 zero [] 0 0 0 0 zero zero.

Module ModerationVote.
Record t := mk {
  proposalId : N;
  postId : N;
  startTime : N;
  endTime : N;
  forRemovalVotes : N;
  againstRemovalVotes : N;
  executed : bool
}.
Definition with_forRemovalVotes (n : N) (v : t) : t :=
  mk (proposalId v) (postId v) (startTime v) (endTime v) n
     (againstRemovalVotes v) (executed v).
Definition with_againstRemovalVotes (n : N) (v : t) : t :=
  mk (proposalId v) (postId v) (startTime v) (endTime v) (forRemovalVotes v)
     n (executed v).
Definition with_executed (b : bool) (v : t) : t :=
  mk (proposalId v) (postId v) (startTime v) (endTime v) (forRemovalVotes v)
     (againstRemovalVotes v) b.
End ModerationVote.
Global Instance ModerationVote_zero : Zero ModerationVote.t :=
  ModerationVote.mk 0 0 0 0 0 0 false.

(** [posts[k].field = v]: a write through a storage reference. *)
Definition upd `{Countable K} `{Zero V} (m : gmap K V) (k : K) (f : V -> V) : gmap K V :=
  <[k := f (m.[k])]> m.

(** ** Events *)

Inductive Event :=
| UserRegistered (userAddress : N) (username : string) (userType : UserType)
| UserVerified (userAddress : N)
| PostCreated (postId author : N) (contentHash : string)
| PostLiked (postId liker : N)
| PostUnliked (postId unliker : N)
| CommentAdded (postId commentId commenter : N)
| ContentFlagged (postId flagger : N)
| ModerationVoteStarted (postId proposalId : N)
| ModerationVoteEnded (postId : N) (removed : bool)
| ProposalCreated (proposalId proposer : N) (proposalType : ProposalType)
| ProposalVoteCast (proposalId voter : N) (support : bool)
| ProposalExecuted (proposalId : N)
| UserFollowed (follower followed : N)
| RoleGranted (role account sender : N)
| RoleRevoked (role account sender : N).

(** ** Contract storage *)

(** ReentrancyGuard's [_status] word, which only ever holds one of its two
    constants. The three [Counters.Counter] values are kept in [N]:
    [current] reads the field and [increment] adds one, an addition that
    OpenZeppelin leaves unchecked because a 256-bit counter stepped by one
    cannot realistically overflow; identifiers are therefore never reused. *)
Inductive GuardStatus := NOT_ENTERED | ENTERED.

Record State := mkState {
  _roles : gmap N (gmap N bool);          (* AccessControl: role => account => member *)
  _status : GuardStatus;                  (* ReentrancyGuard *)
  _postIdCounter : N;
  _commentIdCounter : N;
  _proposalIdCounter : N;
  users : gmap N UserProfile.t;
  posts : gmap N NewsPost.t;
  postComments : gmap N (list Comment.t);
  userPosts : gmap N (list N);
  following : gmap N (list N);
  postLikes : gmap N (gmap N bool);
  proposals : gmap N Proposal.t;
  hasVoted : gmap N (gmap N bool);
  moderationVotes : gmap N ModerationVote.t;
  flagThreshold : N;
  voteDuration : N;
  quorumPercentage : N;
  events : list Event
}.

Definition set_roles (v : gmap N (gmap N bool)) (s : State) : State :=
  mkState v (_status s) (_postIdCounter s) (_commentIdCounter s) (_proposalIdCounter s)
    (users s) (posts s) (postComments s) (userPosts s) (following s) (postLikes s)
    (proposals s) (hasVoted s) (moderationVotes s) (flagThreshold s) (voteDuration s)
    (quorumPercentage s) (events s).
Definition set_status (v : GuardStatus) (s : State) : State :=
  mkState (_roles s) v (_postIdCounter s) (_commentIdCounter s) (_proposalIdCounter s)
    (users s) (posts s) (postComments s) (userPosts s) (following s) (postLikes s)
    (proposals s) (hasVoted s) (moderationVotes s) (flagThreshold s) (voteDuration s)
    (quorumPercentage s) (events s).
Definition set_postIdCounter (v : N) (s : State) : State :=
  mkState (_roles s) (_status s) v (_commentIdCounter s) (_proposalIdCounter s)
    (users s) (posts s) (postComments s) (userPosts s) (following s) (postLikes s)
    (proposals s) (hasVoted s) (moderationVotes s) (flagThreshold s) (voteDuration s)
    (quorumPercentage s) (events s).
Definition set_commentIdCounter (v : N) (s : State) : State :=
  mkState (_roles s) (_status s) (_postIdCounter s) v (_proposalIdCounter s)
    (users s) (posts s) (postComments s) (userPosts s) (following s) (postLikes s)
    (proposals s) (hasVoted s) (moderationVotes s) (flagThreshold s) (voteDuration s)
    (quorumPercentage s) (events s).
Definition set_proposalIdCounter (v : N) (s : State) : State :=
  mkState (_roles s) (_status s) (_postIdCounter s) (_commentIdCounter s) v
    (users s) (posts s) (postComments s) (userPosts s) (following s) (postLikes s)
    (proposals s) (hasVoted s) (moderationVotes s) (flagThreshold s) (voteDuration s)
    (quorumPercentage s) (events s).
Definition set_users (v : gmap N UserProfile.t) (s : State) : State :=
  mkState (_roles s) (_status s) (_postIdCounter s) (_commentIdCounter s) (_proposalIdCounter s)
    v (posts s) (postComments s) (userPosts s) (following s) (postLikes s)
    (proposals s) (hasVoted s) (moderationVotes s) (flagThreshold s) (voteDuration s)
    (quorumPercentage s) (events s).
Definition set_posts (v : gmap N NewsPost.t) (s : State) : State :=
  mkState (_roles s) (_status s) (_postIdCounter s) (_commentIdCounter s) (_proposalIdCounter s)
    (users s) v (postComments s) (userPosts s) (following s) (postLikes s)
    (proposals s) (hasVoted s) (moderationVotes s) (flagThreshold s) (voteDuration s)
    (quorumPercentage s) (events s).
Definition set_postComments (v : gmap N (list Comment.t)) (s : State) : State :=
  mkState (_roles s) (_status s) (_postIdCounter s) (_commentIdCounter s) (_proposalIdCounter s)
    (users s) (posts s) v (userPosts s) (following s) (postLikes s)
    (proposals s) (hasVoted s) (moderationVotes s) (flagThreshold s) (voteDuration s)
    (quorumPercentage s) (events s).
Definition set_userPosts (v : gmap N (list N)) (s : State) : State :=
  mkState (_roles s) (_status s) (_postIdCounter s) (_commentIdCounter s) (_proposalIdCounter s)
    (users s) (posts s) (postComments s) v (following s) (postLikes s)
    (proposals s) (hasVoted s) (moderationVotes s) (flagThreshold s) (voteDuration s)
    (quorumPercentage s) (events s).
Definition set_following (v : gmap N (list N)) (s : State) : State :=
  mkState (_roles s) (_status s) (_postIdCounter s) (_commentIdCounter s) (_proposalIdCounter s)
    (users s) (posts s) (postComments s) (userPosts s) v (postLikes s)
    (proposals s) (hasVoted s) (moderationVotes s) (flagThreshold s) (voteDuration s)
    (quorumPercentage s) (events s).
Definition set_postLikes (v : gmap N (gmap N bool)) (s : State) : State :=
  mkState (_roles s) (_status s) (_postIdCounter s) (_commentIdCounter s) (_proposalIdCounter s)
    (users s) (posts s) (postComments s) (userPosts s) (following s) v
    (proposals s) (hasVoted s) (moderationVotes s) (flagThreshold s) (voteDuration s)
    (quorumPercentage s) (events s).
Definition set_proposals (v : gmap N Proposal.t) (s : State) : State :=
  mkState (_roles s) (_status s) (_postIdCounter s) (_commentIdCounter s) (_proposalIdCounter s)
    (users s) (posts s) (postComments s) (userPosts s) (following s) (postLikes s)
    v (hasVoted s) (moderationVotes s) (flagThreshold s) (voteDuration s)
    (quorumPercentage s) (events s).
Definition set_hasVoted (v : gmap N (gmap N bool)) (s : State) : State :=
  mkState (_roles s) (_status s) (_postIdCounter s) (_commentIdCounter s) (_proposalIdCounter s)
    (users s) (posts s) (postComments s) (userPosts s) (following s) (postLikes s)
    (proposals s) v (moderationVotes s) (flagThreshold s) (voteDuration s)
    (quorumPercentage s) (events s).
Definition set_moderationVotes (v : gmap N ModerationVote.t) (s : State) : State :=
  mkState (_roles s) (_status s) (_postIdCounter s) (_commentIdCounter s) (_proposalIdCounter s)
    (users s) (posts s) (postComments s) (userPosts s) (following s) (postLikes s)
    (proposals s) (hasVoted s) v (flagThreshold s) (voteDuration s)
    (quorumPercentage s) (events s).
Definition set_flagThreshold (v : N) (s : State) : State :=
  mkState (_roles s) (_status s) (_postIdCounter s) (_commentIdCounter s) (_proposalIdCounter s)
    (users s) (posts s) (postComments s) (userPosts s) (following s) (postLikes s)
    (proposals s) (hasVoted s) (moderationVotes s) v (voteDuration s)
    (quorumPercentage s) (events s).
Definition set_voteDuration (v : N) (s : State) : State :=
  mkState (_roles s) (_status s) (_postIdCounter s) (_commentIdCounter s) (_proposalIdCounter s)
    (users s) (posts s) (postComments s) (userPosts s) (following s) (postLikes s)
    (proposals s) (hasVoted s) (moderationVotes s) (flagThreshold s) v
    (quorumPercentage s) (events s).
Definition set_quorumPercentage (v : N) (s : State) : State :=
  mkState (_roles s) (_status s) (_postIdCounter s) (_commentIdCounter s) (_proposalIdCounter s)
    (users s) (posts s) (postComments s) (userPosts s) (following s) (postLikes s)
    (proposals s) (hasVoted s) (moderationVotes s) (flagThreshold s) (voteDuration s)
    v (events s).
Definition emit (e : Event) (s : State) : State :=
  mkState (_roles s) (_status s) (_postIdCounter s) (_commentIdCounter s) (_proposalIdCounter s)
    (users s) (posts s) (postComments s) (userPosts s) (following s) (postLikes s)
    (proposals s) (hasVoted s) (moderationVotes s) (flagThreshold s) (voteDuration s)
    (quorumPercentage s) (events s ++ [e]).

(** The call environment: [msg.sender] and [block.timestamp]. *)
Record Env := mkEnv { msg_sender : N; block_timestamp : N }.

Arguments require cond reason%_string.
Arguments Require_failed reason%_string.

(** [m[k1][k2] = v] on a nested mapping. *)
Definition write2 `{Countable K1} `{Countable K2} {V}
    (m : gmap K1 (gmap K2 V)) (k1 : K1) (k2 : K2) (v : V) : gmap K1 (gmap K2 V) :=
  <[k1 := <[k2 := v]> (m.[k1])]> m.

(** ** Roles (OpenZeppelin AccessControl, as inherited by the contract)

    [DEFAULT_ADMIN_ROLE] is the zero word and administers every role, since
    the contract never calls [_setRoleAdmin]; the two role identifiers are
    the keccak256 digests of their names. *)

Definition DEFAULT_ADMIN_ROLE : N := 0.
Definition ADMIN_ROLE : N :=
  0xa49807205ce4d355092ef5a8a18f56e8913cf4a201fbe287825b095693c21775.
Definition MODERATOR_ROLE : N :=
  0x71f3d55856e4058ed06ee057d79ada615f65cdf5f9ee88181b914225088f834f.

Definition hasRole (role account : N) (s : State) : bool :=
  (_roles s).[role].[account].

Definition onlyRole (role : N) (env : Env) (s : State) : Result unit :=
  if hasRole role (msg_sender env) s then Ok tt
  else Revert (Missing_role role (msg_sender env)).

Definition _grantRole (role account : N) (env : Env) (s : State) : State :=
  if hasRole role account s then s
  else emit (RoleGranted role account (msg_sender env))
         (set_roles (write2 (_roles s) role account true) s).

Definition _revokeRole (role account : N) (env : Env) (s : State) : State :=
  if hasRole role account s then
    emit (RoleRevoked role account (msg_sender env))
      (set_roles (write2 (_roles s) role account false) s)
  else s.

Definition grantRole (role account : N) (env : Env) (s : State) : Result State :=
  onlyRole DEFAULT_ADMIN_ROLE env s ;;
  Ok (_grantRole role account env s).

Definition revokeRole (role account : N) (env : Env) (s : State) : Result State :=
  onlyRole DEFAULT_ADMIN_ROLE env s ;;
  Ok (_revokeRole role account env s).

Definition renounceRole (role account : N) (env : Env) (s : State) : Result State :=
  require (account =? msg_sender env) "AccessControl: can only renounce roles for self" ;;
  Ok (_revokeRole role account env s).

(** ** The contract *)

(** Storage as declared (parameters at their initialisers, ReentrancyGuard
    not entered), then the constructor body. *)
Definition initial_storage : State :=
  mkState ∅ NOT_ENTERED 0 0 0 ∅ ∅ ∅ ∅ ∅ ∅ ∅ ∅ ∅ 3 (3 * 86400) 10 [].

Definition constructor (env : Env) : State :=
  _grantRole ADMIN_ROLE (msg_sender env) env
    (_grantRole DEFAULT_ADMIN_ROLE (msg_sender env) env initial_storage).

Definition registered (a : N) (s : State) : bool :=
  0 <? UserProfile.registrationTime ((users s).[a]).

Definition post_exists (postId : N) (s : State) : bool :=
  negb (NewsPost.author ((posts s).[postId]) =? 0).

Definition registerUser (username metadataHash : string) (userType : UserType)
    (env : Env) (s : State) : Result State :=
  require (UserProfile.registrationTime ((users s).[msg_sender env]) =? 0)
    "User already registered" ;;
  let s := set_users
             (<[msg_sender env :=
                  UserProfile.mk (msg_sender env) username metadataHash userType
                    false (block_timestamp env)]> (users s)) s in
  Ok (emit (UserRegistered (msg_sender env) username userType) s).

Definition verifyUser (userAddress : N) (env : Env) (s : State) : Result State :=
  onlyRole MODERATOR_ROLE env s ;;
  require (registered userAddress s) "User not registered" ;;
  require (negb (UserProfile.isVerified ((users s).[userAddress])))
    "User already verified" ;;
  let s := set_users (upd (users s) userAddress (UserProfile.with_isVerified true)) s in
  Ok (emit (UserVerified userAddress) s).

Definition createPost (contentHash metadataHash category : string)
    (env : Env) (s : State) : Result (N * State) :=
  require (registered (msg_sender env) s) "User not registered" ;;
  let postId := _postIdCounter s in
  let s := set_postIdCounter (_postIdCounter s + 1) s in
  let s := set_posts
             (<[postId :=
                  NewsPost.mk postId (msg_sender env) contentHash metadataHash
                    (block_timestamp env) category 0 0 None_]> (posts s)) s in
  let s := set_userPosts
             (upd (userPosts s) (msg_sender env) (fun l => l ++ [postId])) s in
  let s := emit (PostCreated postId (msg_sender env) contentHash) s in
  Ok (postId, s).

Definition likePost (postId : N) (env : Env) (s : State) : Result State :=
  require (post_exists postId s) "Post does not exist" ;;
  require (negb ((postLikes s).[postId].[msg_sender env])) "Already liked this post" ;;
  let s := set_postLikes (write2 (postLikes s) postId (msg_sender env) true) s in
  n <- checked_add (NewsPost.likes ((posts s).[postId])) 1 ;;
  let s := set_posts (upd (posts s) postId (NewsPost.with_likes n)) s in
  Ok (emit (PostLiked postId (msg_sender env)) s).

Definition unlikePost (postId : N) (env : Env) (s : State) : Result State :=
  require (post_exists postId s) "Post does not exist" ;;
  require ((postLikes s).[postId].[msg_sender env]) "Haven't liked this post" ;;
  let s := set_postLikes (write2 (postLikes s) postId (msg_sender env) false) s in
  n <- checked_sub (NewsPost.likes ((posts s).[postId])) 1 ;;
  let s := set_posts (upd (posts s) postId (NewsPost.with_likes n)) s in
  Ok (emit (PostUnliked postId (msg_sender env)) s).

Definition addComment (postId : N) (content : string)
    (env : Env) (s : State) : Result (N * State) :=
  require (post_exists postId s) "Post does not exist" ;;
  require (registered (msg_sender env) s) "User not registered" ;;
  let commentId := _commentIdCounter s in
  let s := set_commentIdCounter (_commentIdCounter s + 1) s in
  let newComment :=
    Comment.mk commentId postId (msg_sender env) content (block_timestamp env) None_ in
  let s := set_postComments (upd (postComments s) postId (fun l => l ++ [newComment])) s in
  n <- checked_add (NewsPost.comments ((posts s).[postId])) 1 ;;
  let s := set_posts (upd (posts s) postId (NewsPost.with_comments n)) s in
  let s := emit (CommentAdded postId commentId (msg_sender env)) s in
  Ok (commentId, s).

Definition flagContent (postId : N) (env : Env) (s : State) : Result State :=
  require (post_exists postId s) "Post does not exist" ;;
  require (registered (msg_sender env) s) "User not registered" ;;
  require (bool_decide (NewsPost.moderationStatus ((posts s).[postId]) = None_))
    "Content already flagged or under review" ;;
  let s := set_posts (upd (posts s) postId (NewsPost.with_moderationStatus Flagged)) s in
  Ok (emit (ContentFlagged postId (msg_sender env)) s).

Definition startModerationVote (postId : N) (env : Env) (s : State) : Result State :=
  onlyRole MODERATOR_ROLE env s ;;
  require (post_exists postId s) "Post does not exist" ;;
  require (bool_decide (NewsPost.moderationStatus ((posts s).[postId]) = Flagged))
    "Content not flagged" ;;
  let proposalId := _proposalIdCounter s in
  let s := set_proposalIdCounter (_proposalIdCounter s + 1) s in
  let proposalData := abi_encode_uint256 postId in
  endTime <- checked_add (block_timestamp env) (voteDuration s) ;;
  let s := set_proposals
             (<[proposalId :=
                  Proposal.mk proposalId (msg_sender env) RemoveContent proposalData
                    (block_timestamp env) endTime 0 0 Active ""]> (proposals s)) s in
  let s := set_moderationVotes
             (<[postId :=
                  ModerationVote.mk proposalId postId (block_timestamp env) endTime
                    0 0 false]> (moderationVotes s)) s in
  let s := set_posts (upd (posts s) postId (NewsPost.with_moderationStatus UnderVote)) s in
  let s := emit (ModerationVoteStarted postId proposalId) s in
  Ok (emit (ProposalCreated proposalId (msg_sender env) RemoveContent) s).

Definition castModerationVote (proposalId : N) (support : bool) (voteWeight : N)
    (env : Env) (s : State) : Result State :=
  (* nonReentrant, before the body *)
  (match _status s with
   | ENTERED => Revert Reentrant_call
   | NOT_ENTERED => Ok tt
   end) ;;
  let s := set_status ENTERED s in
  require (Proposal.id ((proposals s).[proposalId]) =? proposalId)
    "Proposal does not exist" ;;
  require (bool_decide (Proposal.status ((proposals s).[proposalId]) = Active))
    "Proposal not active" ;;
  require (block_timestamp env <? Proposal.endTime ((proposals s).[proposalId]))
    "Voting period ended" ;;
  require (negb ((hasVoted s).[proposalId].[msg_sender env])) "Already voted" ;;
  require (registered (msg_sender env) s) "User not registered" ;;
  (* Record that user has voted *)
  let s := set_hasVoted (write2 (hasVoted s) proposalId (msg_sender env) true) s in
  (* Update vote counts *)
  s <- (if support then
          n <- checked_add (Proposal.forVotes ((proposals s).[proposalId])) voteWeight ;;
          let s := set_proposals (upd (proposals s) proposalId (Proposal.with_forVotes n)) s in
          if bool_decide (Proposal.proposalType ((proposals s).[proposalId]) = RemoveContent)
          then
            postId <- abi_decode_uint256 (Proposal.data ((proposals s).[proposalId])) ;;
            m <- checked_add
                   (ModerationVote.forRemovalVotes ((moderationVotes s).[postId]))
                   voteWeight ;;
            Ok (set_moderationVotes
                  (upd (moderationVotes s) postId (ModerationVote.with_forRemovalVotes m)) s)
          else Ok s
        else
          n <- checked_add (Proposal.againstVotes ((proposals s).[proposalId])) voteWeight ;;
          let s := set_proposals
                     (upd (proposals s) proposalId (Proposal.with_againstVotes n)) s in
          if bool_decide (Proposal.proposalType ((proposals s).[proposalId]) = RemoveContent)
          then
            postId <- abi_decode_uint256 (Proposal.data ((proposals s).[proposalId])) ;;
            m <- checked_add
                   (ModerationVote.againstRemovalVotes ((moderationVotes s).[postId]))
                   voteWeight ;;
            Ok (set_moderationVotes
                  (upd (moderationVotes s) postId
                     (ModerationVote.with_againstRemovalVotes m)) s)
          else Ok s) ;;
  let s := emit (ProposalVoteCast proposalId (msg_sender env) support) s in
  (* nonReentrant, after the body *)
  Ok (set_status NOT_ENTERED s).

Definition executeModerationVote (postId : N) (env : Env) (s : State) : Result State :=
  let vote := (moderationVotes s).[postId] in
  require (ModerationVote.postId vote =? postId) "Vote does not exist" ;;
  require (negb (ModerationVote.executed vote)) "Vote already executed" ;;
  require (ModerationVote.endTime vote <=? block_timestamp env)
    "Voting period not ended" ;;
  let s := set_moderationVotes
             (upd (moderationVotes s) postId (ModerationVote.with_executed true)) s in
  (* Get the associated proposal *)
  let proposalId := ModerationVote.proposalId vote in
  let proposal := (proposals s).[proposalId] in
  total <- checked_add (Proposal.forVotes proposal) (Proposal.againstVotes proposal) ;;
  let quorumReached := 0 <? total in
  if quorumReached && (Proposal.againstVotes proposal <? Proposal.forVotes proposal) then
    let s := set_posts (upd (posts s) postId (NewsPost.with_moderationStatus Removed)) s in
    let s := set_proposals (upd (proposals s) proposalId (Proposal.with_status Executed)) s in
    let s := emit (ModerationVoteEnded postId true) s in
    Ok (emit (ProposalExecuted proposalId) s)
  else
    let s := set_posts (upd (posts s) postId (NewsPost.with_moderationStatus None_)) s in
    let s := set_proposals (upd (proposals s) proposalId (Proposal.with_status Rejected)) s in
    let s := emit (ModerationVoteEnded postId false) s in
    Ok (emit (ProposalExecuted proposalId) s).

Definition createProposal (proposalType : ProposalType) (data : list byte)
    (descriptionHash : string) (env : Env) (s : State) : Result (N * State) :=
  require (registered (msg_sender env) s) "User not registered" ;;
  let proposalId := _proposalIdCounter s in
  let s := set_proposalIdCounter (_proposalIdCounter s + 1) s in
  endTime <- checked_add (block_timestamp env) (voteDuration s) ;;
  let s := set_proposals
             (<[proposalId :=
                  Proposal.mk proposalId (msg_sender env) proposalType data
                    (block_timestamp env) endTime 0 0 Active descriptionHash]>
                (proposals s)) s in
  let s := emit (ProposalCreated proposalId (msg_sender env) proposalType) s in
  Ok (proposalId, s).

Definition executeProposal (proposalId : N) (env : Env) (s : State) : Result State :=
  let proposal := (proposals s).[proposalId] in
  require (Proposal.id proposal =? proposalId) "Proposal does not exist" ;;
  require (bool_decide (Proposal.status proposal = Active)) "Proposal not active" ;;
  require (Proposal.endTime proposal <=? block_timestamp env) "Voting period not ended" ;;
  total <- checked_add (Proposal.forVotes proposal) (Proposal.againstVotes proposal) ;;
  let quorumReached := 0 <? total in
  s <- (if quorumReached && (Proposal.againstVotes proposal <? Proposal.forVotes proposal)
        then
          (* Vote passed, execute the proposal *)
          s <- (if bool_decide (Proposal.proposalType proposal = UpdateParameters) then
                  r <- abi_decode_string_uint256 (Proposal.data proposal) ;;
                  let paramName := fst r in
                  let newValue := snd r in
                  if String.eqb paramName "flagThreshold" then
                    Ok (set_flagThreshold newValue s)
                  else if String.eqb paramName "voteDuration" then
                    Ok (set_voteDuration newValue s)
                  else if String.eqb paramName "quorumPercentage" then
                    Ok (set_quorumPercentage newValue s)
                  else Ok s
                else if bool_decide (Proposal.proposalType proposal = GrantRole) then
                  r <- abi_decode_bytes32_address (Proposal.data proposal) ;;
                  Ok (_grantRole (fst r) (snd r) env s)
                else if bool_decide (Proposal.proposalType proposal = RevokeRole) then
                  r <- abi_decode_bytes32_address (Proposal.data proposal) ;;
                  Ok (_revokeRole (fst r) (snd r) env s)
                else Ok s) ;;
          Ok (set_proposals (upd (proposals s) proposalId (Proposal.with_status Executed)) s)
        else
          (* Vote failed or no quorum *)
          Ok (set_proposals (upd (proposals s) proposalId (Proposal.with_status Rejected)) s)) ;;
  Ok (emit (ProposalExecuted proposalId) s).

(** The scan of [followUser]: the loop over the caller's following list
    reverts at the first entry equal to [userToFollow]. *)
Fixpoint scan_following (followingList : list N) (userToFollow : N) : Result unit :=
  match followingList with
  | [] => Ok tt
  | x :: rest =>
      if x =? userToFollow then Revert (Require_failed "Already following this user")
      else scan_following rest userToFollow
  end.

Definition followUser (userToFollow : N) (env : Env) (s : State) : Result State :=
  require (negb (userToFollow =? msg_sender env)) "Cannot follow yourself" ;;
  require (registered userToFollow s) "User to follow does not exist" ;;
  require (registered (msg_sender env) s) "User not registered" ;;
  scan_following ((following s).[msg_sender env]) userToFollow ;;
  let s := set_following
             (upd (following s) (msg_sender env) (fun l => l ++ [userToFollow])) s in
  Ok (emit (UserFollowed (msg_sender env) userToFollow) s).

(** ** Transactions and reachable states *)

Inductive Call :=
| RegisterUser (username metadataHash : string) (userType : UserType)
| VerifyUser (userAddress : N)
| CreatePost (contentHash metadataHash category : string)
| LikePost (postId : N)
| UnlikePost (postId : N)
| AddComment (postId : N) (content : string)
| FlagContent (postId : N)
| StartModerationVote (postId : N)
| CastModerationVote (proposalId : N) (support : bool) (voteWeight : N)
| ExecuteModerationVote (postId : N)
| CreateProposal (proposalType : ProposalType) (data : list byte) (descriptionHash : string)
| ExecuteProposal (proposalId : N)
| FollowUser (userToFollow : N)
| GrantRoleCall (role account : N)
| RevokeRoleCall (role account : N)
| RenounceRoleCall (role account : N).

Definition exec (c : Call) (env : Env) (s : State) : Result State :=
  match c with
  | RegisterUser u m t => registerUser u m t env s
  | VerifyUser a => verifyUser a env s
  | CreatePost c m k => r <- createPost c m k env s ;; Ok (snd r)
  | LikePost p => likePost p env s
  | UnlikePost p => unlikePost p env s
  | AddComment p c => r <- addComment p c env s ;; Ok (snd r)
  | FlagContent p => flagContent p env s
  | StartModerationVote p => startModerationVote p env s
  | CastModerationVote p b w => castModerationVote p b w env s
  | ExecuteModerationVote p => executeModerationVote p env s
  | CreateProposal t d h => r <- createProposal t d h env s ;; Ok (snd r)
  | ExecuteProposal p => executeProposal p env s
  | FollowUser u => followUser u env s
  | GrantRoleCall r a => grantRole r a env s
  | RevokeRoleCall r a => revokeRole r a env s
  | RenounceRoleCall r a => renounceRole r a env s
  end.

(** A state is reachable when a deployment followed by successful calls
    produces it; reverted calls leave the state as it was. *)
Inductive reachable : State -> Prop :=
| reachable_deploy env : reachable (constructor env)
| reachable_call s env c s' :
    reachable s -> exec c env s = Ok s' -> reachable s'.

(** [steps s s']: some sequence of successful calls leads from [s] to [s']. *)
Inductive steps : State -> State -> Prop :=
| steps_refl s : steps s s
| steps_call s env c s' s'' :
    exec c env s = Ok s' -> steps s' s'' -> steps s s''.

(** Running a script of calls: a reverted call is skipped (the EVM rolls it
    back), and the scripts used below keep [block.timestamp] non-decreasing. *)
Fixpoint run (script : list (Env * Call)) (s : State) : State :=
  match script with
  | [] => s
  | (env, c) :: rest =>
      match exec c env s with
      | Ok s' => run rest s'
      | Revert _ => run rest s
      end
  end.

Fixpoint chronological (t : N) (script : list (Env * Call)) : bool :=
  match script with
  | [] => true
  | (env, _) :: rest => (t <=? block_timestamp env) && chronological (block_timestamp env) rest
  end.

(** ** Notions used by the properties *)

(** The number of [true] entries of a [mapping(address => bool)]. *)
Definition true_entries (m : gmap N bool) : nat :=
  size (filter (fun kv => kv.2 = true) m).

(** The number of identities whose like record for [postId] is [true]. *)
Definition like_count (postId : N) (s : State) : nat :=
  true_entries ((postLikes s).[postId]).

(** The invariant behind the like counter: posts that are not yet allocated
    have no author and no likes, and every counter agrees with the records. *)
Definition likes_ok (s : State) : Prop :=
  (forall p, _postIdCounter s <= p ->
     NewsPost.author ((posts s).[p]) = 0 /\ NewsPost.likes ((posts s).[p]) = 0) /\
  (forall p, NewsPost.likes ((posts s).[p]) = N.of_nat (like_count p s)).

(** Every following list is free of its owner and of duplicates. *)
Definition following_ok (s : State) : Prop :=
  forall u : N, (u ∉ (following s).[u]) /\ NoDup ((following s).[u]).

(** The body of [castModerationVote] in two pieces, in the order of its
    statements: the has-voted write, then the weight update, which runs in
    the state the write has produced. *)
Definition record_vote (proposalId : N) (env : Env) (s : State) : State :=
  set_hasVoted (write2 (hasVoted s) proposalId (msg_sender env) true) s.

Definition mirror_vote (proposalId : N) (support : bool) (voteWeight : N)
    (s : State) : Result State :=
  if bool_decide (Proposal.proposalType ((proposals s).[proposalId]) = RemoveContent) then
    postId <- abi_decode_uint256 (Proposal.data ((proposals s).[proposalId])) ;;
    if support then
      m <- checked_add (ModerationVote.forRemovalVotes ((moderationVotes s).[postId]))
             voteWeight ;;
      Ok (set_moderationVotes
            (upd (moderationVotes s) postId (ModerationVote.with_forRemovalVotes m)) s)
    else
      m <- checked_add (ModerationVote.againstRemovalVotes ((moderationVotes s).[postId]))
             voteWeight ;;
      Ok (set_moderationVotes
            (upd (moderationVotes s) postId (ModerationVote.with_againstRemovalVotes m)) s)
  else Ok s.

Definition tally_vote (proposalId : N) (support : bool) (voteWeight : N)
    (s : State) : Result State :=
  if support then
    n <- checked_add (Proposal.forVotes ((proposals s).[proposalId])) voteWeight ;;
    mirror_vote proposalId support voteWeight
      (set_proposals (upd (proposals s) proposalId (Proposal.with_forVotes n)) s)
  else
    n <- checked_add (Proposal.againstVotes ((proposals s).[proposalId])) voteWeight ;;
    mirror_vote proposalId support voteWeight
      (set_proposals (upd (proposals s) proposalId (Proposal.with_againstVotes n)) s).

(** The guards of [castModerationVote] that precede the has-voted check. *)
Definition voting_open (proposalId : N) (env : Env) (s : State) : Prop :=
  _status s = NOT_ENTERED /\
  Proposal.id ((proposals s).[proposalId]) = proposalId /\
  Proposal.status ((proposals s).[proposalId]) = Active /\
  block_timestamp env < Proposal.endTime ((proposals s).[proposalId]).

(** The tally test shared by [executeModerationVote] and [executeProposal]:
    some weight was cast and the weight in favour is strictly larger. *)
Definition passes (p : Proposal.t) : bool :=
  (0 <? Proposal.forVotes p + Proposal.againstVotes p) &&
  (Proposal.againstVotes p <? Proposal.forVotes p).

(** The kind-specific branch that [executeProposal] runs for a passed
    proposal, as a function of the state it runs in. *)
Definition kind_effect (proposal : Proposal.t) (env : Env) (s : State) : Result State :=
  if bool_decide (Proposal.proposalType proposal = UpdateParameters) then
    r <- abi_decode_string_uint256 (Proposal.data proposal) ;;
    if String.eqb (fst r) "flagThreshold" then Ok (set_flagThreshold (snd r) s)
    else if String.eqb (fst r) "voteDuration" then Ok (set_voteDuration (snd r) s)
    else if String.eqb (fst r) "quorumPercentage" then Ok (set_quorumPercentage (snd r) s)
    else Ok s
  else if bool_decide (Proposal.proposalType proposal = GrantRole) then
    r <- abi_decode_bytes32_address (Proposal.data proposal) ;;
    Ok (_grantRole (fst r) (snd r) env s)
  else if bool_decide (Proposal.proposalType proposal = RevokeRole) then
    r <- abi_decode_bytes32_address (Proposal.data proposal) ;;
    Ok (_revokeRole (fst r) (snd r) env s)
  else Ok s.


(** The moderation graph None -> Flagged -> UnderVote -> {Removed, None}. *)
Definition moderation_edge (a b : ModerationStatus) : Prop :=
  (a = None_ /\ b = Flagged) \/
  (a = Flagged /\ b = UnderVote) \/
  (a = UnderVote /\ (b = Removed \/ b = None_)).

(** What holds of every post other than post 0: an unallocated post has no
    author and status None, and a post with an unexecuted moderation vote is
    UnderVote. *)
Definition moderation_ok (s : State) : Prop :=
  forall p, p <> 0 ->
    (_postIdCounter s <= p ->
     NewsPost.author ((posts s).[p]) = 0 /\
     NewsPost.moderationStatus ((posts s).[p]) = None_) /\
    (ModerationVote.postId ((moderationVotes s).[p]) = p ->
     ModerationVote.executed ((moderationVotes s).[p]) = false ->
     NewsPost.moderationStatus ((posts s).[p]) = UnderVote).

(** A proposal that has left the Active state carries the status its
    tallies determine. *)
Definition outcome_recorded (s : State) : Prop :=
  forall pid,
    Proposal.status ((proposals s).[pid]) <> Active ->
    Proposal.status ((proposals s).[pid]) =
      (if passes ((proposals s).[pid]) then Executed else Rejected).

(** ** [castModerationVote], statement by statement

    The same function with the storage it passes through kept: the result
    is the list of the states after each writing statement of the source,
    in the order of the source. These are the guard's entry, the has-voted
    write, the tally write, the mirrored write (for a RemoveContent
    proposal), the event and the guard's exit. Each statement reads the
    state the previous one has left. *)
Definition castModerationVote_trace (proposalId : N) (support : bool) (voteWeight : N)
    (env : Env) (s : State) : Result (list State) :=
  (* nonReentrant, before the body *)
  (match _status s with
   | ENTERED => Revert Reentrant_call
   | NOT_ENTERED => Ok tt
   end) ;;
  let entered := set_status ENTERED s in
  require (Proposal.id ((proposals entered).[proposalId]) =? proposalId)
    "Proposal does not exist" ;;
  require (bool_decide (Proposal.status ((proposals entered).[proposalId]) = Active))
    "Proposal not active" ;;
  require (block_timestamp env <? Proposal.endTime ((proposals entered).[proposalId]))
    "Voting period ended" ;;
  require (negb ((hasVoted entered).[proposalId].[msg_sender env])) "Already voted" ;;
  require (registered (msg_sender env) entered) "User not registered" ;;
  (* hasVoted[proposalId][msg.sender] = true; *)
  let recorded :=
    set_hasVoted (write2 (hasVoted entered) proposalId (msg_sender env) true) entered in
  if support then
    (* proposals[proposalId].forVotes += voteWeight; *)
    n <- checked_add (Proposal.forVotes ((proposals recorded).[proposalId])) voteWeight ;;
    let tallied :=
      set_proposals (upd (proposals recorded) proposalId (Proposal.with_forVotes n))
        recorded in
    if bool_decide (Proposal.proposalType ((proposals tallied).[proposalId]) = RemoveContent)
    then
      postId <- abi_decode_uint256 (Proposal.data ((proposals tallied).[proposalId])) ;;
      (* moderationVotes[postId].forRemovalVotes += voteWeight; *)
      m <- checked_add
             (ModerationVote.forRemovalVotes ((moderationVotes tallied).[postId]))
             voteWeight ;;
      let mirrored :=
        set_moderationVotes
          (upd (moderationVotes tallied) postId (ModerationVote.with_forRemovalVotes m))
          tallied in
      let logged := emit (ProposalVoteCast proposalId (msg_sender env) support) mirrored in
      Ok [entered; recorded; tallied; mirrored; logged; set_status NOT_ENTERED logged]
    else
      let logged := emit (ProposalVoteCast proposalId (msg_sender env) support) tallied in
      Ok [entered; recorded; tallied; logged; set_status NOT_ENTERED logged]
  else
    (* proposals[proposalId].againstVotes += voteWeight; *)
    n <- checked_add (Proposal.againstVotes ((proposals recorded).[proposalId])) voteWeight ;;
    let tallied :=
      set_proposals (upd (proposals recorded) proposalId (Proposal.with_againstVotes n))
        recorded in
    if bool_decide (Proposal.proposalType ((proposals tallied).[proposalId]) = RemoveContent)
    then
      postId <- abi_decode_uint256 (Proposal.data ((proposals tallied).[proposalId])) ;;
      (* moderationVotes[postId].againstRemovalVotes += voteWeight; *)
      m <- checked_add
             (ModerationVote.againstRemovalVotes ((moderationVotes tallied).[postId]))
             voteWeight ;;
      let mirrored :=
        set_moderationVotes
          (upd (moderationVotes tallied) postId (ModerationVote.with_againstRemovalVotes m))
          tallied in
      let logged := emit (ProposalVoteCast proposalId (msg_sender env) support) mirrored in
      Ok [entered; recorded; tallied; mirrored; logged; set_status NOT_ENTERED logged]
    else
      let logged := emit (ProposalVoteCast proposalId (msg_sender env) support) tallied in
      Ok [entered; recorded; tallied; logged; set_status NOT_ENTERED logged].

(** The error of the guard that stops a voter's repeated cast: the guards
    on the proposal's status and deadline are checked before the has-voted
    record. *)
Definition repeated_cast_error (proposalId : N) (env : Env) (s : State) : Error :=
  if bool_decide (Proposal.status ((proposals s).[proposalId]) = Active) then
    if block_timestamp env <? Proposal.endTime ((proposals s).[proposalId]) then
      Require_failed "Already voted"
    else Require_failed "Voting period ended"
  else Require_failed "Proposal not active".

(** ** Scenarios

    Concrete call sequences, run from a fresh deployment. The deployer holds
    the admin role and makes alice a moderator; times are block timestamps
    in seconds. With the initial [voteDuration] of three days a vote opened
    at time 1005 closes at 260205. *)

Definition deployer : N := 1.
Definition alice : N := 2.
Definition bob : N := 3.
Definition carol : N := 4.

Definition deployed : State := constructor (mkEnv deployer 1000).

(** Three users; posts 0 and 1 by alice; proposal 0 is an unrelated
    governance proposal; bob flags post 1 and alice opens the moderation
    vote on it, which allocates proposal 1. *)
Definition scenario_vote_open : list (Env * Call) :=
  [ (mkEnv deployer 1000, GrantRoleCall MODERATOR_ROLE alice);
    (mkEnv alice 1000, RegisterUser "alice" "" Journalist);
    (mkEnv bob 1000, RegisterUser "bob" "" Individual);
    (mkEnv carol 1000, RegisterUser "carol" "" Individual);
    (mkEnv alice 1001, CreatePost "ref0" "" "news");
    (mkEnv alice 1002, CreatePost "ref1" "" "news");
    (mkEnv bob 1003, CreateProposal UpdateParameters [] "");
    (mkEnv bob 1004, FlagContent 1);
    (mkEnv alice 1005, StartModerationVote 1) ].

(** Bob votes for removal with weight 100. *)
Definition scenario_voted_for : list (Env * Call) :=
  scenario_vote_open ++
  [ (mkEnv bob 1006, CastModerationVote 1 true 100) ].

(** Carol files her own RemoveContent proposal (number 2) whose payload
    names post 1, and bob votes for it with weight 100. *)
Definition scenario_second_removal_proposal : list (Env * Call) :=
  scenario_vote_open ++
  [ (mkEnv carol 1006, CreateProposal RemoveContent (abi_encode_uint256 1) "");
    (mkEnv bob 1007, CastModerationVote 2 true 100) ].

(** Bob and carol vote on proposal 1 with weights that sum to 2^256. *)
Definition scenario_huge_weights : list (Env * Call) :=
  scenario_vote_open ++
  [ (mkEnv bob 1006, CastModerationVote 1 true (2 ^ 256 - 1));
    (mkEnv carol 1007, CastModerationVote 1 false 1) ].

(** Alice registers, publishes the first post (number 0) and flags it; no
    moderation vote is ever opened. *)
Definition scenario_first_post_flagged : list (Env * Call) :=
  [ (mkEnv alice 1000, RegisterUser "alice" "" Journalist);
    (mkEnv alice 1001, CreatePost "ref0" "" "news");
    (mkEnv alice 1002, FlagContent 0) ].

(** Alice and bob register, alice publishes post 0 and bob likes it. *)
Definition scenario_liked : list (Env * Call) :=
  [ (mkEnv alice 1000, RegisterUser "alice" "" Journalist);
    (mkEnv bob 1000, RegisterUser "bob" "" Individual);
    (mkEnv alice 1001, CreatePost "ref0" "" "news");
    (mkEnv bob 1002, LikePost 0);
    (mkEnv bob 1003, FollowUser alice) ].

(** Bob proposes to make carol a moderator (proposal 0, payload
    [abi.encode(MODERATOR_ROLE, carol)]) and carol votes for it with weight
    100. *)
Definition scenario_grant_role : list (Env * Call) :=
  [ (mkEnv bob 1000, RegisterUser "bob" "" Individual);
    (mkEnv carol 1000, RegisterUser "carol" "" Individual);
    (mkEnv bob 1001,
     CreateProposal GrantRole
       (abi_encode_uint256 MODERATOR_ROLE ++ abi_encode_uint256 carol) "");
    (mkEnv carol 1002, CastModerationVote 0 true 100) ].

(** As [scenario_grant_role], but the proposal's payload is empty and so
    does not decode as [(bytes32, address)]. *)
Definition scenario_malformed_grant : list (Env * Call) :=
  [ (mkEnv bob 1000, RegisterUser "bob" "" Individual);
    (mkEnv carol 1000, RegisterUser "carol" "" Individual);
    (mkEnv bob 1001, CreateProposal GrantRole [] "");
    (mkEnv carol 1002, CastModerationVote 0 true 100) ].

(** Every call of a script goes through. *)
Fixpoint all_succeed (script : list (Env * Call)) (s : State) : bool :=
  match script with
  | [] => true
  | (env, c) :: rest =>
      match exec c env s with
      | Ok s' => all_succeed rest s'
      | Revert _ => false
      end
  end.

(** Number of [ProposalExecuted] events for a proposal in the log. *)
Definition is_execution_of (proposalId : N) (e : Event) : bool :=
  match e with
  | ProposalExecuted p => p =? proposalId
  | _ => false
  end.

Definition executions_of (proposalId : N) (s : State) : nat :=
  length (List.filter (is_execution_of proposalId) (events s)).

(** ** View functions *)

Definition getPostsByUser (user : N) (s : State) : list N := (userPosts s).[user].

Definition getFollowing (user : N) (s : State) : list N := (following s).[user].

Definition getCommentsByPost (postId : N) (s : State) : list Comment.t :=
  (postComments s).[postId].

Definition hasLiked (postId user : N) (s : State) : bool :=
  (postLikes s).[postId].[user].

Definition getUserVerificationInfo (user : N) (s : State) : UserType * bool :=
  (UserProfile.userType ((users s).[user]), UserProfile.isVerified ((users s).[user])).

(** ** Further notions used by the properties *)

(** What a post carries from its creation on: everything but the two
    counters and the moderation status. *)
Definition post_content (p : NewsPost.t) : N * N * string * string * N * string :=
  (NewsPost.id p, NewsPost.author p, NewsPost.contentHash p,
   NewsPost.metadataHash p, NewsPost.timestamp p, NewsPost.category p).

(** What a profile carries from registration on: everything but the
    verification flag. *)
Definition profile_identity (u : UserProfile.t) : N * string * string * UserType * N :=
  (UserProfile.userAddress u, UserProfile.username u, UserProfile.metadataHash u,
   UserProfile.userType u, UserProfile.registrationTime u).

(** The per-author index agrees with the posts: a list holds exactly the
    allocated posts of its author, in increasing order, and every allocated
    post carries its own identifier. *)
Definition posts_index_ok (s : State) : Prop :=
  (forall p, p < _postIdCounter s -> NewsPost.id ((posts s).[p]) = p) /\
  (forall a p, p ∈ (userPosts s).[a] <->
               p < _postIdCounter s /\ NewsPost.author ((posts s).[p]) = a) /\
  (forall a, StronglySorted N.lt ((userPosts s).[a])).

(** The comment counter of a post is the length of its comment list; a
    stored comment names the post it is stored under and has an allocated
    identifier; identifiers are not shared between stored comments. *)
Definition comments_ok (s : State) : Prop :=
  (forall p, _postIdCounter s <= p ->
     NewsPost.author ((posts s).[p]) = 0 /\ NewsPost.comments ((posts s).[p]) = 0 /\
     (postComments s).[p] = []) /\
  (forall p, NewsPost.comments ((posts s).[p]) = N.of_nat (length ((postComments s).[p]))) /\
  (forall p c, c ∈ (postComments s).[p] ->
     Comment.postId c = p /\ Comment.id c < _commentIdCounter s) /\
  (forall p q c d, c ∈ (postComments s).[p] -> d ∈ (postComments s).[q] ->
     Comment.id c = Comment.id d -> c = d).

(** A removed post has an executed moderation vote. *)
Definition removed_ok (s : State) : Prop :=
  forall p, NewsPost.moderationStatus ((posts s).[p]) = Removed ->
            ModerationVote.executed ((moderationVotes s).[p]) = true.

(** Proposal slots that are not allocated yet are blank but for their
    status: identifier, deadline and tallies are zero and nobody has voted. *)
Definition unallocated_ok (s : State) : Prop :=
  forall pid, _proposalIdCounter s <= pid ->
    Proposal.id ((proposals s).[pid]) = 0 /\
    Proposal.endTime ((proposals s).[pid]) = 0 /\
    Proposal.forVotes ((proposals s).[pid]) = 0 /\
    Proposal.againstVotes ((proposals s).[pid]) = 0.

(** The three platform parameters. *)
Definition parameters (s : State) : N * N * N :=
  (flagThreshold s, voteDuration s, quorumPercentage s).

(** The state with [flagThreshold] and [quorumPercentage] replaced. *)
Definition with_unused_parameters (threshold quorum : N) (s : State) : State :=
  set_flagThreshold threshold (set_quorumPercentage quorum s).

(** The two tallies of a moderation vote agree with those of a proposal. *)
Definition tallies_agree (v : ModerationVote.t) (p : Proposal.t) : Prop :=
  ModerationVote.forRemovalVotes v = Proposal.forVotes p /\
  ModerationVote.againstRemovalVotes v = Proposal.againstVotes p.

(** Two states that agree on everything but [flagThreshold] and
    [quorumPercentage]. *)
Definition differ_only_in_unused_parameters (s t : State) : Prop :=
  with_unused_parameters 0 0 s = with_unused_parameters 0 0 t.

(** Authors of posts and comments and the voters are registered users. *)
Definition participants_registered (s : State) : Prop :=
  (forall p, p < _postIdCounter s ->
     registered (NewsPost.author ((posts s).[p])) s = true) /\
  (forall p c, c ∈ (postComments s).[p] -> registered (Comment.author c) s = true) /\
  (forall pid a, (hasVoted s).[pid].[a] = true -> registered a s = true).

(** ** Further scenarios *)

(** [scenario_vote_open] up to bob's flag, before the vote is opened. *)
Definition scenario_flagged : list (Env * Call) := removelast scenario_vote_open.

(** The vote on post 1 is executed after its deadline: the post is Removed. *)
Definition scenario_removed : list (Env * Call) :=
  scenario_voted_for ++ [ (mkEnv carol 300000, ExecuteModerationVote 1) ].

(** Alice, the moderator, verifies bob. *)
Definition scenario_verified : list (Env * Call) :=
  scenario_vote_open ++ [ (mkEnv alice 1006, VerifyUser bob) ].

(** Alice publishes a third and a fourth post. *)
Definition scenario_third_post : list (Env * Call) :=
  scenario_vote_open ++ [ (mkEnv alice 1006, CreatePost "ref2" "" "news") ].
Definition scenario_fourth_post : list (Env * Call) :=
  scenario_third_post ++ [ (mkEnv alice 1007, CreatePost "ref3" "" "news") ].

(** Bob comments on post 0. *)
Definition scenario_commented : list (Env * Call) :=
  scenario_liked ++ [ (mkEnv bob 1004, AddComment 0 "first") ].

(** [abi.encode("voteDuration", 100)]: the offset of the string, the value,
    the length of the string and its bytes, padded to a full word. *)
Definition payload_voteDuration : list byte :=
  abi_encode_uint256 64 ++ abi_encode_uint256 100 ++ abi_encode_uint256 12 ++
  list_byte_of_string "voteDuration" ++ repeat x00 20.

(** Bob proposes to set [voteDuration] to 100 (proposal 0) and carol votes
    for it with weight 100; after the deadline carol executes it. *)
Definition scenario_new_duration : list (Env * Call) :=
  [ (mkEnv bob 1000, RegisterUser "bob" "" Individual);
    (mkEnv carol 1000, RegisterUser "carol" "" Individual);
    (mkEnv bob 1001, CreateProposal UpdateParameters payload_voteDuration "");
    (mkEnv carol 1002, CastModerationVote 0 true 100) ].
Definition scenario_new_duration_executed : list (Env * Call) :=
  scenario_new_duration ++ [ (mkEnv carol 300000, ExecuteProposal 0) ].

(** The deployer makes alice a moderator. *)
Definition scenario_moderator : list (Env * Call) :=
  [ (mkEnv deployer 1000, GrantRoleCall MODERATOR_ROLE alice) ].

(** * The token contract [DeNewsToken]

    An ERC20 token with an owner (OpenZeppelin's ERC20 and Ownable, as
    inherited) and a reputation score per address. The inherited parts are
    modelled as far as the contract's own functions use them: the balances,
    the owner, [onlyOwner] and the internal [_transfer], which refuses the
    zero address on either side, requires the balance and then moves the
    value with unchecked arithmetic. *)

Module Token.

Inductive Failure :=
| Reason (reason : string)               (* require(cond, reason) *)
| Arithmetic_panic                       (* Panic(0x11) *)
| Unauthorized_account (account : N)     (* Ownable's onlyOwner *)
| Invalid_sender                         (* _transfer from the zero address *)
| Invalid_receiver                       (* _transfer to the zero address *)
| Insufficient_balance (account : N).    (* _transfer of more than the balance *)

Inductive Outcome (A : Type) :=
| Done (a : A)
| Failed (e : Failure).
Arguments Done {A} a.
Arguments Failed {A} e.

Inductive Event :=
| Transfer (from to value : N)
| ReputationIncreased (user amount : N)
| RewardDistributed (user amount : N).

Record State := mkState {
  _balances : gmap N N;            (* ERC20 *)
  _totalSupply : N;                (* ERC20 *)
  _owner : N;                      (* Ownable *)
  reputationScores : gmap N N;
  events : list Event
}.

Definition set_balances (v : gmap N N) (s : State) : State :=
  mkState v (_totalSupply s) (_owner s) (reputationScores s) (events s).
Definition set_reputationScores (v : gmap N N) (s : State) : State :=
  mkState (_balances s) (_totalSupply s) (_owner s) v (events s).
Definition emit (e : Event) (s : State) : State :=
  mkState (_balances s) (_totalSupply s) (_owner s) (reputationScores s) (events s ++ [e]).

Definition balanceOf (account : N) (s : State) : N := (_balances s).[account].
Definition owner (s : State) : N := _owner s.

Definition onlyOwner (env : Env) (s : State) : Outcome unit :=
  if owner s =? msg_sender env then Done tt
  else Failed (Unauthorized_account (msg_sender env)).

Definition _transfer (from to value : N) (s : State) : Outcome State :=
  if from =? 0 then Failed Invalid_sender
  else if to =? 0 then Failed Invalid_receiver
  else
    let fromBalance := (_balances s).[from] in
    if fromBalance <? value then Failed (Insufficient_balance from)
    else
      (* unchecked { _balances[from] = fromBalance - value; _balances[to] += value; } *)
      let s := set_balances (<[from := fromBalance - value]> (_balances s)) s in
      let s := set_balances
                 (<[to := ((_balances s).[to] + value) mod uint256_limit]> (_balances s)) s in
      Done (emit (Transfer from to value) s).

Definition increaseReputation (user amount : N) (env : Env) (s : State) : Outcome State :=
  match onlyOwner env s with
  | Failed e => Failed e
  | Done _ =>
      (* reputationScores[user] += amount, checked *)
      if (reputationScores s).[user] + amount <? uint256_limit then
        let s := set_reputationScores
                   (<[user := (reputationScores s).[user] + amount]> (reputationScores s)) s in
        Done (emit (ReputationIncreased user amount) s)
      else Failed Arithmetic_panic
  end.

Definition distributeReward (user amount : N) (env : Env) (s : State) : Outcome State :=
  match onlyOwner env s with
  | Failed e => Failed e
  | Done _ =>
      if amount <=? balanceOf (owner s) s then
        match _transfer (owner s) user amount s with
        | Failed e => Failed e
        | Done s => Done (emit (RewardDistributed user amount) s)
        end
      else Failed (Reason "Insufficient balance for reward")
  end.

Definition getReputation (user : N) (s : State) : N := (reputationScores s).[user].

(** The sum of all balances. *)
Definition sum_of_balances (s : State) : N :=
  map_fold (fun _ v acc => v + acc) 0 (_balances s).

End Token.

(** A token state: the deployer owns the contract and holds the whole
    supply of 1000 units. *)
Definition token_deployed : Token.State :=
  Token.mkState {[ deployer := 1000 ]} 1000 deployer ∅ [].

(** * Reassembling content chunks

    The storage clients read a file as a sequence of byte chunks and
    combine them with [chunks.reduce] before decoding: each step allocates
    a zero-filled [Uint8Array] of the combined length and copies the two
    parts into it with [set], which throws a RangeError when the source
    does not fit at the offset. *)

Module Uint8Array.

Definition new (length : nat) : list byte := replicate length x00.

Definition set (target source : list byte) (offset : nat) : option (list byte) :=
  if (length target <? offset + length source)%nat then None
  else Some (firstn offset target ++ source ++ skipn (offset + length source) target).

End Uint8Array.

(** The callback of the [reduce]. *)
Definition merge_chunks (prev curr : list byte) : option (list byte) :=
  let merged := Uint8Array.new (length prev + length curr) in
  merged ← Uint8Array.set merged prev 0 ;
  Uint8Array.set merged curr (length prev).

(** [chunks.reduce(callback, new Uint8Array(0))]; an exception in a step
    aborts the whole reduction. *)
Definition combine_chunks (chunks : list (list byte)) : option (list byte) :=
  foldl (fun acc curr => prev ← acc ; merge_chunks prev curr)
    (Some (Uint8Array.new 0)) chunks.

(** * Properties *)

Arguments uint256_limit : simpl never.
Arguments address_limit : simpl never.
Arguments read : simpl never.
Arguments upd : simpl never.
Arguments write2 : simpl never.

(** ** Reading mappings after a write *)

Lemma read_insert `{Countable K} `{Zero V} (m : gmap K V) (k k' : K) (v : V) :
  (<[k := v]> m).[k'] = if decide (k = k') then v else m.[k'].
Proof.
  unfold read. case_decide as Hk.
  - subst. by rewrite lookup_insert_eq.
  - by rewrite lookup_insert_ne.
Qed.

Lemma read_upd `{Countable K} `{Zero V} (m : gmap K V) (k k' : K) (f : V -> V) :
  (upd m k f).[k'] = if decide (k = k') then f (m.[k]) else m.[k'].
Proof. unfold upd. apply read_insert. Qed.

Lemma read_write2 `{Countable K1} `{Countable K2} `{Zero V}
    (m : gmap K1 (gmap K2 V)) (k1 k1' : K1) (k2 k2' : K2) (v : V) :
  (write2 m k1 k2 v).[k1'].[k2'] =
  if decide (k1 = k1' /\ k2 = k2') then v else m.[k1'].[k2'].
Proof.
  unfold write2. rewrite read_insert.
  destruct (decide (k1 = k1')) as [->|Hk1].
  - rewrite read_insert. destruct (decide (k2 = k2')) as [->|Hk2].
    + by rewrite decide_True.
    + rewrite decide_False; [done|]. intros [_ ?]. done.
  - rewrite decide_False; [done|]. intros [? _]. done.
Qed.

Lemma read_write2_outer `{Countable K1} `{Countable K2} {V}
    (m : gmap K1 (gmap K2 V)) (k1 k1' : K1) (k2 : K2) (v : V) :
  (write2 m k1 k2 v).[k1'] = if decide (k1 = k1') then <[k2 := v]> (m.[k1]) else m.[k1'].
Proof. unfold write2. apply read_insert. Qed.

Lemma read_empty `{Countable K} `{Zero V} (k : K) : read (∅ : gmap K V) k = zero.
Proof. unfold read. by rewrite lookup_empty. Qed.

(** ** ABI words *)

Lemma be_to_N_snoc (bs : list byte) (b : byte) :
  be_to_N (bs ++ [b]) = be_to_N bs * 256 + Byte.to_N b.
Proof. unfold be_to_N. by rewrite fold_left_app. Qed.

Lemma to_N_byte_of_N (n : N) : n < 256 -> Byte.to_N (byte_of_N n) = n.
Proof.
  intros Hn. unfold byte_of_N. destruct (Byte.of_N n) as [b|] eqn:E.
  - by apply Byte.to_of_N.
  - apply Byte.of_N_None_iff in E. lia.
Qed.

Lemma length_N_to_be (len : nat) (n : N) : length (N_to_be len n) = len.
Proof.
  revert n. induction len as [|k IH]; intros n; simpl; [done|].
  rewrite length_app, IH. simpl. lia.
Qed.

Lemma be_to_N_N_to_be (len : nat) (n : N) :
  be_to_N (N_to_be len n) = n mod 256 ^ N.of_nat len.
Proof.
  revert n. induction len as [|k IH]; intros n.
  - simpl. by rewrite N.mod_1_r.
  - cbn [N_to_be]. rewrite be_to_N_snoc, IH.
    rewrite to_N_byte_of_N by (apply N.mod_lt; lia).
    rewrite Nat2N.inj_succ, N.pow_succ_r'.
    rewrite N.Div0.mod_mul_r. lia.
Qed.

(** [abi.decode(abi.encode(n), (uint256))] gives back [n]. *)
Lemma abi_uint256_roundtrip (n : N) :
  n < uint256_limit -> abi_decode_uint256 (abi_encode_uint256 n) = Ok n.
Proof.
  intros Hn. unfold abi_decode_uint256, abi_encode_uint256, word_at.
  rewrite length_N_to_be. cbn [Nat.ltb Nat.leb].
  rewrite skipn_O, firstn_all2 by (rewrite length_N_to_be; lia).
  rewrite be_to_N_N_to_be.
  replace (256 ^ N.of_nat 32) with uint256_limit by (vm_compute; reflexivity).
  by rewrite N.mod_small.
Qed.

(** ** Inversion of successful calls *)

Lemma bind_Ok {A B} (m : Result A) (k : A -> Result B) (b : B) :
  bind m k = Ok b -> exists a, m = Ok a /\ k a = Ok b.
Proof. destruct m as [a|e]; simpl; [eauto | discriminate]. Qed.

Lemma require_Ok (cond : bool) (reason : string) (u : unit) :
  require cond reason = Ok u -> cond = true.
Proof. by destruct cond. Qed.

Lemma onlyRole_Ok role env s (u : unit) :
  onlyRole role env s = Ok u -> hasRole role (msg_sender env) s = true.
Proof. unfold onlyRole. by destruct (hasRole _ _ _). Qed.

Lemma checked_add_Ok a b n :
  checked_add a b = Ok n -> n = a + b /\ a + b < uint256_limit.
Proof.
  unfold checked_add. destruct (a + b <? uint256_limit) eqn:E; [|discriminate].
  intros [= <-]. split; [done|]. by apply N.ltb_lt.
Qed.

Lemma checked_add_fits a b :
  a + b < uint256_limit -> checked_add a b = Ok (a + b).
Proof. intros Hlt. unfold checked_add. apply N.ltb_lt in Hlt. by rewrite Hlt. Qed.

Lemma checked_sub_Ok a b n :
  checked_sub a b = Ok n -> n = a - b /\ b <= a.
Proof.
  unfold checked_sub. destruct (b <=? a) eqn:E; [|discriminate].
  intros [= <-]. split; [done|]. by apply N.leb_le.
Qed.

Lemma scan_following_Ok l u (r : unit) :
  scan_following l u = Ok r -> u ∉ l.
Proof.
  induction l as [|x l IH]; simpl.
  - intros _. apply not_elem_of_nil.
  - destruct (x =? u) eqn:E; [discriminate|].
    intros Hs. apply N.eqb_neq in E.
    apply not_elem_of_cons. split; [congruence | by apply IH].
Qed.

Lemma scan_following_Revert l u :
  u ∈ l -> scan_following l u = Revert (Require_failed "Already following this user").
Proof.
  induction l as [|x l IH]; simpl.
  - intros Hin. by apply elem_of_nil in Hin.
  - intros Hin. destruct (x =? u) eqn:E; [done|].
    apply N.eqb_neq in E. apply elem_of_cons in Hin as [->|Hin]; [done | by apply IH].
Qed.

Lemma scan_following_fresh l u :
  u ∉ l -> scan_following l u = Ok tt.
Proof.
  induction l as [|x l IH]; simpl; [done|].
  intros Hn. apply not_elem_of_cons in Hn as [Hne Hn].
  destruct (x =? u) eqn:E.
  - apply N.eqb_eq in E. congruence.
  - by apply IH.
Qed.

Ltac tx_inv1 :=
  match goal with
  | H : Revert _ = Ok _ |- _ => discriminate H
  | H : Ok _ = Ok _ |- _ => injection H as H
  | H : require _ _ = Ok _ |- _ => apply require_Ok in H
  | H : onlyRole _ _ _ = Ok _ |- _ => apply onlyRole_Ok in H
  | H : checked_add _ _ = Ok _ |- _ => apply checked_add_Ok in H; destruct H as [? ?]
  | H : checked_sub _ _ = Ok _ |- _ => apply checked_sub_Ok in H; destruct H as [? ?]
  | H : scan_following _ _ = Ok _ |- _ => apply scan_following_Ok in H
  | H : bind _ _ = Ok _ |- _ =>
      apply bind_Ok in H; destruct H as (? & ? & H); cbv beta zeta in H
  | H : (if ?c then _ else _) = Ok _ |- _ => destruct c eqn:?
  | H : (match ?x with _ => _ end) = Ok _ |- _ => destruct x eqn:?
  | H : (let _ := _ in _) = Ok _ |- _ => cbv zeta in H
  end.

Ltac tx_inv := repeat tx_inv1; subst.

Ltac unfold_calls H :=
  unfold registerUser, verifyUser, createPost, likePost, unlikePost, addComment,
    flagContent, startModerationVote, castModerationVote, executeModerationVote,
    createProposal, executeProposal, followUser, grantRole, revokeRole,
    renounceRole, _grantRole, _revokeRole in H.

(** ** Reachability *)

Lemma steps_trans s1 s2 s3 : steps s1 s2 -> steps s2 s3 -> steps s1 s3.
Proof.
  induction 1 as [|s env c s' s'' Hex Hst IH]; [done|].
  intros H3. eapply steps_call; [exact Hex | by apply IH].
Qed.

Lemma reachable_steps s s' : reachable s -> steps s s' -> reachable s'.
Proof.
  intros Hr Hst. induction Hst as [|s env c s' s'' Hex Hst IH]; [done|].
  apply IH. by eapply reachable_call.
Qed.

Lemma reachable_run script s : reachable s -> reachable (run script s).
Proof.
  revert s. induction script as [|[env c] rest IH]; simpl; [done|].
  intros s Hr. destruct (exec c env s) as [s'|e] eqn:E.
  - apply IH. by eapply reachable_call.
  - by apply IH.
Qed.

(** ** The follow relation *)

Lemma exec_following c env s s' :
  exec c env s = Ok s' ->
  following s' = following s \/
  exists u, c = FollowUser u /\ followUser u env s = Ok s'.
Proof.
  intros Hex. destruct c; cbn [exec] in Hex;
    try (left; unfold_calls Hex; tx_inv; cbn;
         repeat (case_match; cbn); reflexivity).
  right. eauto.
Qed.

Lemma followUser_Ok u env s s' :
  followUser u env s = Ok s' ->
  u <> msg_sender env /\ registered u s = true /\ registered (msg_sender env) s = true /\
  (u ∉ (following s).[msg_sender env]) /\
  s' = emit (UserFollowed (msg_sender env) u)
         (set_following (upd (following s) (msg_sender env) (fun l => l ++ [u])) s).
Proof.
  intros Hex. unfold followUser in Hex. tx_inv.
  repeat split; try done.
  apply N.eqb_neq. by apply negb_true_iff.
Qed.

Lemma following_ok_deploy env : following_ok (constructor env).
Proof.
  intros u. unfold constructor, _grantRole.
  repeat (case_match; cbn); rewrite read_empty; split;
    first [apply not_elem_of_nil | apply NoDup_nil_2].
Qed.

Lemma following_ok_call c env s s' :
  exec c env s = Ok s' -> following_ok s -> following_ok s'.
Proof.
  intros Hex Hok. destruct (exec_following _ _ _ _ Hex) as [Heq | (u & -> & Hf)].
  - intros v. rewrite Heq. apply Hok.
  - apply followUser_Ok in Hf as (Hne & _ & _ & Hfresh & ->).
    intros v. cbn. rewrite read_upd. case_decide as Hv.
    + subst v. destruct (Hok (msg_sender env)) as [Hself Hnd]. split.
      * rewrite elem_of_app, list_elem_of_singleton. intros [?|?]; [done | congruence].
      * apply NoDup_app. split; [done|]. split.
        -- intros x Hx Hx'. apply list_elem_of_singleton in Hx'. by subst.
        -- apply NoDup_singleton.
    + apply Hok.
Qed.

Lemma following_ok_reachable s : reachable s -> following_ok s.
Proof.
  induction 1 as [env | s env c s' _ IH Hex].
  - apply following_ok_deploy.
  - by eapply following_ok_call.
Qed.

(** C9. In every reachable state no following list contains its owner or a
    duplicate; [followUser] reverts (so the state is left as it was) when
    the target is the caller, when target or caller is unregistered, or when
    the target is already followed, and otherwise it succeeds and appends
    exactly the target to the caller's list, touching no other list. *)
Theorem followUser_keeps_following_wellformed s :
  reachable s ->
  following_ok s /\
  forall env u,
    let caller := msg_sender env in
    ((u = caller \/ registered u s = false \/ registered caller s = false \/
      u ∈ ((following s).[caller])) ->
     exists e, followUser u env s = Revert e) /\
    (~ (u = caller \/ registered u s = false \/ registered caller s = false \/
        u ∈ ((following s).[caller])) ->
     exists s', followUser u env s = Ok s' /\
       (following s').[caller] = (following s).[caller] ++ [u] /\
       (forall v, v <> caller -> (following s').[v] = (following s).[v]) /\
       following_ok s').
Proof.
  intros Hr. split; [by apply following_ok_reachable|].
  intros env u caller. split.
  - intros Hbad. destruct (followUser u env s) as [s'|e] eqn:E; [|eauto].
    apply followUser_Ok in E as (Hne & Hru & Hrc & Hfresh & _).
    destruct Hbad as [?|[?|[?|?]]]; [done | congruence | | done].
    fold caller in Hrc. congruence.
  - intros Hgood.
    assert (u <> caller) as Hne by tauto.
    assert (registered u s = true) as Hru by (destruct (registered u s); tauto).
    assert (registered caller s = true) as Hrc by (destruct (registered caller s); tauto).
    assert (u ∉ ((following s).[caller])) as Hfresh by tauto.
    assert (followUser u env s =
            Ok (emit (UserFollowed caller u)
                  (set_following (upd (following s) caller (fun l => l ++ [u])) s))) as Hcall.
    { unfold followUser. fold caller.
      apply N.eqb_neq in Hne. rewrite Hne, Hru, Hrc. cbn.
      rewrite (scan_following_fresh _ _ Hfresh). reflexivity. }
    eexists. split; [exact Hcall|]. cbn. split; [|split].
    + rewrite read_upd. by rewrite decide_True.
    + intros v Hv. rewrite read_upd. by rewrite decide_False.
    + eapply (following_ok_call (FollowUser u)); [exact Hcall|].
      by apply following_ok_reachable.
Qed.

(** ** Likes *)

Lemma true_entries_empty : true_entries ∅ = 0%nat.
Proof. unfold true_entries. by rewrite map_filter_empty, map_size_empty. Qed.

Lemma true_entries_set (m : gmap N bool) (a : N) :
  m.[a] = false -> true_entries (<[a := true]> m) = S (true_entries m).
Proof.
  intros Hf. unfold true_entries.
  rewrite map_filter_insert_True by done.
  apply map_size_insert_None, map_lookup_filter_None_2.
  unfold read in Hf. destruct (m !! a) as [b|]; [right | by left].
  intros x [= <-]. simpl in *. by subst.
Qed.

Lemma true_entries_clear (m : gmap N bool) (a : N) :
  m.[a] = true -> true_entries m = S (true_entries (<[a := false]> m)).
Proof.
  intros Ht. unfold true_entries.
  rewrite map_filter_insert_False by done.
  rewrite map_filter_delete.
  assert (filter (fun kv : N * bool => kv.2 = true) m !! a = Some true) as Hl.
  { apply map_lookup_filter_Some_2; [|done].
    unfold read in Ht. destruct (m !! a) as [b|]; simpl in Ht; by subst. }
  rewrite <-(insert_id _ _ _ Hl) at 1.
  rewrite <-insert_delete_eq.
  apply map_size_insert_None, lookup_delete_eq.
Qed.

Lemma post_exists_author p s :
  post_exists p s = true <-> NewsPost.author ((posts s).[p]) <> 0.
Proof.
  unfold post_exists. rewrite negb_true_iff. apply N.eqb_neq.
Qed.

Lemma likePost_Ok p env s s' :
  likePost p env s = Ok s' ->
  post_exists p s = true /\ (postLikes s).[p].[msg_sender env] = false /\
  NewsPost.likes ((posts s).[p]) + 1 < uint256_limit /\
  s' = emit (PostLiked p (msg_sender env))
         (set_posts (upd (posts s) p (NewsPost.with_likes (NewsPost.likes ((posts s).[p]) + 1)))
            (set_postLikes (write2 (postLikes s) p (msg_sender env) true) s)).
Proof.
  intros Hex. unfold likePost in Hex. tx_inv. cbn in *.
  repeat split; try done. by apply negb_true_iff.
Qed.

Lemma unlikePost_Ok p env s s' :
  unlikePost p env s = Ok s' ->
  post_exists p s = true /\ (postLikes s).[p].[msg_sender env] = true /\
  1 <= NewsPost.likes ((posts s).[p]) /\
  s' = emit (PostUnliked p (msg_sender env))
         (set_posts (upd (posts s) p (NewsPost.with_likes (NewsPost.likes ((posts s).[p]) - 1)))
            (set_postLikes (write2 (postLikes s) p (msg_sender env) false) s)).
Proof.
  intros Hex. unfold unlikePost in Hex. tx_inv. cbn in *. done.
Qed.

Lemma createPost_Ok c m k env s r :
  createPost c m k env s = Ok r ->
  registered (msg_sender env) s = true /\
  r = (_postIdCounter s,
       emit (PostCreated (_postIdCounter s) (msg_sender env) c)
         (set_userPosts (upd (userPosts s) (msg_sender env) (fun l => l ++ [_postIdCounter s]))
            (set_posts
               (<[_postIdCounter s :=
                    NewsPost.mk (_postIdCounter s) (msg_sender env) c m
                      (block_timestamp env) k 0 0 None_]> (posts s))
               (set_postIdCounter (_postIdCounter s + 1) s)))).
Proof. intros Hex. unfold createPost in Hex. tx_inv. done. Qed.

(** Calls other than [createPost], [likePost] and [unlikePost] leave the
    post counter, the like records and every post's author and like counter
    as they were. *)
Lemma exec_likes_frame c env s s' :
  exec c env s = Ok s' ->
  (forall a b d, c <> CreatePost a b d) ->
  (forall p, c <> LikePost p) -> (forall p, c <> UnlikePost p) ->
  _postIdCounter s' = _postIdCounter s /\ postLikes s' = postLikes s /\
  forall p, NewsPost.author ((posts s').[p]) = NewsPost.author ((posts s).[p]) /\
            NewsPost.likes ((posts s').[p]) = NewsPost.likes ((posts s).[p]).
Proof.
  intros Hex Hc Hl Hu.
  destruct c; cbn [exec] in Hex;
    try (exfalso; first [by eapply Hc | by eapply Hl | by eapply Hu]);
    unfold_calls Hex; tx_inv; cbn;
    repeat (case_match; cbn);
    (split; [reflexivity|]); (split; [reflexivity|]); intros q;
    rewrite ?read_upd; repeat (case_decide; subst; cbn); done.
Qed.

Lemma like_count_write2_other p q a b s :
  p <> q ->
  true_entries ((write2 (postLikes s) p a b).[q]) = like_count q s.
Proof.
  intros Hne. unfold like_count. rewrite read_write2_outer. by rewrite decide_False.
Qed.

Lemma likes_ok_deploy env : likes_ok (constructor env).
Proof.
  unfold constructor, _grantRole.
  repeat (case_match; cbn); (split; intros p; [intros _|]);
    unfold like_count; cbn; rewrite !read_empty; try done;
    by rewrite true_entries_empty.
Qed.

Lemma likes_ok_call c env s s' :
  exec c env s = Ok s' -> likes_ok s -> likes_ok s'.
Proof.
  intros Hex [Hfresh Hcount].
  assert ((exists a b d, c = CreatePost a b d) \/ (exists p, c = LikePost p) \/
          (exists p, c = UnlikePost p) \/
          ((forall a b d, c <> CreatePost a b d) /\ (forall p, c <> LikePost p) /\
           (forall p, c <> UnlikePost p))) as Hcases.
  { destruct c; eauto 10; right; right; right; by repeat split. }
  destruct Hcases as [(a & b & d & ->) | [(p & ->) | [(p & ->) | (Hc & Hl & Hu)]]].
  - (* createPost *)
    cbn [exec] in Hex. apply bind_Ok in Hex as (r & Hr & [= <-]).
    apply createPost_Ok in Hr as (_ & ->). unfold likes_ok. cbn.
    split; intros q.
    + intros Hq. rewrite read_insert, decide_False by lia. apply Hfresh. lia.
    + unfold like_count. cbn. rewrite read_insert. case_decide as Hq.
      * subst q. cbn. fold (like_count (_postIdCounter s) s).
        rewrite <-Hcount. symmetry. by apply Hfresh.
      * apply Hcount.
  - (* likePost *)
    cbn [exec] in Hex. apply likePost_Ok in Hex as (Hexi & Hnot & _ & ->).
    apply post_exists_author in Hexi. unfold likes_ok. cbn.
    split; intros q.
    + intros Hq. rewrite read_upd. case_decide as Hpq; [|by apply Hfresh].
      subst q. by destruct (Hfresh p Hq) as [Ha _].
    + unfold like_count. cbn. rewrite read_upd. case_decide as Hpq.
      * subst q. cbn. rewrite read_write2_outer, decide_True by done.
        rewrite true_entries_set by done. rewrite Hcount. unfold like_count. lia.
      * rewrite like_count_write2_other by done. apply Hcount.
  - (* unlikePost *)
    cbn [exec] in Hex. apply unlikePost_Ok in Hex as (Hexi & Hliked & Hpos & ->).
    apply post_exists_author in Hexi. unfold likes_ok. cbn.
    split; intros q.
    + intros Hq. rewrite read_upd. case_decide as Hpq; [|by apply Hfresh].
      subst q. by destruct (Hfresh p Hq) as [Ha _].
    + unfold like_count. cbn. rewrite read_upd. case_decide as Hpq.
      * subst q. cbn. rewrite read_write2_outer, decide_True by done.
        rewrite Hcount. unfold like_count.
        rewrite (true_entries_clear _ _ Hliked). lia.
      * rewrite like_count_write2_other by done. apply Hcount.
  - (* every other call *)
    destruct (exec_likes_frame _ _ _ _ Hex Hc Hl Hu) as (Hctr & Hlk & Hposts).
    split; intros q.
    + rewrite Hctr. intros Hq. destruct (Hposts q) as [-> ->]. by apply Hfresh.
    + destruct (Hposts q) as [_ ->]. unfold like_count. rewrite Hlk. apply Hcount.
Qed.

Lemma likes_ok_reachable s : reachable s -> likes_ok s.
Proof.
  induction 1 as [env | s env c s' _ IH Hex].
  - apply likes_ok_deploy.
  - by eapply likes_ok_call.
Qed.

(** C8. In every reachable state the like counter of a post equals the
    number of identities whose like record for it is [true]; [likePost]
    reverts with "Already liked this post" when the caller's record is
    already [true] and [unlikePost] with "Haven't liked this post" when it is
    [false]; an [unlikePost] on a [true] record succeeds without underflow
    (the counter is at least one); and a successful like followed by an
    unlike by the same identity restores the counter and the record. *)
Theorem likeCount_counts_like_records s p env :
  reachable s ->
  post_exists p s = true ->
  let liker := msg_sender env in
  NewsPost.likes ((posts s).[p]) = N.of_nat (like_count p s) /\
  ((postLikes s).[p].[liker] = true ->
     likePost p env s = Revert (Require_failed "Already liked this post") /\
     1 <= NewsPost.likes ((posts s).[p]) /\
     exists s', unlikePost p env s = Ok s' /\
       NewsPost.likes ((posts s').[p]) = NewsPost.likes ((posts s).[p]) - 1) /\
  ((postLikes s).[p].[liker] = false ->
     unlikePost p env s = Revert (Require_failed "Haven't liked this post")) /\
  (forall s1, likePost p env s = Ok s1 ->
     NewsPost.likes ((posts s1).[p]) = NewsPost.likes ((posts s).[p]) + 1 /\
     exists s2, unlikePost p env s1 = Ok s2 /\
       NewsPost.likes ((posts s2).[p]) = NewsPost.likes ((posts s).[p]) /\
       (postLikes s2).[p].[liker] = (postLikes s).[p].[liker] /\
       like_count p s2 = like_count p s).
Proof.
  intros Hr Hexi liker.
  destruct (likes_ok_reachable s Hr) as [_ Hcount].
  split; [apply Hcount|]. split; [|split].
  - intros Hliked.
    assert (1 <= NewsPost.likes ((posts s).[p])) as Hpos.
    { rewrite Hcount. unfold like_count.
      rewrite (true_entries_clear _ _ Hliked). lia. }
    split; [|split; [done|]].
    + unfold likePost. fold liker. by rewrite Hexi, Hliked.
    + unfold unlikePost. fold liker. rewrite Hexi, Hliked. cbn.
      unfold checked_sub. apply N.leb_le in Hpos. rewrite Hpos. cbn.
      eexists. split; [reflexivity|]. cbn. rewrite read_upd. by rewrite decide_True.
  - intros Hnot. unfold unlikePost. fold liker. by rewrite Hexi, Hnot.
  - intros s1 Hlike. apply likePost_Ok in Hlike as (_ & Hnot & Hfit & ->).
    fold liker in Hnot |- *. cbn. rewrite read_upd, decide_True by done. cbn.
    split; [done|].
    unfold unlikePost. cbn.
    replace (post_exists p _) with true.
    2:{ symmetry. unfold post_exists in *. cbn. rewrite read_upd, decide_True by done.
        cbn. exact Hexi. }
    fold liker. rewrite read_write2, decide_True by done. cbn.
    rewrite read_upd, decide_True by done. cbn.
    unfold checked_sub.
    replace (1 <=? NewsPost.likes ((posts s).[p]) + 1) with true
      by (symmetry; apply N.leb_le; lia).
    cbn. eexists. split; [reflexivity|]. cbn.
    repeat (rewrite read_upd, decide_True by done; cbn).
    split; [lia|].
    rewrite read_write2, decide_True by done. split; [done|].
    unfold like_count. cbn.
    rewrite read_write2_outer, decide_True by done.
    rewrite read_write2_outer, decide_True by done.
    rewrite insert_insert_eq.
    apply Nat.succ_inj.
    rewrite <-(true_entries_set _ liker).
    2:{ rewrite read_insert. by rewrite decide_True. }
    rewrite insert_insert_eq. by rewrite true_entries_set.
Qed.

(** ** Casting votes *)

Lemma castModerationVote_Ok pid support w env s s' :
  castModerationVote pid support w env s = Ok s' ->
  voting_open pid env s /\
  (hasVoted s).[pid].[msg_sender env] = false /\
  registered (msg_sender env) s = true /\
  exists s2,
    tally_vote pid support w (record_vote pid env (set_status ENTERED s)) = Ok s2 /\
    s' = set_status NOT_ENTERED (emit (ProposalVoteCast pid (msg_sender env) support) s2).
Proof.
  intros Hex. unfold castModerationVote in Hex.
  destruct (_status s) eqn:Hst; [|discriminate]. cbn in Hex.
  apply bind_Ok in Hex as (? & Hid%require_Ok & Hex).
  apply bind_Ok in Hex as (? & Hact%require_Ok & Hex).
  apply bind_Ok in Hex as (? & Htime%require_Ok & Hex).
  apply bind_Ok in Hex as (? & Hnv%require_Ok & Hex).
  apply bind_Ok in Hex as (? & Hreg%require_Ok & Hex).
  apply bind_Ok in Hex as (s2 & Htally & [= <-]).
  cbn in *.
  apply N.eqb_eq in Hid. apply bool_decide_eq_true in Hact. apply N.ltb_lt in Htime.
  apply negb_true_iff in Hnv.
  split; [done|]. split; [done|]. split; [done|].
  exists s2. split; [|done].
  unfold tally_vote, mirror_vote, record_vote. cbn.
  destruct support; cbn in *;
    (destruct (checked_add _ w) as [n|] eqn:Hn; cbn in *; [|discriminate]);
    rewrite read_upd, decide_True in * by done; cbn in *;
    (destruct (bool_decide _) eqn:Hty; cbn in *; [|done]);
    (destruct (abi_decode_uint256 _) as [q|] eqn:Hq; cbn in *; done).
Qed.

Lemma castModerationVote_plain pid support w env s s' :
  Proposal.proposalType ((proposals s).[pid]) <> RemoveContent ->
  castModerationVote pid support w env s = Ok s' ->
  let old := (proposals s).[pid] in
  let new :=
    if support then Proposal.with_forVotes (Proposal.forVotes old + w) old
    else Proposal.with_againstVotes (Proposal.againstVotes old + w) old in
  s' = emit (ProposalVoteCast pid (msg_sender env) support)
         (set_proposals (<[pid := new]> (proposals s))
            (set_hasVoted (write2 (hasVoted s) pid (msg_sender env) true) s)).
Proof.
  intros Hty Hex. apply castModerationVote_Ok in Hex
    as ((Hst & _) & _ & _ & s2 & Htally & ->).
  unfold tally_vote, mirror_vote, record_vote in Htally. cbn in Htally.
  destruct support; cbn in *;
    apply bind_Ok in Htally as (n & [-> _]%checked_add_Ok & Htally);
    cbn in Htally; rewrite read_upd, decide_True in Htally by done;
    rewrite bool_decide_eq_false_2 in Htally by done;
    injection Htally as <-; destruct s; cbn in *; subst; reflexivity.
Qed.

(** C10. A successful vote on a proposal whose kind is not RemoveContent
    changes the proposal's [forVotes] (when supporting) or [againstVotes]
    (when opposing) by the given weight, sets the has-voted record of
    (proposal, caller), and appends the [ProposalVoteCast] event; posts,
    moderation votes, user profiles, platform parameters, roles, counters
    and every other proposal and has-voted record are unchanged. *)
Theorem castVote_frame_when_not_RemoveContent pid support w env s s' :
  Proposal.proposalType ((proposals s).[pid]) <> RemoveContent ->
  castModerationVote pid support w env s = Ok s' ->
  let voter := msg_sender env in
  let old := (proposals s).[pid] in
  (proposals s').[pid] =
    (if support then Proposal.with_forVotes (Proposal.forVotes old + w) old
     else Proposal.with_againstVotes (Proposal.againstVotes old + w) old) /\
  (forall q, q <> pid -> (proposals s').[q] = (proposals s).[q]) /\
  (hasVoted s').[pid].[voter] = true /\
  (forall q a, ~ (q = pid /\ a = voter) -> (hasVoted s').[q].[a] = (hasVoted s).[q].[a]) /\
  posts s' = posts s /\
  moderationVotes s' = moderationVotes s /\
  users s' = users s /\
  (flagThreshold s' = flagThreshold s /\ voteDuration s' = voteDuration s /\
   quorumPercentage s' = quorumPercentage s) /\
  (_roles s' = _roles s /\ _status s' = _status s /\
   _postIdCounter s' = _postIdCounter s /\ _commentIdCounter s' = _commentIdCounter s /\
   _proposalIdCounter s' = _proposalIdCounter s) /\
  (postComments s' = postComments s /\ userPosts s' = userPosts s /\
   following s' = following s /\ postLikes s' = postLikes s) /\
  events s' = events s ++ [ProposalVoteCast pid voter support].
Proof.
  intros Hty Hex voter old.
  rewrite (castModerationVote_plain _ _ _ _ _ _ Hty Hex). cbn.
  split; [by rewrite read_insert, decide_True|].
  split; [intros q Hq; by rewrite read_insert, decide_False|].
  split; [by rewrite read_write2, decide_True|].
  split; [intros q a Hqa; rewrite read_write2, decide_False; [done|]; intros [? ?]; by apply Hqa|].
  done.
Qed.

Lemma mirror_vote_Ok pid support w s s2 :
  mirror_vote pid support w s = Ok s2 ->
  exists mv,
    (mv = moderationVotes s \/
     exists postId m,
       mv = upd (moderationVotes s) postId
              (if support then ModerationVote.with_forRemovalVotes m
               else ModerationVote.with_againstRemovalVotes m)) /\
    s2 = set_moderationVotes mv s.
Proof.
  unfold mirror_vote. intros Hm.
  destruct (bool_decide _).
  - apply bind_Ok in Hm as (postId & _ & Hm).
    destruct support;
      apply bind_Ok in Hm as (m & _ & [= <-]);
      (eexists; split; [right; by exists postId, m | done]).
  - injection Hm as <-. exists (moderationVotes s). split; [by left | by destruct s].
Qed.

Lemma tally_vote_Ok pid support w s s2 :
  tally_vote pid support w s = Ok s2 ->
  let old := (proposals s).[pid] in
  (if support then Proposal.forVotes old else Proposal.againstVotes old) + w
    < uint256_limit /\
  exists mv,
    (mv = moderationVotes s \/
     exists postId m,
       mv = upd (moderationVotes s) postId
              (if support then ModerationVote.with_forRemovalVotes m
               else ModerationVote.with_againstRemovalVotes m)) /\
    s2 = set_moderationVotes mv
           (set_proposals
              (upd (proposals s) pid
                 (if support then Proposal.with_forVotes (Proposal.forVotes old + w)
                  else Proposal.with_againstVotes (Proposal.againstVotes old + w)))
              s).
Proof.
  intros Ht. cbv zeta. unfold tally_vote in Ht.
  destruct support;
    apply bind_Ok in Ht as (n & [-> Hfit]%checked_add_Ok & Ht);
    apply mirror_vote_Ok in Ht as (mv & Hmv & ->); cbn in *;
    (split; [done|]); exists mv; done.
Qed.

(** Every successful call leaves the reentrancy guard as it found it. *)
Lemma exec_status c env s s' : exec c env s = Ok s' -> _status s' = _status s.
Proof.
  intros Hex. destruct c; cbn [exec] in Hex;
    unfold_calls Hex; tx_inv; cbn; repeat (case_match; cbn); done.
Qed.

(** Has-voted records are only ever set. *)
Lemma exec_hasVoted c env s s' p a :
  exec c env s = Ok s' ->
  (hasVoted s).[p].[a] = true -> (hasVoted s').[p].[a] = true.
Proof.
  intros Hex Hv. destruct c; cbn [exec] in Hex;
    try (unfold_calls Hex; tx_inv; cbn; repeat (case_match; cbn); exact Hv).
  apply castModerationVote_Ok in Hex as (_ & _ & _ & s2 & Ht & ->).
  apply tally_vote_Ok in Ht as (_ & mv & _ & ->). cbn.
  rewrite read_write2. by case_decide.
Qed.

Lemma steps_status s s' : steps s s' -> _status s' = _status s.
Proof.
  induction 1 as [|s env c s' s'' Hex _ IH]; [done|].
  rewrite IH. by eapply exec_status.
Qed.

Lemma steps_hasVoted s s' p a :
  steps s s' -> (hasVoted s).[p].[a] = true -> (hasVoted s').[p].[a] = true.
Proof.
  induction 1 as [|s env c s' s'' Hex _ IH]; [done|].
  intros Hv. apply IH. by eapply exec_hasVoted.
Qed.

Lemma castModerationVote_voted pid support w env s :
  (hasVoted s).[pid].[msg_sender env] = true ->
  (exists e, castModerationVote pid support w env s = Revert e) /\
  (voting_open pid env s ->
   castModerationVote pid support w env s = Revert (Require_failed "Already voted")).
Proof.
  intros Hv. split.
  - destruct (castModerationVote pid support w env s) as [s'|e] eqn:E; [|eauto].
    apply castModerationVote_Ok in E as (_ & Hnv & _). congruence.
  - intros (Hst & Hid & Hact & Htime).
    unfold castModerationVote. rewrite Hst. cbn.
    apply N.eqb_eq in Hid. apply N.ltb_lt in Htime.
    rewrite Hid, Hact, Htime, Hv. reflexivity.
Qed.

(** ** Executing moderation votes and proposals *)

Lemma executeModerationVote_Ok postId env s s' :
  executeModerationVote postId env s = Ok s' ->
  let vote := (moderationVotes s).[postId] in
  let pid := ModerationVote.proposalId vote in
  let proposal := (proposals s).[pid] in
  ModerationVote.postId vote = postId /\
  ModerationVote.executed vote = false /\
  ModerationVote.endTime vote <= block_timestamp env /\
  Proposal.forVotes proposal + Proposal.againstVotes proposal < uint256_limit /\
  s' = emit (ProposalExecuted pid)
         (emit (ModerationVoteEnded postId (passes proposal))
            (set_proposals
               (upd (proposals s) pid
                  (Proposal.with_status (if passes proposal then Executed else Rejected)))
               (set_posts
                  (upd (posts s) postId
                     (NewsPost.with_moderationStatus
                        (if passes proposal then Removed else None_)))
                  (set_moderationVotes
                     (upd (moderationVotes s) postId (ModerationVote.with_executed true))
                     s)))).
Proof.
  intros Hex. cbv zeta. unfold executeModerationVote in Hex. cbv zeta in Hex.
  apply bind_Ok in Hex as (? & Hid%require_Ok & Hex).
  apply bind_Ok in Hex as (? & Hnex%require_Ok & Hex).
  apply bind_Ok in Hex as (? & Htime%require_Ok & Hex).
  apply bind_Ok in Hex as (total & [-> Hfit]%checked_add_Ok & Hex).
  cbn in *.
  apply N.eqb_eq in Hid. apply negb_true_iff in Hnex. apply N.leb_le in Htime.
  repeat (split; [done|]).
  unfold passes.
  destruct (_ && _); by injection Hex as <-.
Qed.

Lemma executeModerationVote_fires postId env s :
  let vote := (moderationVotes s).[postId] in
  let pid := ModerationVote.proposalId vote in
  let proposal := (proposals s).[pid] in
  ModerationVote.postId vote = postId ->
  ModerationVote.executed vote = false ->
  ModerationVote.endTime vote <= block_timestamp env ->
  Proposal.forVotes proposal + Proposal.againstVotes proposal < uint256_limit ->
  exists s', executeModerationVote postId env s = Ok s'.
Proof.
  cbv zeta. intros Hid Hnex Htime Hfit.
  unfold executeModerationVote. cbv zeta.
  apply N.eqb_eq in Hid. apply N.leb_le in Htime.
  rewrite Hid, Hnex, Htime. cbn.
  rewrite (checked_add_fits _ _ Hfit). cbn.
  destruct (_ && _); eauto.
Qed.

Lemma passes_true p :
  passes p = true <->
  0 < Proposal.forVotes p + Proposal.againstVotes p /\
  Proposal.againstVotes p < Proposal.forVotes p.
Proof.
  unfold passes. rewrite andb_true_iff, N.ltb_lt, N.ltb_lt. done.
Qed.

(** C4 (as amended). For a post whose moderation vote exists, is not yet
    executed and has reached its deadline, [executeModerationVote] succeeds
    when the linked proposal's two tallies sum below 2^256, marks the vote
    executed, and decides on the linked proposal's tallies: with a non-zero
    total and strictly more weight in favour than against, the post becomes
    Removed and the proposal Executed; otherwise (a tie included) the post
    becomes None and the proposal Rejected. *)
Theorem executeModerationVote_decides_on_linked_proposal postId env s :
  let vote := (moderationVotes s).[postId] in
  let pid := ModerationVote.proposalId vote in
  let forWeight := Proposal.forVotes ((proposals s).[pid]) in
  let againstWeight := Proposal.againstVotes ((proposals s).[pid]) in
  ModerationVote.postId vote = postId ->
  ModerationVote.executed vote = false ->
  ModerationVote.endTime vote <= block_timestamp env ->
  forWeight + againstWeight < uint256_limit ->
  exists s',
    executeModerationVote postId env s = Ok s' /\
    ModerationVote.executed ((moderationVotes s').[postId]) = true /\
    ((0 < forWeight + againstWeight /\ againstWeight < forWeight) ->
     NewsPost.moderationStatus ((posts s').[postId]) = Removed /\
     Proposal.status ((proposals s').[pid]) = Executed) /\
    (~ (0 < forWeight + againstWeight /\ againstWeight < forWeight) ->
     NewsPost.moderationStatus ((posts s').[postId]) = None_ /\
     Proposal.status ((proposals s').[pid]) = Rejected).
Proof.
  cbv zeta. intros Hid Hnex Htime Hfit.
  destruct (executeModerationVote_fires postId env s Hid Hnex Htime Hfit) as [s' Hex].
  exists s'. split; [done|].
  apply executeModerationVote_Ok in Hex as (_ & _ & _ & _ & ->). cbn.
  rewrite !read_upd, !decide_True by done. cbn.
  split; [done|]. split.
  - intros Hp. apply passes_true in Hp. by rewrite Hp.
  - intros Hp. rewrite <-passes_true in Hp. apply not_true_is_false in Hp. by rewrite Hp.
Qed.

Lemma executeProposal_unfold pid env s :
  let proposal := (proposals s).[pid] in
  Proposal.id proposal = pid ->
  Proposal.status proposal = Active ->
  Proposal.endTime proposal <= block_timestamp env ->
  Proposal.forVotes proposal + Proposal.againstVotes proposal < uint256_limit ->
  executeProposal pid env s =
    if passes proposal then
      s1 <- kind_effect proposal env s ;;
      Ok (emit (ProposalExecuted pid)
            (set_proposals (upd (proposals s1) pid (Proposal.with_status Executed)) s1))
    else
      Ok (emit (ProposalExecuted pid)
            (set_proposals (upd (proposals s) pid (Proposal.with_status Rejected)) s)).
Proof.
  cbv zeta. intros Hid Hact Htime Hfit.
  unfold executeProposal. cbv zeta.
  apply N.eqb_eq in Hid. apply N.leb_le in Htime.
  rewrite Hid, (bool_decide_eq_true_2 _ Hact), Htime. cbn.
  rewrite (checked_add_fits _ _ Hfit). cbn.
  unfold passes, kind_effect.
  destruct (_ && _); cbn; [|done].
  repeat (case_match; cbn; try done);
    first [destruct (abi_decode_bytes32_address _) | destruct (abi_decode_string_uint256 _)];
    cbn; repeat (case_match; cbn; try done); done.
Qed.

Lemma executeProposal_Ok pid env s s' :
  executeProposal pid env s = Ok s' ->
  let proposal := (proposals s).[pid] in
  Proposal.id proposal = pid /\
  Proposal.status proposal = Active /\
  Proposal.endTime proposal <= block_timestamp env /\
  Proposal.forVotes proposal + Proposal.againstVotes proposal < uint256_limit.
Proof.
  intros Hex. cbv zeta. unfold executeProposal in Hex. cbv zeta in Hex.
  apply bind_Ok in Hex as (? & Hid%require_Ok & Hex).
  apply bind_Ok in Hex as (? & Hact%require_Ok & Hex).
  apply bind_Ok in Hex as (? & Htime%require_Ok & Hex).
  apply bind_Ok in Hex as (total & [-> Hfit]%checked_add_Ok & Hex).
  apply N.eqb_eq in Hid. apply bool_decide_eq_true in Hact. apply N.leb_le in Htime.
  done.
Qed.

(** The kind-specific branch never touches proposals, posts, moderation
    votes or the proposal counter. *)
Lemma kind_effect_frame proposal env s s1 :
  kind_effect proposal env s = Ok s1 ->
  proposals s1 = proposals s /\ posts s1 = posts s /\
  moderationVotes s1 = moderationVotes s /\
  _proposalIdCounter s1 = _proposalIdCounter s.
Proof.
  unfold kind_effect, _grantRole, _revokeRole. intros Hk.
  tx_inv; cbn; repeat (case_match; cbn); done.
Qed.


Lemma executeProposal_inv pid env s s' :
  executeProposal pid env s = Ok s' ->
  let proposal := (proposals s).[pid] in
  exists s1,
    (passes proposal = true /\ kind_effect proposal env s = Ok s1 \/
     passes proposal = false /\ s1 = s) /\
    s' = emit (ProposalExecuted pid)
           (set_proposals
              (upd (proposals s1) pid
                 (Proposal.with_status (if passes proposal then Executed else Rejected)))
              s1).
Proof.
  intros Hex. cbv zeta.
  destruct (executeProposal_Ok _ _ _ _ Hex) as (Hid & Hact & Htime & Hfit).
  rewrite (executeProposal_unfold _ _ _ Hid Hact Htime Hfit) in Hex.
  destruct (passes _) eqn:Hp.
  - apply bind_Ok in Hex as (s1 & Hk & [= <-]). exists s1. split; [by left | done].
  - injection Hex as <-. exists s. split; [by right | done].
Qed.








(** ** Casting votes: the order of the writes and repeated casts *)

(** [castModerationVote] returns the last state of its trace, and reverts
    as the trace does. *)
Lemma castModerationVote_trace_last pid support w env s :
  castModerationVote pid support w env s =
    (trace <- castModerationVote_trace pid support w env s ;; Ok (List.last trace s)).
Proof.
  unfold castModerationVote, castModerationVote_trace.
  destruct (_status s); [|done]. cbn [bind].
  repeat (match goal with
          | |- bind (require ?c ?m) _ = bind (bind (require ?c ?m) _) _ =>
              destruct c; cbn [bind require]; [|done]
          end).
  cbv zeta.
  destruct support;
    (destruct (checked_add _ w) as [n|]; cbn [bind]; [|done]);
    (destruct (bool_decide _); cbn [bind]; [|done]);
    (destruct (abi_decode_uint256 _) as [postId|]; cbn [bind]; [|done]);
    (destruct (checked_add _ w) as [m|]; cbn [bind]; done).
Qed.

(** The id field of a proposal slot that equals its key stays so. *)
Lemma exec_proposal_id c env s s' k :
  exec c env s = Ok s' ->
  Proposal.id ((proposals s).[k]) = k -> Proposal.id ((proposals s').[k]) = k.
Proof.
  intros Hex Hk. destruct c; cbn [exec] in Hex;
    try (unfold registerUser, verifyUser, createPost, likePost, unlikePost, addComment,
           flagContent, startModerationVote, createProposal, followUser, grantRole,
           revokeRole, renounceRole, _grantRole, _revokeRole in Hex;
         tx_inv; cbn; repeat (case_match; cbn);
         rewrite ?read_insert; try destruct (decide _) as [<-|]; done).
  - apply castModerationVote_Ok in Hex as (_ & _ & _ & s2 & Ht & ->).
    apply tally_vote_Ok in Ht as (_ & mv & _ & ->). cbn.
    rewrite read_upd. destruct (decide _) as [<-|]; [|done]. by destruct support.
  - apply executeModerationVote_Ok in Hex as (_ & _ & _ & _ & ->). cbn.
    rewrite read_upd. destruct (decide _) as [<-|]; done.
  - apply executeProposal_inv in Hex as (s1 & Hs1 & ->). cbn.
    assert (proposals s1 = proposals s) as ->.
    { destruct Hs1 as [[_ Hkind]|[_ ->]]; [|done].
      by apply kind_effect_frame in Hkind as (? & _). }
    rewrite read_upd. destruct (decide _) as [<-|]; done.
Qed.

Lemma steps_proposal_id s s' k :
  steps s s' ->
  Proposal.id ((proposals s).[k]) = k -> Proposal.id ((proposals s').[k]) = k.
Proof.
  induction 1 as [|s env c s' s'' Hex _ IH]; [done|].
  intros Hk. apply IH. by eapply exec_proposal_id.
Qed.

(** A cast by a recorded voter reverts at the first guard that fails. *)
Lemma castModerationVote_repeated pid support w env s :
  _status s = NOT_ENTERED ->
  Proposal.id ((proposals s).[pid]) = pid ->
  (hasVoted s).[pid].[msg_sender env] = true ->
  castModerationVote pid support w env s = Revert (repeated_cast_error pid env s).
Proof.
  intros Hst Hid Hv. unfold castModerationVote, repeated_cast_error. rewrite Hst. cbn.
  apply N.eqb_eq in Hid. rewrite Hid. cbn.
  destruct (bool_decide _); cbn; [|done].
  destruct (_ <? _); cbn; [|done].
  by rewrite Hv.
Qed.

(** C6 (as amended). A successful cast finds the caller's has-voted record
    unset and sets it. The record is written before any weight mutation:
    among the states the body passes through, in source order, there is one
    in which the record is set while every proposal and every moderation
    vote is still as before the call, and every state in which a proposal
    or a moderation vote differs from its value before the call has the
    record set. The given weight is added exactly once, to [forVotes] when
    supporting and to [againstVotes] otherwise, the other tally being
    untouched. In every state reached afterwards a cast by the same
    identity on the same proposal reverts, so it mutates nothing; the error
    is that of the first guard that fails: "Proposal not active" when the
    proposal has left the Active state, else "Voting period ended" when the
    deadline has passed, else "Already voted", which is the case for an
    immediate second cast in the same block. *)
Theorem castVote_succeeds_at_most_once pid support w env s s' :
  castModerationVote pid support w env s = Ok s' ->
  let voter := msg_sender env in
  let old := (proposals s).[pid] in
  (hasVoted s).[pid].[voter] = false /\
  (hasVoted s').[pid].[voter] = true /\
  (exists trace,
     castModerationVote_trace pid support w env s = Ok trace /\
     List.last trace s = s' /\
     (exists st,
        st ∈ trace /\ (hasVoted st).[pid].[voter] = true /\
        proposals st = proposals s /\ moderationVotes st = moderationVotes s) /\
     (forall st,
        st ∈ trace ->
        proposals st <> proposals s \/ moderationVotes st <> moderationVotes s ->
        (hasVoted st).[pid].[voter] = true)) /\
  Proposal.forVotes ((proposals s').[pid]) =
    Proposal.forVotes old + (if support then w else 0) /\
  Proposal.againstVotes ((proposals s').[pid]) =
    Proposal.againstVotes old + (if support then 0 else w) /\
  voting_open pid env s' /\
  forall s'' env' support' w',
    steps s' s'' -> msg_sender env' = voter ->
    castModerationVote pid support' w' env' s''
      = Revert (repeated_cast_error pid env' s'') /\
    (voting_open pid env' s'' ->
     castModerationVote pid support' w' env' s'' = Revert (Require_failed "Already voted")).
Proof.
  intros Hex voter old.
  pose proof Hex as Htrace. rewrite castModerationVote_trace_last in Htrace.
  apply bind_Ok in Htrace as (trace & Htrace & [= Hlast]).
  apply castModerationVote_Ok in Hex
    as ((Hst & Hid & Hact & Htime) & Hnv & _ & s2 & Ht & ->).
  pose proof Ht as Ht'.
  apply tally_vote_Ok in Ht' as (_ & mv & _ & Hs2). cbn in Hs2. subst s2.
  match goal with |- _ /\ ?P /\ _ => assert P as Hvoted end.
  { cbn. by rewrite read_write2, decide_True. }
  split; [done|]. split; [done|].
  split.
  { exists trace. split; [done|]. split; [done|].
    clear Hlast Ht Hvoted.
    unfold castModerationVote_trace in Htrace. rewrite Hst in Htrace.
    cbn [bind] in Htrace.
    do 5 (apply bind_Ok in Htrace as (_ & _ & Htrace)).
    cbv zeta in Htrace.
    assert (forall t : State,
              hasVoted t = write2 (hasVoted s) pid voter true ->
              (hasVoted t).[pid].[voter] = true) as Hrec.
    { intros t ->. by rewrite read_write2, decide_True. }
    destruct support;
      apply bind_Ok in Htrace as (n & _ & Htrace);
      (destruct (bool_decide _);
       [apply bind_Ok in Htrace as (postId & _ & Htrace);
        apply bind_Ok in Htrace as (m & _ & Htrace)|]);
      injection Htrace as <-;
      (split;
       [eexists; split; [apply list_elem_of_further, list_elem_of_here|];
        split; [by apply Hrec|]; done
       |intros st Hin Hchg;
        repeat (apply elem_of_cons in Hin as [->|Hin]);
        try (by apply elem_of_nil in Hin);
        try (by apply Hrec);
        destruct Hchg as [Hchg|Hchg]; by destruct Hchg]). }
  cbn. rewrite read_upd, decide_True by done. fold old.
  split; [destruct support; cbn; lia|].
  split; [destruct support; cbn; lia|].
  split.
  { unfold voting_open. cbn. rewrite read_upd, decide_True by done.
    fold old. by destruct support. }
  intros s'' env' support' w' Hsteps Hsender.
  assert ((hasVoted s'').[pid].[msg_sender env'] = true) as Hv.
  { rewrite Hsender. by eapply steps_hasVoted. }
  split.
  - apply castModerationVote_repeated; [|  |done].
    + by rewrite (steps_status _ _ Hsteps).
    + eapply steps_proposal_id; [done|]. cbn.
      rewrite read_upd, decide_True by done. fold old. by destruct support.
  - by apply castModerationVote_voted.
Qed.

(** ** The moderation graph away from post 0 *)

Lemma flagContent_Ok p env s s' :
  flagContent p env s = Ok s' ->
  post_exists p s = true /\
  NewsPost.moderationStatus ((posts s).[p]) = None_ /\
  s' = emit (ContentFlagged p (msg_sender env))
         (set_posts (upd (posts s) p (NewsPost.with_moderationStatus Flagged)) s).
Proof.
  intros Hex. unfold flagContent in Hex. tx_inv.
  split; [done|]. split; [|done]. by eapply bool_decide_eq_true_1.
Qed.

Lemma startModerationVote_Ok p env s s' :
  startModerationVote p env s = Ok s' ->
  post_exists p s = true /\
  NewsPost.moderationStatus ((posts s).[p]) = Flagged /\
  exists endTime,
    s' = emit (ProposalCreated (_proposalIdCounter s) (msg_sender env) RemoveContent)
           (emit (ModerationVoteStarted p (_proposalIdCounter s))
              (set_posts (upd (posts s) p (NewsPost.with_moderationStatus UnderVote))
                 (set_moderationVotes
                    (<[p := ModerationVote.mk (_proposalIdCounter s) p
                              (block_timestamp env) endTime 0 0 false]>
                       (moderationVotes s))
                    (set_proposals
                       (<[_proposalIdCounter s :=
                            Proposal.mk (_proposalIdCounter s) (msg_sender env)
                              RemoveContent (abi_encode_uint256 p)
                              (block_timestamp env) endTime 0 0 Active ""]>
                          (proposals s))
                       (set_proposalIdCounter (_proposalIdCounter s + 1) s))))).
Proof.
  intros Hex. unfold startModerationVote in Hex. tx_inv. cbn in *.
  split; [done|]. split; [by eapply bool_decide_eq_true_1|]. eauto.
Qed.

(** Calls other than the five that create posts or drive moderation leave
    the post counter, the moderation votes and every post's author and
    moderation status as they were. *)
Lemma exec_moderation_frame c env s s' :
  exec c env s = Ok s' ->
  (forall a b d, c <> CreatePost a b d) ->
  (forall p, c <> FlagContent p) ->
  (forall p, c <> StartModerationVote p) ->
  (forall p, c <> ExecuteModerationVote p) ->
  (forall p b w, c <> CastModerationVote p b w) ->
  _postIdCounter s' = _postIdCounter s /\ moderationVotes s' = moderationVotes s /\
  forall p, NewsPost.author ((posts s').[p]) = NewsPost.author ((posts s).[p]) /\
            NewsPost.moderationStatus ((posts s').[p]) =
              NewsPost.moderationStatus ((posts s).[p]).
Proof.
  intros Hex H1 H2 H3 H4 H5.
  destruct c; cbn [exec] in Hex;
    try (exfalso;
         first [by eapply H1 | by eapply H2 | by eapply H3 | by eapply H4 | by eapply H5]);
    unfold_calls Hex; tx_inv; cbn;
    repeat (case_match; cbn);
    (split; [reflexivity|]); (split; [reflexivity|]); intros q;
    rewrite ?read_upd; repeat (destruct (decide _); subst; cbn); done.
Qed.

Lemma exec_moderation_cases c :
  (exists a b d, c = CreatePost a b d) \/ (exists p, c = FlagContent p) \/
  (exists p, c = StartModerationVote p) \/ (exists p, c = ExecuteModerationVote p) \/
  (exists p b w, c = CastModerationVote p b w) \/
  ((forall a b d, c <> CreatePost a b d) /\ (forall p, c <> FlagContent p) /\
   (forall p, c <> StartModerationVote p) /\ (forall p, c <> ExecuteModerationVote p) /\
   (forall p b w, c <> CastModerationVote p b w)).
Proof.
  destruct c; eauto 10; do 5 right; by repeat split.
Qed.

Lemma moderation_ok_deploy env : moderation_ok (constructor env).
Proof.
  unfold constructor, _grantRole.
  repeat (case_match; cbn); intros p Hp; cbn; rewrite !read_empty; cbn;
    (split; [intros _; split; reflexivity | intros Hz; by destruct Hp]).
Qed.

Lemma moderation_ok_call c env s s' :
  exec c env s = Ok s' -> moderation_ok s -> moderation_ok s'.
Proof.
  intros Hex Hok.
  destruct (exec_moderation_cases c)
    as [(a & b & d & ->) | [(q & ->) | [(q & ->) | [(q & ->) | [(q & b & w & ->) | Hne]]]]];
    cbn [exec] in Hex.
  - (* createPost *)
    apply bind_Ok in Hex as (r & Hr & [= <-]).
    apply createPost_Ok in Hr as (_ & ->). intros p Hp.
    destruct (Hok p Hp) as [Hfresh Hvote]. cbn.
    rewrite read_insert. destruct (decide _) as [<-|Hq]; cbn.
    + split; [lia|]. intros Hid Hnex.
      destruct Hfresh as [_ Hnone]; [lia|].
      rewrite (Hvote Hid Hnex) in Hnone. discriminate.
    + split; [intros Hle; apply Hfresh; lia | exact Hvote].
  - (* flagContent *)
    apply flagContent_Ok in Hex as (Hexi%post_exists_author & Hnone & ->).
    intros p Hp. destruct (Hok p Hp) as [Hfresh Hvote]. cbn.
    rewrite !read_upd. destruct (decide _) as [<-|Hq]; cbn; [|done].
    split.
    + intros Hle. by destruct (Hfresh Hle) as [Ha _].
    + intros Hid Hnex. rewrite (Hvote Hid Hnex) in Hnone. discriminate.
  - (* startModerationVote *)
    apply startModerationVote_Ok in Hex as (Hexi%post_exists_author & _ & endTime & ->).
    intros p Hp. destruct (Hok p Hp) as [Hfresh Hvote]. cbn.
    rewrite !read_upd, read_insert. destruct (decide _) as [<-|Hq]; cbn; [|done].
    split; [|done].
    intros Hle. by destruct (Hfresh Hle) as [Ha _].
  - (* executeModerationVote *)
    apply executeModerationVote_Ok in Hex as (Hid & Hnex & _ & _ & ->).
    intros p Hp. destruct (Hok p Hp) as [Hfresh Hvote]. cbn.
    rewrite !read_upd. destruct (decide _) as [<-|Hq]; cbn; [|done].
    split; [|done].
    intros Hle. destruct (Hfresh Hle) as [_ Hnone].
    rewrite (Hvote Hid Hnex) in Hnone. discriminate.
  - (* castModerationVote *)
    apply castModerationVote_Ok in Hex as (_ & _ & _ & s2 & Ht & ->).
    apply tally_vote_Ok in Ht as (_ & mv & [->|(k & m & ->)] & ->);
      intros p Hp; destruct (Hok p Hp) as [Hfresh Hvote]; cbn; [done|].
    split; [done|].
    rewrite read_upd. destruct (decide _) as [<-|Hq]; [|done].
    by destruct b.
  - (* every other call *)
    destruct Hne as (H1 & H2 & H3 & H4 & H5).
    destruct (exec_moderation_frame _ _ _ _ Hex H1 H2 H3 H4 H5) as (Hctr & Hmv & Hposts).
    intros p Hp. destruct (Hok p Hp) as [Hfresh Hvote].
    destruct (Hposts p) as [Ha Hs]. rewrite Hctr, Hmv, Ha, Hs. done.
Qed.

Lemma moderation_ok_reachable s : reachable s -> moderation_ok s.
Proof.
  induction 1 as [env | s env c s' _ IH Hex].
  - apply moderation_ok_deploy.
  - by eapply moderation_ok_call.
Qed.

(** For every post other than post 0, in every reachable state, a successful
    call either leaves the moderation status as it was or moves it along an
    edge of the graph. *)
Lemma moderation_graph_respected_off_post_zero s c env s' p :
  reachable s -> exec c env s = Ok s' -> p <> 0 ->
  NewsPost.moderationStatus ((posts s').[p]) = NewsPost.moderationStatus ((posts s).[p]) \/
  moderation_edge (NewsPost.moderationStatus ((posts s).[p]))
                  (NewsPost.moderationStatus ((posts s').[p])).
Proof.
  intros Hr Hex Hp.
  destruct (moderation_ok_reachable s Hr p Hp) as [Hfresh Hvote].
  destruct (exec_moderation_cases c)
    as [(a & b & d & ->) | [(q & ->) | [(q & ->) | [(q & ->) | [(q & b & w & ->) | Hne]]]]];
    cbn [exec] in Hex.
  - apply bind_Ok in Hex as (r & Hr' & [= <-]).
    apply createPost_Ok in Hr' as (_ & ->). cbn.
    rewrite read_insert. destruct (decide _) as [<-|Hq]; cbn; [|by left].
    left. destruct Hfresh as [_ ->]; [lia | done].
  - apply flagContent_Ok in Hex as (_ & Hnone & ->). cbn.
    rewrite read_upd. destruct (decide _) as [<-|Hq]; cbn; [|by left].
    right. left. done.
  - apply startModerationVote_Ok in Hex as (_ & Hfl & endTime & ->). cbn.
    rewrite read_upd. destruct (decide _) as [<-|Hq]; cbn; [|by left].
    right. right. left. done.
  - apply executeModerationVote_Ok in Hex as (Hid & Hnex & _ & _ & ->). cbn.
    rewrite read_upd. destruct (decide _) as [<-|Hq]; cbn; [|by left].
    right. right. right. split; [by apply Hvote|].
    destruct (passes _); [by left | by right].
  - apply castModerationVote_Ok in Hex as (_ & _ & _ & s2 & Ht & ->).
    apply tally_vote_Ok in Ht as (_ & mv & _ & ->). by left.
  - destruct Hne as (H1 & H2 & H3 & H4 & H5).
    destruct (exec_moderation_frame _ _ _ _ Hex H1 H2 H3 H4 H5) as (_ & _ & Hposts).
    left. by destruct (Hposts p) as [_ ->].
Qed.

(** ** Proposals that have left the Active state *)

Lemma createProposal_Ok ty data descr env s r :
  createProposal ty data descr env s = Ok r ->
  exists endTime,
    r = (_proposalIdCounter s,
         emit (ProposalCreated (_proposalIdCounter s) (msg_sender env) ty)
           (set_proposals
              (<[_proposalIdCounter s :=
                   Proposal.mk (_proposalIdCounter s) (msg_sender env) ty data
                     (block_timestamp env) endTime 0 0 Active descr]> (proposals s))
              (set_proposalIdCounter (_proposalIdCounter s + 1) s))).
Proof. intros Hex. unfold createProposal in Hex. tx_inv. cbn. eauto. Qed.

(** Calls other than the five that create, vote on or execute proposals
    leave the proposals and their counter as they were. *)
Lemma exec_proposals_frame c env s s' :
  exec c env s = Ok s' ->
  (forall p, c <> StartModerationVote p) ->
  (forall t d h, c <> CreateProposal t d h) ->
  (forall p b w, c <> CastModerationVote p b w) ->
  (forall p, c <> ExecuteModerationVote p) ->
  (forall p, c <> ExecuteProposal p) ->
  proposals s' = proposals s /\ _proposalIdCounter s' = _proposalIdCounter s.
Proof.
  intros Hex H1 H2 H3 H4 H5.
  destruct c; cbn [exec] in Hex;
    try (exfalso;
         first [by eapply H1 | by eapply H2 | by eapply H3 | by eapply H4 | by eapply H5]);
    unfold_calls Hex; tx_inv; cbn; repeat (case_match; cbn); done.
Qed.

Lemma exec_proposals_cases c :
  (exists p, c = StartModerationVote p) \/ (exists t d h, c = CreateProposal t d h) \/
  (exists p b w, c = CastModerationVote p b w) \/ (exists p, c = ExecuteModerationVote p) \/
  (exists p, c = ExecuteProposal p) \/
  ((forall p, c <> StartModerationVote p) /\ (forall t d h, c <> CreateProposal t d h) /\
   (forall p b w, c <> CastModerationVote p b w) /\ (forall p, c <> ExecuteModerationVote p) /\
   (forall p, c <> ExecuteProposal p)).
Proof.
  destruct c; eauto 10; do 5 right; by repeat split.
Qed.

Lemma with_status_same (p : Proposal.t) : Proposal.with_status (Proposal.status p) p = p.
Proof. by destruct p. Qed.

Lemma outcome_recorded_deploy env : outcome_recorded (constructor env).
Proof.
  unfold constructor, _grantRole.
  repeat (case_match; cbn); intros pid; cbn; rewrite read_empty; intros Hna; by destruct Hna.
Qed.

Lemma outcome_recorded_call c env s s' :
  exec c env s = Ok s' -> outcome_recorded s -> outcome_recorded s'.
Proof.
  intros Hex Hrec.
  destruct (exec_proposals_cases c)
    as [(q & ->) | [(t & d & h & ->) | [(q & b & w & ->) | [(q & ->) | [(q & ->) | Hne]]]]];
    cbn [exec] in Hex.
  - apply startModerationVote_Ok in Hex as (_ & _ & endTime & ->).
    intros pid. cbn. rewrite read_insert. destruct (decide _) as [<-|Hq]; cbn; [done|].
    apply Hrec.
  - apply bind_Ok in Hex as (r & Hr & [= <-]).
    apply createProposal_Ok in Hr as (endTime & ->).
    intros pid. cbn. rewrite read_insert. destruct (decide _) as [<-|Hq]; cbn; [done|].
    apply Hrec.
  - apply castModerationVote_Ok in Hex as ((_ & _ & Hact & _) & _ & _ & s2 & Ht & ->).
    apply tally_vote_Ok in Ht as (_ & mv & _ & ->).
    intros pid. cbn. rewrite read_upd. destruct (decide _) as [<-|Hq]; [|apply Hrec].
    destruct b; cbn; rewrite Hact; done.
  - apply executeModerationVote_Ok in Hex as (_ & _ & _ & _ & ->).
    intros pid. cbn. rewrite read_upd. destruct (decide _) as [<-|Hq]; [|apply Hrec].
    intros _. unfold passes. cbn. done.
  - apply executeProposal_inv in Hex as (s1 & Hs1 & ->).
    assert (proposals s1 = proposals s) as Hp1.
    { destruct Hs1 as [[_ Hk]|[_ ->]]; [|done].
      by apply kind_effect_frame in Hk as (? & _). }
    intros pid. cbn. rewrite Hp1, read_upd. destruct (decide _) as [<-|Hq]; [|apply Hrec].
    intros _. unfold passes. cbn. done.
  - destruct Hne as (H1 & H2 & H3 & H4 & H5).
    destruct (exec_proposals_frame _ _ _ _ Hex H1 H2 H3 H4 H5) as [Hp _].
    intros pid. rewrite Hp. apply Hrec.
Qed.

Lemma outcome_recorded_reachable s : reachable s -> outcome_recorded s.
Proof.
  induction 1 as [env | s env c s' _ IH Hex].
  - apply outcome_recorded_deploy.
  - by eapply outcome_recorded_call.
Qed.

(** In a reachable state, no call changes any field of a created proposal
    that has left the Active state: a later [executeModerationVote] on the
    vote linked to it writes back the status it already has. *)
Lemma exec_terminal_frozen c env s s' pid :
  reachable s ->
  exec c env s = Ok s' ->
  pid < _proposalIdCounter s ->
  Proposal.status ((proposals s).[pid]) <> Active ->
  (proposals s').[pid] = (proposals s).[pid].
Proof.
  intros Hr Hex Hlt Hna.
  pose proof (outcome_recorded_reachable s Hr pid Hna) as Hout.
  destruct (exec_proposals_cases c)
    as [(q & ->) | [(t & d & h & ->) | [(q & b & w & ->) | [(q & ->) | [(q & ->) | Hne]]]]];
    cbn [exec] in Hex.
  - apply startModerationVote_Ok in Hex as (_ & _ & endTime & ->). cbn.
    rewrite read_insert, decide_False by lia. done.
  - apply bind_Ok in Hex as (r & Hr' & [= <-]).
    apply createProposal_Ok in Hr' as (endTime & ->). cbn.
    rewrite read_insert, decide_False by lia. done.
  - apply castModerationVote_Ok in Hex as ((_ & _ & Hact & _) & _ & _ & s2 & Ht & ->).
    apply tally_vote_Ok in Ht as (_ & mv & _ & ->). cbn.
    rewrite read_upd. destruct (decide _) as [<-|Hq]; [|done]. cbn in Hact. congruence.
  - apply executeModerationVote_Ok in Hex as (_ & _ & _ & _ & ->). cbn.
    rewrite read_upd. destruct (decide _) as [Hq|Hq]; [|done].
    rewrite Hq, <-Hout. apply with_status_same.
  - pose proof (executeProposal_Ok _ _ _ _ Hex) as (_ & Hact & _).
    apply executeProposal_inv in Hex as (s1 & Hs1 & ->).
    assert (proposals s1 = proposals s) as Hp1.
    { destruct Hs1 as [[_ Hk]|[_ ->]]; [|done].
      by apply kind_effect_frame in Hk as (? & _). }
    cbn. rewrite Hp1, read_upd. destruct (decide _) as [<-|Hq]; [|done]. congruence.
  - destruct Hne as (H1 & H2 & H3 & H4 & H5).
    destruct (exec_proposals_frame _ _ _ _ Hex H1 H2 H3 H4 H5) as [Hp _].
    by rewrite Hp.
Qed.

Lemma exec_counter_grows c env s s' :
  exec c env s = Ok s' -> _proposalIdCounter s <= _proposalIdCounter s'.
Proof.
  intros Hex.
  destruct (exec_proposals_cases c)
    as [(q & ->) | [(t & d & h & ->) | [(q & b & w & ->) | [(q & ->) | [(q & ->) | Hne]]]]];
    cbn [exec] in Hex.
  - apply startModerationVote_Ok in Hex as (_ & _ & endTime & ->). cbn. lia.
  - apply bind_Ok in Hex as (r & Hr' & [= <-]).
    apply createProposal_Ok in Hr' as (endTime & ->). cbn. lia.
  - apply castModerationVote_Ok in Hex as (_ & _ & _ & s2 & Ht & ->).
    apply tally_vote_Ok in Ht as (_ & mv & _ & ->). cbn. lia.
  - apply executeModerationVote_Ok in Hex as (_ & _ & _ & _ & ->). cbn. lia.
  - apply executeProposal_inv in Hex as (s1 & Hs1 & ->). cbn.
    destruct Hs1 as [[_ Hk]|[_ ->]]; [|lia].
    apply kind_effect_frame in Hk as (_ & _ & _ & ->). lia.
  - destruct Hne as (H1 & H2 & H3 & H4 & H5).
    destruct (exec_proposals_frame _ _ _ _ Hex H1 H2 H3 H4 H5) as [_ ->]. lia.
Qed.

Lemma terminal_proposal_frozen s s' pid :
  reachable s -> steps s s' ->
  pid < _proposalIdCounter s ->
  Proposal.status ((proposals s).[pid]) <> Active ->
  (proposals s').[pid] = (proposals s).[pid].
Proof.
  intros Hr Hst. revert Hr.
  induction Hst as [|s env c s' s'' Hex _ IH]; [done|].
  intros Hr Hlt Hna.
  pose proof (exec_terminal_frozen _ _ _ _ _ Hr Hex Hlt Hna) as Heq.
  rewrite <-Heq. apply IH.
  - by eapply reachable_call.
  - pose proof (exec_counter_grows _ _ _ _ Hex). lia.
  - by rewrite Heq.
Qed.

(** ** The scenarios are well formed *)

(** Closed facts about a scenario are settled by evaluation. *)
Ltac eval_conjuncts :=
  repeat (match goal with |- _ /\ _ => split end; [vm_compute; reflexivity|]).
Ltac by_evaluation := eval_conjuncts; vm_compute; reflexivity.

Lemma scenarios_run :
  all_succeed scenario_vote_open deployed = true /\
  all_succeed scenario_voted_for deployed = true /\
  all_succeed scenario_second_removal_proposal deployed = true /\
  all_succeed scenario_huge_weights deployed = true /\
  all_succeed scenario_first_post_flagged deployed = true /\
  all_succeed scenario_liked deployed = true /\
  all_succeed scenario_grant_role deployed = true /\
  all_succeed scenario_malformed_grant deployed = true.
Proof. by_evaluation. Qed.

Lemma scenarios_chronological :
  chronological 1000 scenario_vote_open = true /\
  chronological 1000 scenario_voted_for = true /\
  chronological 1000 scenario_second_removal_proposal = true /\
  chronological 1000 scenario_huge_weights = true /\
  chronological 1000 scenario_first_post_flagged = true /\
  chronological 1000 scenario_liked = true /\
  chronological 1000 scenario_grant_role = true /\
  chronological 1000 scenario_malformed_grant = true.
Proof. by_evaluation. Qed.

Lemma reachable_scenario script : reachable (run script deployed).
Proof. apply reachable_run, reachable_deploy. Qed.

(** ** Removal proposals and the post they name *)

(** [executeProposal] never writes to a post. *)
Lemma executeProposal_keeps_posts pid env s s' :
  executeProposal pid env s = Ok s' -> posts s' = posts s.
Proof.
  intros Hex. apply executeProposal_inv in Hex as (s1 & Hs1 & ->). cbn.
  destruct Hs1 as [[_ Hk]|[_ ->]]; [|done].
  by apply kind_effect_frame in Hk as (_ & ? & _).
Qed.

(** C1. The code at the failing input: proposal 1 is the RemoveContent
    proposal of the moderation vote on post 1, it has weight 100 for and 0
    against, and its deadline has passed; [executeProposal] succeeds and
    marks it Executed, yet post 1 is still UnderVote, not Removed. *)
Theorem executeProposal_RemoveContent_leaves_post_under_vote :
  Proposal.proposalType ((proposals (run scenario_voted_for deployed)).[1]) = RemoveContent /\
  abi_decode_uint256 (Proposal.data ((proposals (run scenario_voted_for deployed)).[1])) = Ok 1 /\
  passes ((proposals (run scenario_voted_for deployed)).[1]) = true /\
  Proposal.endTime ((proposals (run scenario_voted_for deployed)).[1]) = 260205 /\
  exists s',
    executeProposal 1 (mkEnv carol 300000) (run scenario_voted_for deployed) = Ok s' /\
    Proposal.status ((proposals s').[1]) = Executed /\
    NewsPost.moderationStatus ((posts s').[1]) = UnderVote.
Proof.
  eval_conjuncts. eexists. by_evaluation.
Qed.

(** C2. The code at the failing input: post 0 is Flagged and no moderation
    vote was ever opened (no proposal exists), yet [executeModerationVote 0]
    succeeds, because the zero-initialised vote record already carries
    [postId = 0], and moves the post from Flagged straight back to None. *)
Theorem executeModerationVote_moves_Flagged_to_None :
  NewsPost.moderationStatus ((posts (run scenario_first_post_flagged deployed)).[0]) = Flagged /\
  moderationVotes (run scenario_first_post_flagged deployed) = ∅ /\
  _proposalIdCounter (run scenario_first_post_flagged deployed) = 0 /\
  exists s',
    executeModerationVote 0 (mkEnv alice 1003) (run scenario_first_post_flagged deployed)
      = Ok s' /\
    NewsPost.moderationStatus ((posts s').[0]) = None_.
Proof.
  eval_conjuncts. eexists. by_evaluation.
Qed.

(** C3. The code at the failing input: after the deadline
    [executeProposal 1] succeeds and leaves proposal 1 Executed, a terminal
    state; [executeModerationVote 1] then succeeds as well on the vote
    linked to that proposal, writes the proposal's status again, removes
    the post and emits a second [ProposalExecuted] for proposal 1. *)
Theorem proposal_executed_through_both_entry_points :
  exists s1 s2,
    executeProposal 1 (mkEnv carol 300000) (run scenario_voted_for deployed) = Ok s1 /\
    Proposal.status ((proposals s1).[1]) = Executed /\
    NewsPost.moderationStatus ((posts s1).[1]) = UnderVote /\
    executions_of 1 s1 = 1%nat /\
    ModerationVote.proposalId ((moderationVotes s1).[1]) = 1 /\
    executeModerationVote 1 (mkEnv carol 300001) s1 = Ok s2 /\
    Proposal.status ((proposals s2).[1]) = Executed /\
    NewsPost.moderationStatus ((posts s2).[1]) = Removed /\
    executions_of 1 s2 = 2%nat.
Proof.
  eexists. eexists. by_evaluation.
Qed.

(** The mirroring of [castModerationVote] goes by the payload of the
    proposal voted on: whatever post id the payload of a RemoveContent
    proposal decodes to, that post's moderation vote receives the weight,
    whether or not it is the vote linked to the proposal. *)
Lemma castModerationVote_mirrors_by_payload pid postId support w env s s' :
  Proposal.proposalType ((proposals s).[pid]) = RemoveContent ->
  abi_decode_uint256 (Proposal.data ((proposals s).[pid])) = Ok postId ->
  castModerationVote pid support w env s = Ok s' ->
  ModerationVote.forRemovalVotes ((moderationVotes s').[postId]) =
    ModerationVote.forRemovalVotes ((moderationVotes s).[postId]) + (if support then w else 0) /\
  ModerationVote.againstRemovalVotes ((moderationVotes s').[postId]) =
    ModerationVote.againstRemovalVotes ((moderationVotes s).[postId]) + (if support then 0 else w).
Proof.
  intros Hty Hdec Hex.
  apply castModerationVote_Ok in Hex as (_ & _ & _ & s2 & Ht & ->).
  unfold tally_vote, mirror_vote, record_vote in Ht. cbn in Ht.
  destruct support;
    apply bind_Ok in Ht as (n & _ & Ht); cbn in Ht;
    rewrite read_upd, decide_True in Ht by done; cbn in Ht;
    rewrite (bool_decide_eq_true_2 _ Hty), Hdec in Ht; cbn in Ht;
    apply bind_Ok in Ht as (m & [-> _]%checked_add_Ok & [= <-]); cbn;
    rewrite read_upd, decide_True by done; cbn; lia.
Qed.

(** C5. The code at the failing input: the moderation vote on post 1 is
    linked to proposal 1, created by [startModerationVote]; a vote of weight
    100 cast on proposal 2, another RemoveContent proposal whose payload
    names post 1, is mirrored into that moderation vote, whose
    [forRemovalVotes] is then 100 while proposal 1 still has [forVotes] 0. *)
Theorem mirrored_tally_diverges_from_linked_proposal :
  ModerationVote.proposalId
    ((moderationVotes (run scenario_second_removal_proposal deployed)).[1]) = 1 /\
  Proposal.proposalType
    ((proposals (run scenario_second_removal_proposal deployed)).[1]) = RemoveContent /\
  Proposal.data ((proposals (run scenario_second_removal_proposal deployed)).[1])
    = abi_encode_uint256 1 /\
  Proposal.forVotes ((proposals (run scenario_second_removal_proposal deployed)).[1]) = 0 /\
  ModerationVote.forRemovalVotes
    ((moderationVotes (run scenario_second_removal_proposal deployed)).[1]) = 100 /\
  Proposal.forVotes ((proposals (run scenario_second_removal_proposal deployed)).[2]) = 100.
Proof. by_evaluation. Qed.

(** ** Concrete runs: where the spec's wording and the code part *)

(** C4, as stated, fails: in the first state the moderation vote on post 1
    exists, is unexecuted and past its deadline with 100 for removal and 0
    against in its own tallies, yet [executeModerationVote] keeps the post
    (None) and rejects the proposal, because it reads the linked proposal's
    tallies, which are 0 and 0; in the second state the linked proposal's
    tallies are 2^256 - 1 and 1 and the call reverts on the checked sum
    instead of marking the vote executed. *)
Lemma executeModerationVote_reads_the_proposal_not_the_vote :
  (ModerationVote.postId
     ((moderationVotes (run scenario_second_removal_proposal deployed)).[1]) = 1 /\
   ModerationVote.executed
     ((moderationVotes (run scenario_second_removal_proposal deployed)).[1]) = false /\
   ModerationVote.endTime
     ((moderationVotes (run scenario_second_removal_proposal deployed)).[1]) = 260205 /\
   ModerationVote.forRemovalVotes
     ((moderationVotes (run scenario_second_removal_proposal deployed)).[1]) = 100 /\
   ModerationVote.againstRemovalVotes
     ((moderationVotes (run scenario_second_removal_proposal deployed)).[1]) = 0 /\
   exists s',
     executeModerationVote 1 (mkEnv carol 300000)
       (run scenario_second_removal_proposal deployed) = Ok s' /\
     NewsPost.moderationStatus ((posts s').[1]) = None_ /\
     Proposal.status ((proposals s').[1]) = Rejected) /\
  (ModerationVote.postId ((moderationVotes (run scenario_huge_weights deployed)).[1]) = 1 /\
   ModerationVote.executed
     ((moderationVotes (run scenario_huge_weights deployed)).[1]) = false /\
   ModerationVote.endTime
     ((moderationVotes (run scenario_huge_weights deployed)).[1]) = 260205 /\
   executeModerationVote 1 (mkEnv carol 300000) (run scenario_huge_weights deployed)
     = Revert Panic_arithmetic).
Proof.
  split.
  - eval_conjuncts. eexists. by_evaluation.
  - by_evaluation.
Qed.

Lemma executeModerationVote_decides_on_linked_proposal_witness :
  exists s',
    executeModerationVote 1 (mkEnv carol 300000) (run scenario_voted_for deployed) = Ok s' /\
    ModerationVote.executed ((moderationVotes s').[1]) = true /\
    NewsPost.moderationStatus ((posts s').[1]) = Removed /\
    Proposal.status ((proposals s').[1]) = Executed.
Proof.
  destruct (executeModerationVote_decides_on_linked_proposal 1 (mkEnv carol 300000)
              (run scenario_voted_for deployed))
    as (s' & Hex & Hdone & Hpass & _).
  - vm_compute; reflexivity.
  - vm_compute; reflexivity.
  - vm_compute; discriminate.
  - vm_compute; reflexivity.
  - exists s'. split; [exact Hex|]. split; [exact Hdone|].
    apply Hpass. by_evaluation.
Defined.

(** C6, as stated, fails: bob's first cast on proposal 1 succeeds; his
    second cast, made after the voting period has ended, is rejected by the
    deadline guard with "Voting period ended", not with "Already voted". *)
Lemma second_cast_after_the_deadline_is_not_AlreadyVoted :
  castModerationVote 1 true 100 (mkEnv bob 1006) (run scenario_vote_open deployed)
    = Ok (run scenario_voted_for deployed) /\
  (hasVoted (run scenario_voted_for deployed)).[1].[bob] = true /\
  castModerationVote 1 true 100 (mkEnv bob 300000) (run scenario_voted_for deployed)
    = Revert (Require_failed "Voting period ended").
Proof. by_evaluation. Qed.

Lemma castVote_succeeds_at_most_once_witness :
  castModerationVote 1 true 100 (mkEnv bob 1006) (run scenario_vote_open deployed)
    = Ok (run scenario_voted_for deployed) /\
  Proposal.forVotes ((proposals (run scenario_voted_for deployed)).[1]) =
    Proposal.forVotes ((proposals (run scenario_vote_open deployed)).[1]) + 100 /\
  Proposal.againstVotes ((proposals (run scenario_voted_for deployed)).[1]) =
    Proposal.againstVotes ((proposals (run scenario_vote_open deployed)).[1]) + 0 /\
  castModerationVote 1 false 7 (mkEnv bob 1007) (run scenario_voted_for deployed)
    = Revert (Require_failed "Already voted") /\
  castModerationVote 1 false 7 (mkEnv bob 300000) (run scenario_voted_for deployed)
    = Revert (Require_failed "Voting period ended").
Proof.
  assert (castModerationVote 1 true 100 (mkEnv bob 1006) (run scenario_vote_open deployed)
          = Ok (run scenario_voted_for deployed)) as Hcast
    by (vm_compute; reflexivity).
  destruct (castVote_succeeds_at_most_once 1 true 100 (mkEnv bob 1006)
              (run scenario_vote_open deployed) (run scenario_voted_for deployed) Hcast)
    as (_ & _ & _ & Hfor & Hagainst & _ & Hagain).
  destruct (Hagain (run scenario_voted_for deployed) (mkEnv bob 1007) false 7
              (steps_refl _) eq_refl) as [_ Hopen].
  destruct (Hagain (run scenario_voted_for deployed) (mkEnv bob 300000) false 7
              (steps_refl _) eq_refl) as [Hlate _].
  split; [exact Hcast|]. split; [exact Hfor|]. split; [exact Hagainst|].
  split.
  - apply Hopen. unfold voting_open. by_evaluation.
  - rewrite Hlate. vm_compute; reflexivity.
Defined.



Lemma likeCount_counts_like_records_witness :
  NewsPost.likes ((posts (run scenario_liked deployed)).[0])
    = N.of_nat (like_count 0 (run scenario_liked deployed)) /\
  likePost 0 (mkEnv bob 1004) (run scenario_liked deployed)
    = Revert (Require_failed "Already liked this post") /\
  unlikePost 0 (mkEnv carol 1004) (run scenario_liked deployed)
    = Revert (Require_failed "Haven't liked this post") /\
  exists s',
    unlikePost 0 (mkEnv bob 1004) (run scenario_liked deployed) = Ok s' /\
    NewsPost.likes ((posts s').[0])
      = NewsPost.likes ((posts (run scenario_liked deployed)).[0]) - 1.
Proof.
  assert (post_exists 0 (run scenario_liked deployed) = true) as Hexi
    by (vm_compute; reflexivity).
  destruct (likeCount_counts_like_records (run scenario_liked deployed) 0 (mkEnv bob 1004)
              (reachable_scenario scenario_liked) Hexi)
    as (Hcount & Hliked & _ & _).
  destruct (likeCount_counts_like_records (run scenario_liked deployed) 0 (mkEnv carol 1004)
              (reachable_scenario scenario_liked) Hexi)
    as (_ & _ & Hnot & _).
  destruct Hliked as (Hagain & _ & Hunlike); [vm_compute; reflexivity|].
  split; [exact Hcount|]. split; [exact Hagain|].
  split; [apply Hnot; vm_compute; reflexivity|].
  exact Hunlike.
Defined.

Lemma followUser_keeps_following_wellformed_witness :
  following_ok (run scenario_liked deployed) /\
  (exists e, followUser alice (mkEnv bob 1004) (run scenario_liked deployed) = Revert e) /\
  (exists s',
     followUser bob (mkEnv alice 1004) (run scenario_liked deployed) = Ok s' /\
     (following s').[alice] = (following (run scenario_liked deployed)).[alice] ++ [bob]).
Proof.
  destruct (followUser_keeps_following_wellformed (run scenario_liked deployed)
              (reachable_scenario scenario_liked)) as [Hok Hcalls].
  split; [exact Hok|]. split.
  - destruct (Hcalls (mkEnv bob 1004) alice) as [Hbad _].
    apply Hbad. right. right. right.
    apply list_elem_of_In. vm_compute. left. reflexivity.
  - destruct (Hcalls (mkEnv alice 1004) bob) as [_ Hgood].
    destruct Hgood as (s' & Hex & Happ & _).
    + intros [H|[H|[H|H]]].
      * vm_compute in H. discriminate H.
      * vm_compute in H. discriminate H.
      * vm_compute in H. discriminate H.
      * apply list_elem_of_In in H. vm_compute in H. exact H.
    + exists s'. split; [exact Hex | exact Happ].
Defined.

Lemma castVote_frame_when_not_RemoveContent_witness :
  Proposal.proposalType ((proposals (run scenario_vote_open deployed)).[0])
    = UpdateParameters /\
  exists s',
    castModerationVote 0 true 5 (mkEnv bob 1006) (run scenario_vote_open deployed) = Ok s' /\
    Proposal.forVotes ((proposals s').[0]) = 5 /\
    (proposals s').[1] = (proposals (run scenario_vote_open deployed)).[1] /\
    posts s' = posts (run scenario_vote_open deployed) /\
    moderationVotes s' = moderationVotes (run scenario_vote_open deployed) /\
    users s' = users (run scenario_vote_open deployed).
Proof.
  split; [vm_compute; reflexivity|].
  assert (exists s', castModerationVote 0 true 5 (mkEnv bob 1006)
                       (run scenario_vote_open deployed) = Ok s') as [s' Hex]
    by (eexists; vm_compute; reflexivity).
  destruct (castVote_frame_when_not_RemoveContent 0 true 5 (mkEnv bob 1006)
              (run scenario_vote_open deployed) s')
    as (Hnew & Hothers & _ & _ & Hposts & Hmv & Husers & _).
  - vm_compute. discriminate.
  - exact Hex.
  - exists s'. split; [exact Hex|].
    split; [rewrite Hnew; vm_compute; reflexivity|].
    split; [apply Hothers; discriminate|].
    split; [exact Hposts|]. split; [exact Hmv | exact Husers].
Defined.
(** ** Registration and verification *)

Lemma registerUser_Ok u m t env s s' :
  registerUser u m t env s = Ok s' ->
  registered (msg_sender env) s = false /\
  s' = emit (UserRegistered (msg_sender env) u t)
         (set_users
            (<[msg_sender env :=
                 UserProfile.mk (msg_sender env) u m t false (block_timestamp env)]>
               (users s)) s).
Proof.
  intros Hex. unfold registerUser in Hex. tx_inv. split; [|done].
  unfold registered. apply N.eqb_eq in H. rewrite H. reflexivity.
Qed.

Lemma verifyUser_Ok a env s s' :
  verifyUser a env s = Ok s' ->
  hasRole MODERATOR_ROLE (msg_sender env) s = true /\
  registered a s = true /\
  UserProfile.isVerified ((users s).[a]) = false /\
  s' = emit (UserVerified a)
         (set_users (upd (users s) a (UserProfile.with_isVerified true)) s).
Proof.
  intros Hex. unfold verifyUser in Hex. tx_inv.
  repeat (split; [done|]). split; [by apply negb_true_iff | done].
Qed.

(** Calls other than [registerUser] and [verifyUser] leave the profiles as
    they were. *)
Lemma exec_users_frame c env s s' :
  exec c env s = Ok s' ->
  (forall u m t, c <> RegisterUser u m t) -> (forall a, c <> VerifyUser a) ->
  users s' = users s.
Proof.
  intros Hex H1 H2.
  destruct c; cbn [exec] in Hex;
    try (exfalso; first [by eapply H1 | by eapply H2]);
    unfold_calls Hex; tx_inv; cbn; repeat (case_match; cbn); done.
Qed.

Lemma exec_profile c env s s' a :
  exec c env s = Ok s' ->
  registered a s = true ->
  profile_identity ((users s').[a]) = profile_identity ((users s).[a]) /\
  (UserProfile.isVerified ((users s).[a]) = true ->
   UserProfile.isVerified ((users s').[a]) = true).
Proof.
  intros Hex Hreg.
  assert ((exists u m t, c = RegisterUser u m t) \/ (exists b, c = VerifyUser b) \/
          ((forall u m t, c <> RegisterUser u m t) /\ (forall b, c <> VerifyUser b)))
    as [(u & m & t & ->) | [(b & ->) | [H1 H2]]].
  { destruct c; eauto 10; right; right; by split. }
  - cbn [exec] in Hex. apply registerUser_Ok in Hex as (Hnot & ->). cbn.
    rewrite read_insert. destruct (decide _) as [<-|Hne]; [congruence | done].
  - cbn [exec] in Hex. apply verifyUser_Ok in Hex as (_ & _ & _ & ->). cbn.
    rewrite read_upd. destruct (decide _) as [<-|Hne]; done.
  - by rewrite (exec_users_frame _ _ _ _ Hex H1 H2).
Qed.

Lemma registered_identity a s s' :
  profile_identity ((users s').[a]) = profile_identity ((users s).[a]) ->
  registered a s' = registered a s.
Proof. unfold profile_identity, registered. by intros [= _ _ _ _ ->]. Qed.

Lemma steps_profile a s s' :
  steps s s' ->
  registered a s = true ->
  profile_identity ((users s').[a]) = profile_identity ((users s).[a]) /\
  registered a s' = true /\
  (UserProfile.isVerified ((users s).[a]) = true ->
   UserProfile.isVerified ((users s').[a]) = true).
Proof.
  induction 1 as [|s env c s' s'' Hex _ IH]; [done|].
  intros Hreg.
  destruct (exec_profile _ _ _ _ a Hex Hreg) as [Hid Hver].
  assert (registered a s' = true) as Hreg' by (by rewrite (registered_identity _ _ _ Hid)).
  destruct (IH Hreg') as (Hid' & Hreg'' & Hver').
  split; [congruence|]. split; [done|]. auto.
Qed.

(** X2. Once an address is registered, no sequence of calls changes its
    profile except for the verification flag, which can only go from false
    to true: address, username, metadata, user type and registration time
    stay as registered, the address stays registered, and a verified
    profile stays verified. *)
Theorem profile_frozen_after_registration a s s' :
  steps s s' ->
  registered a s = true ->
  profile_identity ((users s').[a]) = profile_identity ((users s).[a]) /\
  registered a s' = true /\
  (UserProfile.isVerified ((users s).[a]) = true ->
   UserProfile.isVerified ((users s').[a]) = true).
Proof. apply steps_profile. Qed.

(** X1. A caller that is not registered yet registers successfully at any
    non-zero block time: the stored profile has the caller's address, the
    given username, metadata and type, is unverified and is stamped with
    the block time; no other profile changes; and from then on every
    [registerUser] by the same caller reverts with "User already
    registered", whatever calls happen in between. *)
Theorem registerUser_registers_once u m t env s :
  0 < block_timestamp env ->
  registered (msg_sender env) s = false ->
  exists s',
    registerUser u m t env s = Ok s' /\
    (users s').[msg_sender env] =
      UserProfile.mk (msg_sender env) u m t false (block_timestamp env) /\
    getUserVerificationInfo (msg_sender env) s' = (t, false) /\
    (forall a, a <> msg_sender env -> (users s').[a] = (users s).[a]) /\
    forall s'' env' u' m' t',
      steps s' s'' -> msg_sender env' = msg_sender env ->
      registerUser u' m' t' env' s'' = Revert (Require_failed "User already registered").
Proof.
  intros Htime Hnot.
  assert (UserProfile.registrationTime ((users s).[msg_sender env]) = 0) as Hzero.
  { unfold registered in Hnot. apply N.ltb_ge in Hnot. lia. }
  eexists. split.
  { unfold registerUser. rewrite Hzero. cbn. reflexivity. }
  cbn. unfold getUserVerificationInfo. cbn. rewrite !read_insert, !decide_True by done.
  cbn. split; [done|]. split; [done|].
  split; [intros a Ha; by rewrite read_insert, decide_False|].
  intros s'' env' u' m' t' Hsteps Hsender.
  match type of Hsteps with steps ?s1 _ =>
    assert (registered (msg_sender env) s1 = true) as Hreg end.
  { unfold registered. cbn. rewrite read_insert, decide_True by done. cbn.
    by apply N.ltb_lt. }
  destruct (steps_profile _ _ _ Hsteps Hreg) as (_ & Hreg' & _).
  unfold registerUser. rewrite Hsender.
  unfold registered in Hreg'. apply N.ltb_lt in Hreg'.
  replace (_ =? 0) with false by (symmetry; apply N.eqb_neq; lia).
  reflexivity.
Qed.

(** X3. [verifyUser] succeeds only for a caller holding MODERATOR_ROLE, on a
    registered and still unverified profile; it sets the verification flag
    and touches nothing else of any profile; afterwards the profile stays
    verified under every sequence of calls and no [verifyUser] on it
    succeeds again: a moderator's attempt reverts with "User already
    verified". *)
Theorem verifyUser_verifies_once a env s s' :
  verifyUser a env s = Ok s' ->
  hasRole MODERATOR_ROLE (msg_sender env) s = true /\
  registered a s = true /\
  getUserVerificationInfo a s = (UserProfile.userType ((users s).[a]), false) /\
  getUserVerificationInfo a s' = (UserProfile.userType ((users s).[a]), true) /\
  profile_identity ((users s').[a]) = profile_identity ((users s).[a]) /\
  (forall b, b <> a -> (users s').[b] = (users s).[b]) /\
  forall s'' env',
    steps s' s'' ->
    UserProfile.isVerified ((users s'').[a]) = true /\
    (exists e, verifyUser a env' s'' = Revert e) /\
    (hasRole MODERATOR_ROLE (msg_sender env') s'' = true ->
     verifyUser a env' s'' = Revert (Require_failed "User already verified")).
Proof.
  intros Hex. apply verifyUser_Ok in Hex as (Hrole & Hreg & Hunv & ->).
  split; [done|]. split; [done|].
  unfold getUserVerificationInfo. cbn. rewrite !read_upd, !decide_True by done. cbn.
  split; [by rewrite Hunv|]. split; [done|]. split; [done|].
  split; [intros b Hb; by rewrite read_upd, decide_False|].
  intros s'' env' Hsteps.
  match type of Hsteps with steps ?s1 _ =>
    assert (registered a s1 = true /\ UserProfile.isVerified ((users s1).[a]) = true)
      as [Hreg1 Hver1] end.
  { unfold registered in *. cbn. rewrite !read_upd, !decide_True by done. by cbn. }
  destruct (steps_profile _ _ _ Hsteps Hreg1) as (_ & Hreg' & Hver').
  specialize (Hver' Hver1).
  split; [done|].
  assert (hasRole MODERATOR_ROLE (msg_sender env') s'' = true ->
          verifyUser a env' s'' = Revert (Require_failed "User already verified")) as Hrev.
  { intros Hr. unfold verifyUser, onlyRole. rewrite Hr. cbn. by rewrite Hreg', Hver'. }
  split; [|done].
  destruct (hasRole MODERATOR_ROLE (msg_sender env') s'') eqn:Hr; [rewrite Hrev; eauto|].
  unfold verifyUser, onlyRole. rewrite Hr. cbn. eauto.
Qed.
(** ** Posts: content, index, comments *)

(** Calls other than [createPost] leave the post counter and the per-author
    index as they were and do not touch the content of any post. *)
Lemma exec_post_content c env s s' :
  exec c env s = Ok s' ->
  (forall a b d, c <> CreatePost a b d) ->
  _postIdCounter s' = _postIdCounter s /\ userPosts s' = userPosts s /\
  forall p, post_content ((posts s').[p]) = post_content ((posts s).[p]).
Proof.
  intros Hex Hc.
  destruct c; cbn [exec] in Hex;
    try (exfalso; by eapply Hc);
    unfold_calls Hex; tx_inv; cbn;
    repeat (case_match; cbn);
    (split; [reflexivity|]); (split; [reflexivity|]); intros q;
    rewrite ?read_upd; repeat (destruct (decide _); subst; cbn); done.
Qed.

Lemma exec_created_post_content c env s s' p :
  exec c env s = Ok s' ->
  p < _postIdCounter s ->
  p < _postIdCounter s' /\
  post_content ((posts s').[p]) = post_content ((posts s).[p]).
Proof.
  intros Hex Hlt.
  assert ((exists a b d, c = CreatePost a b d) \/ (forall a b d, c <> CreatePost a b d))
    as [(a & b & d & ->) | Hc].
  { destruct c; eauto 10; right; done. }
  - cbn [exec] in Hex. apply bind_Ok in Hex as (r & Hr & [= <-]).
    apply createPost_Ok in Hr as (_ & ->). cbn.
    rewrite read_insert, decide_False by lia. split; [lia | done].
  - destruct (exec_post_content _ _ _ _ Hex Hc) as (-> & _ & Hp). done.
Qed.

Lemma steps_created_post_content p s s' :
  steps s s' ->
  p < _postIdCounter s ->
  p < _postIdCounter s' /\
  post_content ((posts s').[p]) = post_content ((posts s).[p]).
Proof.
  induction 1 as [|s env c s' s'' Hex _ IH]; [done|].
  intros Hlt.
  destruct (exec_created_post_content _ _ _ _ _ Hex Hlt) as [Hlt' Heq].
  destruct (IH Hlt') as [? ?]. split; [done | congruence].
Qed.

(** X4. The content of a created post is permanent: whatever calls follow,
    its identifier, author, content hash, metadata hash, timestamp and
    category stay as they were written by [createPost]; only the like and
    comment counters and the moderation status can change. *)
Theorem created_post_content_is_permanent p s s' :
  steps s s' ->
  p < _postIdCounter s ->
  p < _postIdCounter s' /\
  post_content ((posts s').[p]) = post_content ((posts s).[p]).
Proof. apply steps_created_post_content. Qed.

Lemma posts_index_ok_deploy env : posts_index_ok (constructor env).
Proof.
  unfold constructor, _grantRole.
  repeat (case_match; cbn); (split; [|split]); cbn;
    try (intros p Hp; lia);
    try (intros a p; rewrite read_empty; split;
         [intros Hin; by apply elem_of_nil in Hin | intros [Hp _]; lia]);
    intros a; rewrite read_empty; constructor.
Qed.

Lemma posts_index_ok_call c env s s' :
  exec c env s = Ok s' -> posts_index_ok s -> posts_index_ok s'.
Proof.
  intros Hex (Hid & Hidx & Hsorted).
  assert ((exists a b d, c = CreatePost a b d) \/ (forall a b d, c <> CreatePost a b d))
    as [(a & b & d & ->) | Hc].
  { destruct c; eauto 10; right; done. }
  - cbn [exec] in Hex. apply bind_Ok in Hex as (r & Hr & [= <-]).
    apply createPost_Ok in Hr as (_ & ->). unfold posts_index_ok. cbn.
    split; [|split].
    + intros p Hp. rewrite read_insert. destruct (decide _) as [<-|Hne]; [done|].
      apply Hid. lia.
    + intros u p. rewrite read_upd, read_insert.
      destruct (decide (msg_sender env = u)) as [<-|Hu].
      * rewrite elem_of_app, list_elem_of_singleton, Hidx.
        destruct (decide (_postIdCounter s = p)) as [<-|Hp]; cbn.
        -- split; [intros _; split; [lia | done] | intros _; by right].
        -- split.
           ++ intros [[Hlt Ha]|Heq]; [split; [lia | done] | congruence].
           ++ intros [Hlt Ha]. left. split; [lia | done].
      * rewrite Hidx.
        destruct (decide (_postIdCounter s = p)) as [<-|Hp]; cbn.
        -- split; [intros [Hlt _]; lia | intros [_ Ha]; congruence].
        -- split; intros [Hlt Ha]; (split; [lia | done]).
    + intros u. rewrite read_upd.
      destruct (decide (msg_sender env = u)) as [<-|Hu]; [|apply Hsorted].
      apply StronglySorted_app_2; [|apply Hsorted|repeat constructor].
      intros x1 x2 Hx1 Hx2. apply list_elem_of_singleton in Hx2. subst x2.
      by apply Hidx in Hx1 as [Hlt _].
  - destruct (exec_post_content _ _ _ _ Hex Hc) as (Hctr & Hup & Hp).
    unfold posts_index_ok. rewrite Hctr, Hup.
    split; [|split; [|done]].
    + intros p Hlt. specialize (Hp p). unfold post_content in Hp.
      injection Hp as -> _. by apply Hid.
    + intros a p. rewrite Hidx. specialize (Hp p). unfold post_content in Hp.
      injection Hp as _ -> _. done.
Qed.

Lemma posts_index_ok_reachable s : reachable s -> posts_index_ok s.
Proof.
  induction 1 as [env | s env c s' _ IH Hex].
  - apply posts_index_ok_deploy.
  - by eapply posts_index_ok_call.
Qed.

(** X5. In every reachable state [getPostsByUser] returns exactly the
    created posts whose author is the given address, each once and in
    increasing order of identifier, and every created post carries its own
    identifier. *)
Theorem getPostsByUser_lists_the_authors_posts s :
  reachable s ->
  forall a,
    (forall p, p ∈ getPostsByUser a s <->
               p < _postIdCounter s /\ NewsPost.author ((posts s).[p]) = a) /\
    StronglySorted N.lt (getPostsByUser a s) /\
    NoDup (getPostsByUser a s) /\
    (forall p, p ∈ getPostsByUser a s -> NewsPost.id ((posts s).[p]) = p).
Proof.
  intros Hr a. destruct (posts_index_ok_reachable s Hr) as (Hid & Hidx & Hsorted).
  unfold getPostsByUser.
  split; [apply Hidx|]. split; [apply Hsorted|]. split.
  - specialize (Hsorted a). induction Hsorted as [|x l Hs IH Hall]; [constructor|].
    constructor; [|done].
    intros Hin. rewrite Forall_forall in Hall. specialize (Hall x Hin). lia.
  - intros p Hin. apply Hid. by apply Hidx in Hin as [? _].
Qed.

(** X6. Post identifiers are never reused: [createPost] returns the
    current post counter, and any [createPost] that succeeds later, after
    whatever calls, returns a strictly larger identifier, so it cannot
    overwrite the earlier post. *)
Theorem createPost_never_reuses_an_id c m k env s p s1 c2 m2 k2 env2 s2 q s3 :
  createPost c m k env s = Ok (p, s1) ->
  steps s1 s2 ->
  createPost c2 m2 k2 env2 s2 = Ok (q, s3) ->
  p = _postIdCounter s /\ p < q /\
  post_content ((posts s3).[p]) =
    (p, msg_sender env, c, m, block_timestamp env, k).
Proof.
  intros H1 Hsteps H2.
  apply createPost_Ok in H1 as (_ & [= -> ->]).
  apply createPost_Ok in H2 as (_ & [= -> ->]).
  match type of Hsteps with steps ?s1 _ =>
    assert (_postIdCounter s < _postIdCounter s1) as Hlt by (cbn; lia);
    assert (post_content ((posts s1).[_postIdCounter s]) =
            (_postIdCounter s, msg_sender env, c, m, block_timestamp env, k)) as Hc
      by (cbn; by rewrite read_insert, decide_True)
  end.
  destruct (steps_created_post_content _ _ _ Hsteps Hlt) as [Hlt2 Heq].
  split; [done|]. split; [done|].
  cbn. rewrite read_insert, decide_False by lia. congruence.
Qed.

(** ** Comments *)

Lemma addComment_Ok p content env s r :
  addComment p content env s = Ok r ->
  post_exists p s = true /\ registered (msg_sender env) s = true /\
  r = (_commentIdCounter s,
       emit (CommentAdded p (_commentIdCounter s) (msg_sender env))
         (set_posts
            (upd (posts s) p (NewsPost.with_comments (NewsPost.comments ((posts s).[p]) + 1)))
            (set_postComments
               (upd (postComments s) p
                  (fun l => l ++ [Comment.mk (_commentIdCounter s) p (msg_sender env)
                                    content (block_timestamp env) None_]))
               (set_commentIdCounter (_commentIdCounter s + 1) s)))).
Proof. intros Hex. unfold addComment in Hex. tx_inv. cbn in *. done. Qed.

(** Calls other than [createPost] and [addComment] leave the post counter,
    the comment counter, the comment lists and every post's author and
    comment counter as they were. *)
Lemma exec_comments_frame c env s s' :
  exec c env s = Ok s' ->
  (forall a b d, c <> CreatePost a b d) -> (forall p t, c <> AddComment p t) ->
  _postIdCounter s' = _postIdCounter s /\ _commentIdCounter s' = _commentIdCounter s /\
  postComments s' = postComments s /\
  forall p, NewsPost.author ((posts s').[p]) = NewsPost.author ((posts s).[p]) /\
            NewsPost.comments ((posts s').[p]) = NewsPost.comments ((posts s).[p]).
Proof.
  intros Hex H1 H2.
  destruct c; cbn [exec] in Hex;
    try (exfalso; first [by eapply H1 | by eapply H2]);
    unfold_calls Hex; tx_inv; cbn;
    repeat (case_match; cbn);
    (split; [reflexivity|]); (split; [reflexivity|]); (split; [reflexivity|]); intros q;
    rewrite ?read_upd; repeat (destruct (decide _); subst; cbn); done.
Qed.

Lemma comments_ok_deploy env : comments_ok (constructor env).
Proof.
  unfold constructor, _grantRole.
  repeat (case_match; cbn); (split; [|split; [|split]]); cbn;
    try (intros p _; by rewrite !read_empty);
    try (intros p; by rewrite !read_empty);
    try (intros p c Hin; rewrite read_empty in Hin; by apply elem_of_nil in Hin);
    intros p q c d Hin; rewrite read_empty in Hin; by apply elem_of_nil in Hin.
Qed.

Lemma comments_ok_call c env s s' :
  exec c env s = Ok s' -> comments_ok s -> comments_ok s'.
Proof.
  intros Hex (Hfresh & Hcount & Hstored & Huniq).
  assert ((exists a b d, c = CreatePost a b d) \/ (exists p t, c = AddComment p t) \/
          ((forall a b d, c <> CreatePost a b d) /\ (forall p t, c <> AddComment p t)))
    as [(a & b & d & ->) | [(p0 & t & ->) | [H1 H2]]].
  { destruct c; eauto 10; right; right; by split. }
  - (* createPost *)
    cbn [exec] in Hex. apply bind_Ok in Hex as (r & Hr & [= <-]).
    apply createPost_Ok in Hr as (_ & ->). unfold comments_ok. cbn.
    split; [|split; [|split]].
    + intros p Hp. rewrite read_insert, decide_False by lia. apply Hfresh. lia.
    + intros p. rewrite read_insert. destruct (decide _) as [<-|Hne]; [|apply Hcount].
      cbn. destruct (Hfresh (_postIdCounter s)) as (_ & _ & ->); [lia | done].
    + apply Hstored.
    + apply Huniq.
  - (* addComment *)
    cbn [exec] in Hex. apply bind_Ok in Hex as (r & Hr & [= <-]).
    apply addComment_Ok in Hr as (Hexi%post_exists_author & _ & ->).
    unfold comments_ok. cbn.
    split; [|split; [|split]].
    + intros p Hp. rewrite !read_upd.
      destruct (decide _) as [<-|Hne]; [|by apply Hfresh].
      by destruct (Hfresh p0 Hp) as (Ha & _).
    + intros p. rewrite !read_upd. destruct (decide _) as [<-|Hne]; [|apply Hcount].
      cbn. rewrite length_app, Hcount. cbn. lia.
    + intros p c. rewrite read_upd. destruct (decide _) as [<-|Hne].
      * rewrite elem_of_app, list_elem_of_singleton. intros [Hin| ->].
        -- destruct (Hstored _ _ Hin). split; [done | lia].
        -- cbn. split; [done | lia].
      * intros Hin. destruct (Hstored _ _ Hin). split; [done | lia].
    + assert (forall p c,
                c ∈ (upd (postComments s) p0
                       (fun l => l ++ [Comment.mk (_commentIdCounter s) p0 (msg_sender env)
                                         t (block_timestamp env) None_])).[p] ->
                (exists q, c ∈ (postComments s).[q]) \/
                c = Comment.mk (_commentIdCounter s) p0 (msg_sender env)
                      t (block_timestamp env) None_) as Hsplit.
      { intros p c. rewrite read_upd. destruct (decide _) as [<-|Hne]; [|eauto].
        rewrite elem_of_app, list_elem_of_singleton. intros [?| ->]; eauto. }
      intros p q c d Hc Hd Heq.
      apply Hsplit in Hc as [[p' Hc]| ->]; apply Hsplit in Hd as [[q' Hd]| ->].
      * by eapply Huniq.
      * destruct (Hstored _ _ Hc) as [_ Hlt]. cbn in Heq. lia.
      * destruct (Hstored _ _ Hd) as [_ Hlt]. cbn in Heq. lia.
      * done.
  - destruct (exec_comments_frame _ _ _ _ Hex H1 H2) as (Hp & Hc & Hl & Hposts).
    unfold comments_ok. rewrite Hp, Hc, Hl.
    split; [|split; [|done]].
    + intros p Hle. destruct (Hposts p) as [-> ->]. by apply Hfresh.
    + intros p. destruct (Hposts p) as [_ ->]. apply Hcount.
Qed.

Lemma comments_ok_reachable s : reachable s -> comments_ok s.
Proof.
  induction 1 as [env | s env c s' _ IH Hex].
  - apply comments_ok_deploy.
  - by eapply comments_ok_call.
Qed.

(** X7. In every reachable state the comment counter of a post equals the
    number of comments [getCommentsByPost] returns for it; every stored
    comment names the post it is stored under and has an identifier below
    the comment counter; and two stored comments with the same identifier
    are the same comment, so identifiers are unique across all posts. *)
Theorem commentCount_counts_stored_comments s :
  reachable s ->
  (forall p, NewsPost.comments ((posts s).[p]) = N.of_nat (length (getCommentsByPost p s))) /\
  (forall p c, c ∈ getCommentsByPost p s ->
     Comment.postId c = p /\ Comment.id c < _commentIdCounter s) /\
  (forall p q c d, c ∈ getCommentsByPost p s -> d ∈ getCommentsByPost q s ->
     Comment.id c = Comment.id d -> c = d /\ p = q).
Proof.
  intros Hr. destruct (comments_ok_reachable s Hr) as (_ & Hcount & Hstored & Huniq).
  unfold getCommentsByPost. split; [done|]. split; [done|].
  intros p q c d Hc Hd Heq.
  pose proof (Huniq _ _ _ _ Hc Hd Heq) as ->. split; [done|].
  destruct (Hstored _ _ Hc) as [<- _]. by destruct (Hstored _ _ Hd) as [<- _].
Qed.

(** ** Removed posts and posts that do not exist *)

Lemma removed_ok_deploy env : removed_ok (constructor env).
Proof.
  unfold constructor, _grantRole.
  repeat (case_match; cbn); intros p; cbn; rewrite read_empty; discriminate.
Qed.

Lemma removed_ok_call c env s s' :
  exec c env s = Ok s' -> removed_ok s -> removed_ok s'.
Proof.
  intros Hex Hok.
  destruct (exec_moderation_cases c)
    as [(a & b & d & ->) | [(q & ->) | [(q & ->) | [(q & ->) | [(q & b & w & ->) | Hne]]]]];
    cbn [exec] in Hex.
  - apply bind_Ok in Hex as (r & Hr & [= <-]).
    apply createPost_Ok in Hr as (_ & ->). intros p. cbn.
    rewrite read_insert. destruct (decide _) as [<-|Hq]; cbn; [discriminate | apply Hok].
  - apply flagContent_Ok in Hex as (_ & _ & ->). intros p. cbn.
    rewrite read_upd. destruct (decide _) as [<-|Hq]; cbn; [discriminate | apply Hok].
  - apply startModerationVote_Ok in Hex as (_ & _ & endTime & ->). intros p. cbn.
    rewrite read_upd, read_insert.
    destruct (decide _) as [<-|Hq]; cbn; [discriminate | apply Hok].
  - apply executeModerationVote_Ok in Hex as (_ & _ & _ & _ & ->). intros p. cbn.
    rewrite !read_upd. destruct (decide _) as [<-|Hq]; cbn; [done | apply Hok].
  - apply castModerationVote_Ok in Hex as (_ & _ & _ & s2 & Ht & ->).
    apply tally_vote_Ok in Ht as (_ & mv & [->|(k & m & ->)] & ->);
      intros p; cbn; [apply Hok|].
    rewrite read_upd. destruct (decide _) as [<-|Hq]; [|apply Hok].
    intros Hrem. specialize (Hok _ Hrem). by destruct b.
  - destruct Hne as (H1 & H2 & H3 & H4 & H5).
    destruct (exec_moderation_frame _ _ _ _ Hex H1 H2 H3 H4 H5) as (_ & Hmv & Hposts).
    intros p. destruct (Hposts p) as [_ Hs]. rewrite Hmv, Hs. apply Hok.
Qed.

Lemma removed_ok_reachable s : reachable s -> removed_ok s.
Proof.
  induction 1 as [env | s env c s' _ IH Hex].
  - apply removed_ok_deploy.
  - by eapply removed_ok_call.
Qed.

Lemma exec_removed_stays c env s s' p :
  reachable s -> exec c env s = Ok s' ->
  p < _postIdCounter s ->
  NewsPost.moderationStatus ((posts s).[p]) = Removed ->
  NewsPost.moderationStatus ((posts s').[p]) = Removed.
Proof.
  intros Hr Hex Hlt Hrem.
  pose proof (removed_ok_reachable s Hr p Hrem) as Hdone.
  destruct (exec_moderation_cases c)
    as [(a & b & d & ->) | [(q & ->) | [(q & ->) | [(q & ->) | [(q & b & w & ->) | Hne]]]]];
    cbn [exec] in Hex.
  - apply bind_Ok in Hex as (r & Hr' & [= <-]).
    apply createPost_Ok in Hr' as (_ & ->). cbn.
    by rewrite read_insert, decide_False by lia.
  - apply flagContent_Ok in Hex as (_ & Hnone & ->). cbn.
    rewrite read_upd. destruct (decide _) as [<-|Hq]; [congruence | done].
  - apply startModerationVote_Ok in Hex as (_ & Hfl & endTime & ->). cbn.
    rewrite read_upd. destruct (decide _) as [<-|Hq]; [congruence | done].
  - apply executeModerationVote_Ok in Hex as (_ & Hnex & _ & _ & ->). cbn.
    rewrite read_upd. destruct (decide _) as [<-|Hq]; [congruence | done].
  - apply castModerationVote_Ok in Hex as (_ & _ & _ & s2 & Ht & ->).
    by apply tally_vote_Ok in Ht as (_ & mv & _ & ->).
  - destruct Hne as (H1 & H2 & H3 & H4 & H5).
    destruct (exec_moderation_frame _ _ _ _ Hex H1 H2 H3 H4 H5) as (_ & _ & Hposts).
    by destruct (Hposts p) as [_ ->].
Qed.

(** X8. Removal is final: once a created post is Removed, it stays Removed
    in every state reachable afterwards; it cannot be flagged, put to the
    vote or resolved again. *)
Theorem removed_post_stays_removed p s s' :
  reachable s -> steps s s' ->
  p < _postIdCounter s ->
  NewsPost.moderationStatus ((posts s).[p]) = Removed ->
  NewsPost.moderationStatus ((posts s').[p]) = Removed /\
  (forall env, exists e, flagContent p env s' = Revert e) /\
  (forall env, exists e, startModerationVote p env s' = Revert e) /\
  (forall env, exists e, executeModerationVote p env s' = Revert e).
Proof.
  intros Hr Hsteps. revert Hr.
  induction Hsteps as [s|s env c s' s'' Hex _ IH]; intros Hr Hlt Hrem.
  - split; [done|]. split; [|split]; intros env.
    + destruct (flagContent p env s) as [s1|e] eqn:E; [|eauto].
      apply flagContent_Ok in E as (_ & ? & _). congruence.
    + destruct (startModerationVote p env s) as [s1|e] eqn:E; [|eauto].
      apply startModerationVote_Ok in E as (_ & ? & _). congruence.
    + destruct (executeModerationVote p env s) as [s1|e] eqn:E; [|eauto].
      apply executeModerationVote_Ok in E as (_ & Hnex & _).
      pose proof (removed_ok_reachable s Hr p Hrem). congruence.
  - apply IH.
    + by eapply reachable_call.
    + by destruct (exec_created_post_content _ _ _ _ p Hex Hlt).
    + by eapply exec_removed_stays.
Qed.

(** X9. In every reachable state an identifier at or beyond the post
    counter names no post: [likePost], [unlikePost], [addComment] and
    [flagContent] on it revert with "Post does not exist", and so does
    [startModerationVote] for a caller holding MODERATOR_ROLE; view
    functions return the zero values (no comments, not liked). *)
Theorem calls_on_uncreated_posts_revert s p env :
  reachable s ->
  _postIdCounter s <= p ->
  likePost p env s = Revert (Require_failed "Post does not exist") /\
  unlikePost p env s = Revert (Require_failed "Post does not exist") /\
  (forall text, addComment p text env s = Revert (Require_failed "Post does not exist")) /\
  flagContent p env s = Revert (Require_failed "Post does not exist") /\
  (hasRole MODERATOR_ROLE (msg_sender env) s = true ->
   startModerationVote p env s = Revert (Require_failed "Post does not exist")) /\
  getCommentsByPost p s = [] /\
  (forall a, hasLiked p a s = false).
Proof.
  intros Hr Hle.
  destruct (comments_ok_reachable s Hr) as (Hfresh & _).
  destruct (Hfresh p Hle) as (Hauthor & _ & Hnone).
  assert (post_exists p s = false) as Hno.
  { unfold post_exists. rewrite Hauthor. reflexivity. }
  unfold likePost, unlikePost, addComment, flagContent, startModerationVote, onlyRole.
  rewrite Hno. split; [done|]. split; [done|]. split; [done|]. split; [done|].
  split; [intros ->; done|]. split; [done|].
  intros a. unfold hasLiked.
  destruct ((postLikes s).[p].[a]) eqn:Hl; [|done].
  destruct (likes_ok_reachable s Hr) as [Hf Hc].
  destruct (Hf p Hle) as [_ Hzero]. rewrite Hc in Hzero.
  unfold like_count in Hzero. rewrite (true_entries_clear _ _ Hl) in Hzero. lia.
Qed.

(** ** Proposals: terms, tallies, unallocated slots *)

(** What a proposal carries from its creation on. *)
Lemma exec_created_proposal c env s s' pid :
  exec c env s = Ok s' ->
  pid < _proposalIdCounter s ->
  let old := (proposals s).[pid] in
  let new := (proposals s').[pid] in
  pid < _proposalIdCounter s' /\
  (Proposal.id new, Proposal.proposer new, Proposal.proposalType new, Proposal.data new,
   Proposal.startTime new, Proposal.endTime new, Proposal.descriptionHash new) =
  (Proposal.id old, Proposal.proposer old, Proposal.proposalType old, Proposal.data old,
   Proposal.startTime old, Proposal.endTime old, Proposal.descriptionHash old) /\
  Proposal.forVotes old <= Proposal.forVotes new /\
  Proposal.againstVotes old <= Proposal.againstVotes new /\
  ((Proposal.forVotes new, Proposal.againstVotes new) <>
   (Proposal.forVotes old, Proposal.againstVotes old) ->
   Proposal.status old = Active /\ block_timestamp env < Proposal.endTime old /\
   exists support w, c = CastModerationVote pid support w /\
     Proposal.forVotes new = Proposal.forVotes old + (if support then w else 0) /\
     Proposal.againstVotes new = Proposal.againstVotes old + (if support then 0 else w)).
Proof.
  intros Hex Hlt. cbv zeta.
  destruct (exec_proposals_cases c)
    as [(q & ->) | [(t & d & h & ->) | [(q & b & w & ->) | [(q & ->) | [(q & ->) | Hne]]]]];
    cbn [exec] in Hex.
  - apply startModerationVote_Ok in Hex as (_ & _ & endTime & ->). cbn.
    rewrite read_insert, decide_False by lia.
    split; [lia|]. split; [done|]. split; [lia|]. split; [lia|]. done.
  - apply bind_Ok in Hex as (r & Hr' & [= <-]).
    apply createProposal_Ok in Hr' as (endTime & ->). cbn.
    rewrite read_insert, decide_False by lia.
    split; [lia|]. split; [done|]. split; [lia|]. split; [lia|]. done.
  - apply castModerationVote_Ok in Hex as ((_ & _ & Hact & Htime) & _ & _ & s2 & Ht & ->).
    apply tally_vote_Ok in Ht as (_ & mv & _ & ->). cbn in *.
    rewrite read_upd. destruct (decide _) as [<-|Hq].
    + split; [lia|].
      destruct b; cbn; (split; [done|]); (split; [lia|]); (split; [lia|]);
        intros _; (split; [done|]); (split; [done|]);
        eexists _, w; (split; [reflexivity|]); cbn; lia.
    + split; [lia|]. split; [done|]. split; [lia|]. split; [lia|]. done.
  - apply executeModerationVote_Ok in Hex as (_ & _ & _ & _ & ->). cbn.
    rewrite read_upd. destruct (decide _) as [<-|Hq]; cbn;
      (split; [lia|]); (split; [done|]); (split; [lia|]); (split; [lia|]); done.
  - apply executeProposal_inv in Hex as (s1 & Hs1 & ->).
    assert (proposals s1 = proposals s /\ _proposalIdCounter s1 = _proposalIdCounter s)
      as [Hp1 Hc1].
    { destruct Hs1 as [[_ Hk]|[_ ->]]; [|done].
      by apply kind_effect_frame in Hk as (? & _ & _ & ?). }
    cbn. rewrite Hp1, Hc1, read_upd. destruct (decide _) as [<-|Hq]; cbn;
      (split; [lia|]); (split; [done|]); (split; [lia|]); (split; [lia|]); done.
  - destruct Hne as (H1 & H2 & H3 & H4 & H5).
    destruct (exec_proposals_frame _ _ _ _ Hex H1 H2 H3 H4 H5) as [-> ->].
    split; [lia|]. split; [done|]. split; [lia|]. split; [lia|]. done.
Qed.

(** X10. The terms of a created proposal are permanent and its tallies only
    grow: under every sequence of calls its identifier, proposer, kind,
    payload, start time, end time and description stay as created, and
    [forVotes] and [againstVotes] never decrease. *)
Theorem created_proposal_terms_are_permanent pid s s' :
  steps s s' ->
  pid < _proposalIdCounter s ->
  let old := (proposals s).[pid] in
  let new := (proposals s').[pid] in
  (Proposal.id new, Proposal.proposer new, Proposal.proposalType new, Proposal.data new,
   Proposal.startTime new, Proposal.endTime new, Proposal.descriptionHash new) =
  (Proposal.id old, Proposal.proposer old, Proposal.proposalType old, Proposal.data old,
   Proposal.startTime old, Proposal.endTime old, Proposal.descriptionHash old) /\
  Proposal.forVotes old <= Proposal.forVotes new /\
  Proposal.againstVotes old <= Proposal.againstVotes new.
Proof.
  cbv zeta. induction 1 as [|s env c s' s'' Hex _ IH]; [intros _; split; [done | lia]|].
  intros Hlt.
  destruct (exec_created_proposal _ _ _ _ pid Hex Hlt) as (Hlt' & Hterms & Hf & Ha & _).
  destruct (IH Hlt') as (Hterms' & Hf' & Ha').
  split; [congruence | lia].
Qed.

(** X11. The tallies of a created proposal change only through a vote cast
    on that proposal while it is Active and strictly before its end time,
    and then by exactly the given weight on the chosen side; in particular
    a call made at or after the end time leaves them as they were. *)
Theorem tallies_change_only_by_votes_before_the_deadline c env s s' pid :
  exec c env s = Ok s' ->
  pid < _proposalIdCounter s ->
  let old := (proposals s).[pid] in
  let new := (proposals s').[pid] in
  ((Proposal.forVotes new, Proposal.againstVotes new) <>
   (Proposal.forVotes old, Proposal.againstVotes old) ->
   Proposal.status old = Active /\ block_timestamp env < Proposal.endTime old /\
   exists support w, c = CastModerationVote pid support w /\
     Proposal.forVotes new = Proposal.forVotes old + (if support then w else 0) /\
     Proposal.againstVotes new = Proposal.againstVotes old + (if support then 0 else w)) /\
  (Proposal.endTime old <= block_timestamp env ->
   Proposal.forVotes new = Proposal.forVotes old /\
   Proposal.againstVotes new = Proposal.againstVotes old).
Proof.
  intros Hex Hlt. cbv zeta.
  destruct (exec_created_proposal _ _ _ _ pid Hex Hlt) as (_ & _ & _ & _ & Hcause).
  split; [exact Hcause|].
  intros Hlate.
  destruct (decide ((Proposal.forVotes ((proposals s').[pid]),
                     Proposal.againstVotes ((proposals s').[pid])) =
                    (Proposal.forVotes ((proposals s).[pid]),
                     Proposal.againstVotes ((proposals s).[pid])))) as [[= -> ->]|Hne];
    [done|].
  destruct (Hcause Hne) as (_ & Hearly & _). lia.
Qed.

Lemma reachable_not_entered s : reachable s -> _status s = NOT_ENTERED.
Proof.
  induction 1 as [env | s env c s' _ IH Hex].
  - unfold constructor, _grantRole. repeat (case_match; cbn); done.
  - by rewrite (exec_status _ _ _ _ Hex).
Qed.

Lemma unallocated_ok_deploy env : unallocated_ok (constructor env).
Proof.
  unfold constructor, _grantRole.
  repeat (case_match; cbn); intros pid _; cbn; by rewrite read_empty.
Qed.

Lemma unallocated_ok_call c env s s' :
  exec c env s = Ok s' -> unallocated_ok s -> unallocated_ok s'.
Proof.
  intros Hex Hok.
  destruct (exec_proposals_cases c)
    as [(q & ->) | [(t & d & h & ->) | [(q & b & w & ->) | [(q & ->) | [(q & ->) | Hne]]]]];
    cbn [exec] in Hex.
  - apply startModerationVote_Ok in Hex as (_ & _ & endTime & ->). intros pid. cbn.
    intros Hle. rewrite read_insert, decide_False by lia. apply Hok. lia.
  - apply bind_Ok in Hex as (r & Hr' & [= <-]).
    apply createProposal_Ok in Hr' as (endTime & ->). intros pid. cbn.
    intros Hle. rewrite read_insert, decide_False by lia. apply Hok. lia.
  - apply castModerationVote_Ok in Hex as ((_ & _ & _ & Htime) & _ & _ & s2 & Ht & ->).
    apply tally_vote_Ok in Ht as (_ & mv & _ & ->). intros pid. cbn. intros Hle.
    rewrite read_upd. destruct (decide _) as [<-|Hq]; [|by apply Hok].
    destruct (Hok q Hle) as (_ & Hend & _). cbn in Htime. lia.
  - apply executeModerationVote_Ok in Hex as (_ & _ & _ & _ & ->). intros pid. cbn.
    intros Hle. rewrite read_upd. destruct (decide _) as [Hq|Hq]; cbn; [|by apply Hok].
    rewrite Hq. by apply Hok.
  - apply executeProposal_inv in Hex as (s1 & Hs1 & ->).
    assert (proposals s1 = proposals s /\ _proposalIdCounter s1 = _proposalIdCounter s)
      as [Hp1 Hc1].
    { destruct Hs1 as [[_ Hk]|[_ ->]]; [|done].
      by apply kind_effect_frame in Hk as (? & _ & _ & ?). }
    intros pid. cbn. rewrite Hp1, Hc1. intros Hle.
    rewrite read_upd. destruct (decide _) as [<-|Hq]; cbn; by apply Hok.
  - destruct Hne as (H1 & H2 & H3 & H4 & H5).
    destruct (exec_proposals_frame _ _ _ _ Hex H1 H2 H3 H4 H5) as [Hp Hc].
    intros pid. rewrite Hp, Hc. apply Hok.
Qed.

Lemma unallocated_ok_reachable s : reachable s -> unallocated_ok s.
Proof.
  induction 1 as [env | s env c s' _ IH Hex].
  - apply unallocated_ok_deploy.
  - by eapply unallocated_ok_call.
Qed.

(** X12. In every reachable state a proposal identifier at or beyond the
    proposal counter cannot be voted on: [castModerationVote] reverts, with
    "Proposal does not exist" for every identifier but 0, and so does
    [executeProposal]. The slot 0 is the exception of the existence check
    [proposals[id].id == id]: while no proposal has been created,
    [executeProposal 0] passes it at any time and, the slot being Active by
    default with empty tallies, succeeds and records Rejected. *)
Theorem calls_on_uncreated_proposals s pid env :
  reachable s ->
  _proposalIdCounter s <= pid ->
  (forall support w, exists e, castModerationVote pid support w env s = Revert e) /\
  (pid <> 0 ->
   (forall support w,
      castModerationVote pid support w env s
        = Revert (Require_failed "Proposal does not exist")) /\
   executeProposal pid env s = Revert (Require_failed "Proposal does not exist")) /\
  (pid = 0 -> Proposal.status ((proposals s).[0]) = Active ->
   exists s', executeProposal 0 env s = Ok s' /\
     Proposal.status ((proposals s').[0]) = Rejected).
Proof.
  intros Hr Hle.
  destruct (unallocated_ok_reachable s Hr pid Hle) as (Hid & Hend & Hfor & Hag).
  pose proof (reachable_not_entered s Hr) as Hst.
  split; [|split].
  - intros support w.
    destruct (castModerationVote pid support w env s) as [s'|e] eqn:E; [|eauto].
    apply castModerationVote_Ok in E as ((_ & _ & _ & Htime) & _). lia.
  - intros Hne.
    assert ((Proposal.id ((proposals s).[pid]) =? pid) = false) as Hno
      by (apply N.eqb_neq; congruence).
    split.
    + intros support w. unfold castModerationVote. rewrite Hst. cbn. by rewrite Hno.
    + unfold executeProposal. cbv zeta. by rewrite Hno.
  - intros -> Hact.
    assert (passes ((proposals s).[0]) = false) as Hp
      by (unfold passes; rewrite Hfor, Hag; reflexivity).
    rewrite (executeProposal_unfold 0 env s) by (rewrite ?Hfor, ?Hag, ?Hend; first [done | lia | vm_compute; reflexivity]).
    rewrite Hp. eexists. split; [reflexivity|]. cbn.
    by rewrite read_upd, decide_True.
Qed.

(** ** Governance effects: parameters and roles *)

Lemma kind_effect_Ok proposal env s s1 :
  kind_effect proposal env s = Ok s1 ->
  (Proposal.proposalType proposal = UpdateParameters /\
   exists name value,
     abi_decode_string_uint256 (Proposal.data proposal) = Ok (name, value) /\
     s1 = if String.eqb name "flagThreshold" then set_flagThreshold value s
          else if String.eqb name "voteDuration" then set_voteDuration value s
          else if String.eqb name "quorumPercentage" then set_quorumPercentage value s
          else s) \/
  (Proposal.proposalType proposal = GrantRole /\
   exists role account,
     abi_decode_bytes32_address (Proposal.data proposal) = Ok (role, account) /\
     s1 = _grantRole role account env s) \/
  (Proposal.proposalType proposal = RevokeRole /\
   exists role account,
     abi_decode_bytes32_address (Proposal.data proposal) = Ok (role, account) /\
     s1 = _revokeRole role account env s) \/
  (Proposal.proposalType proposal = RemoveContent /\ s1 = s).
Proof.
  unfold kind_effect. intros Hk.
  destruct (Proposal.proposalType proposal) eqn:Hty; cbn in Hk.
  - right. right. right. by injection Hk as <-.
  - left. split; [done|].
    apply bind_Ok in Hk as ([name value] & Hd & Hk). cbn in Hk.
    exists name, value. split; [done|].
    repeat (case_match; try (by injection Hk as <-)).
  - right. left. split; [done|].
    apply bind_Ok in Hk as ([role account] & Hd & [= <-]). by exists role, account.
  - right. right. left. split; [done|].
    apply bind_Ok in Hk as ([role account] & Hd & [= <-]). by exists role, account.
Qed.

(** Calls other than [executeProposal] leave the platform parameters as
    they were. *)
Lemma exec_parameters_frame c env s s' :
  exec c env s = Ok s' -> (forall p, c <> ExecuteProposal p) ->
  parameters s' = parameters s.
Proof.
  intros Hex Hc.
  destruct c; cbn [exec] in Hex;
    try (exfalso; by eapply Hc);
    unfold_calls Hex; tx_inv; cbn; repeat (case_match; cbn); done.
Qed.

Lemma grantRole_parameters role account env s :
  parameters (_grantRole role account env s) = parameters s.
Proof. unfold _grantRole. by case_match. Qed.

Lemma revokeRole_parameters role account env s :
  parameters (_revokeRole role account env s) = parameters s.
Proof. unfold _revokeRole. by case_match. Qed.

(** X13. The platform parameters change only through [executeProposal] on
    an Active UpdateParameters proposal that has reached its deadline and
    passed, whose payload decodes to a name and a value: the parameter of
    that name then takes the value and the two others stay. No other call,
    and no other kind of proposal, changes a parameter. *)
Theorem parameters_change_only_by_passed_proposals c env s s' :
  exec c env s = Ok s' ->
  parameters s' <> parameters s ->
  exists pid name value,
    c = ExecuteProposal pid /\
    Proposal.proposalType ((proposals s).[pid]) = UpdateParameters /\
    Proposal.status ((proposals s).[pid]) = Active /\
    Proposal.endTime ((proposals s).[pid]) <= block_timestamp env /\
    passes ((proposals s).[pid]) = true /\
    abi_decode_string_uint256 (Proposal.data ((proposals s).[pid])) = Ok (name, value) /\
    parameters s' =
      (if String.eqb name "flagThreshold" then (value, voteDuration s, quorumPercentage s)
       else if String.eqb name "voteDuration" then (flagThreshold s, value, quorumPercentage s)
       else (flagThreshold s, voteDuration s, value)).
Proof.
  intros Hex Hne.
  assert ((exists p, c = ExecuteProposal p) \/ (forall p, c <> ExecuteProposal p))
    as [[pid ->] | Hc].
  { destruct c; eauto; right; done. }
  2:{ by rewrite (exec_parameters_frame _ _ _ _ Hex Hc) in Hne. }
  cbn [exec] in Hex.
  pose proof (executeProposal_Ok _ _ _ _ Hex) as (_ & Hact & Htime & _).
  apply executeProposal_inv in Hex as (s1 & [[Hp Hk]|[_ ->]] & ->); [|by destruct Hne].
  apply kind_effect_Ok in Hk
    as [(Hty & name & value & Hd & ->) |
        [(_ & r & a & _ & ->) | [(_ & r & a & _ & ->) | (_ & ->)]]].
  - exists pid, name, value. repeat (split; [done|]).
    revert Hne. repeat case_match; cbn; done.
  - exfalso. apply Hne. cbn. apply grantRole_parameters.
  - exfalso. apply Hne. cbn. apply revokeRole_parameters.
  - by destruct Hne.
Qed.

(** X14. Executing a passed UpdateParameters proposal whose payload decodes
    to (name, value): the call succeeds for any caller, the proposal
    becomes Executed, the parameter called "flagThreshold", "voteDuration"
    or "quorumPercentage" takes the value, and any other name changes no
    parameter although the proposal still becomes Executed. A new
    [voteDuration] applies to proposals created afterwards: their end time
    is the creation time plus the new value. *)
Theorem executeProposal_updates_the_named_parameter pid name value env s :
  let proposal := (proposals s).[pid] in
  Proposal.id proposal = pid ->
  Proposal.status proposal = Active ->
  Proposal.endTime proposal <= block_timestamp env ->
  Proposal.forVotes proposal + Proposal.againstVotes proposal < uint256_limit ->
  passes proposal = true ->
  Proposal.proposalType proposal = UpdateParameters ->
  abi_decode_string_uint256 (Proposal.data proposal) = Ok (name, value) ->
  exists s',
    executeProposal pid env s = Ok s' /\
    Proposal.status ((proposals s').[pid]) = Executed /\
    parameters s' =
      (if String.eqb name "flagThreshold" then (value, voteDuration s, quorumPercentage s)
       else if String.eqb name "voteDuration" then (flagThreshold s, value, quorumPercentage s)
       else if String.eqb name "quorumPercentage" then (flagThreshold s, voteDuration s, value)
       else parameters s) /\
    forall ty data descr env2 r,
      createProposal ty data descr env2 s' = Ok r ->
      Proposal.endTime ((proposals (snd r)).[fst r]) = block_timestamp env2 + voteDuration s' /\
      (String.eqb name "voteDuration" = true ->
       Proposal.endTime ((proposals (snd r)).[fst r]) = block_timestamp env2 + value).
Proof.
  cbv zeta. intros Hid Hact Htime Hfit Hpass Hty Hdec.
  rewrite (executeProposal_unfold _ _ _ Hid Hact Htime Hfit), Hpass.
  unfold kind_effect. rewrite (bool_decide_eq_true_2 _ Hty), Hdec. cbn.
  assert (forall (s1 : State) props ty data descr env2 r,
              createProposal ty data descr env2
                (emit (ProposalExecuted pid) (set_proposals props s1)) = Ok r ->
              Proposal.endTime ((proposals (snd r)).[fst r])
                = block_timestamp env2 + voteDuration s1) as Hgen.
  { intros s1 props ty data descr env2 r Hr.
    unfold createProposal in Hr.
    apply bind_Ok in Hr as (? & _ & Hr). cbv zeta in Hr.
    apply bind_Ok in Hr as (endTime & [-> _]%checked_add_Ok & [= <-]).
    cbn. by rewrite read_insert, decide_True. }
  destruct (String.eqb name "flagThreshold") eqn:E1;
    [|destruct (String.eqb name "voteDuration") eqn:E2;
      [|destruct (String.eqb name "quorumPercentage") eqn:E3]];
    (eexists; split; [reflexivity|]; cbn;
     split; [by rewrite read_upd, decide_True|]; split; [done|];
     intros ty data descr env2 r Hr; apply Hgen in Hr;
     split; [exact Hr|]; intros E;
     first [ discriminate E | exact Hr
           | apply String.eqb_eq in E; subst name; cbn in *; congruence ]).
Qed.

(** ** Roles *)

Lemma hasRole_grantRole r a role account env s :
  hasRole r a (_grantRole role account env s) =
    if decide (role = r /\ account = a) then true else hasRole r a s.
Proof.
  unfold _grantRole. destruct (hasRole role account s) eqn:Hh.
  - destruct (decide _) as [[<- <-]|]; done.
  - unfold hasRole. cbn. by rewrite read_write2.
Qed.

Lemma hasRole_revokeRole r a role account env s :
  hasRole r a (_revokeRole role account env s) =
    if decide (role = r /\ account = a) then false else hasRole r a s.
Proof.
  unfold _revokeRole. destruct (hasRole role account s) eqn:Hh.
  - unfold hasRole. cbn. by rewrite read_write2.
  - destruct (decide _) as [[<- <-]|]; done.
Qed.

(** Calls other than the three role calls and [executeProposal] leave the
    roles as they were. *)
Lemma exec_roles_frame c env s s' :
  exec c env s = Ok s' ->
  (forall p, c <> ExecuteProposal p) ->
  (forall r a, c <> GrantRoleCall r a) ->
  (forall r a, c <> RevokeRoleCall r a) ->
  (forall r a, c <> RenounceRoleCall r a) ->
  _roles s' = _roles s.
Proof.
  intros Hex H1 H2 H3 H4.
  destruct c; cbn [exec] in Hex;
    try (exfalso; first [by eapply H1 | by eapply H2 | by eapply H3 | by eapply H4]);
    unfold_calls Hex; tx_inv; cbn; repeat (case_match; cbn); done.
Qed.

(** X15. A role membership changes only through [grantRole] or [revokeRole]
    called by a holder of the default admin role, through [renounceRole]
    called by the account itself, or through [executeProposal] on an Active
    GrantRole or RevokeRole proposal that has reached its deadline and
    passed and whose payload names that role and account. In particular no
    content, moderation or voting call changes who holds a role. *)
Theorem roles_change_only_by_admin_or_passed_proposals c env s s' r a :
  exec c env s = Ok s' ->
  hasRole r a s' <> hasRole r a s ->
  (c = GrantRoleCall r a /\
   hasRole DEFAULT_ADMIN_ROLE (msg_sender env) s = true /\ hasRole r a s' = true) \/
  (c = RevokeRoleCall r a /\
   hasRole DEFAULT_ADMIN_ROLE (msg_sender env) s = true /\ hasRole r a s' = false) \/
  (c = RenounceRoleCall r a /\ a = msg_sender env /\ hasRole r a s' = false) \/
  (exists pid,
     c = ExecuteProposal pid /\
     Proposal.status ((proposals s).[pid]) = Active /\
     Proposal.endTime ((proposals s).[pid]) <= block_timestamp env /\
     passes ((proposals s).[pid]) = true /\
     abi_decode_bytes32_address (Proposal.data ((proposals s).[pid])) = Ok (r, a) /\
     (Proposal.proposalType ((proposals s).[pid]) = GrantRole /\ hasRole r a s' = true \/
      Proposal.proposalType ((proposals s).[pid]) = RevokeRole /\ hasRole r a s' = false)).
Proof.
  intros Hex Hne.
  destruct c;
    try (exfalso; apply Hne; unfold hasRole;
         by rewrite (exec_roles_frame _ _ _ _ Hex)).
  - (* executeProposal *)
    right. right. right. cbn [exec] in Hex.
    pose proof (executeProposal_Ok _ _ _ _ Hex) as (_ & Hact & Htime & _).
    apply executeProposal_inv in Hex as (s1 & [[Hp Hk]|[_ ->]] & ->);
      [|by destruct Hne].
    exists proposalId. do 4 (split; [done|]).
    apply kind_effect_Ok in Hk
      as [(_ & name & value & _ & ->) |
          [(Hty & role & account & Hd & ->) |
           [(Hty & role & account & Hd & ->) | (_ & ->)]]].
    + exfalso. apply Hne. repeat case_match; done.
    + change (hasRole r a (_grantRole role account env s) <> hasRole r a s) in Hne.
      change (hasRole r a (emit ?e (set_proposals ?p ?s0))) with (hasRole r a s0).
      rewrite hasRole_grantRole in *.
      destruct (decide _) as [[<- <-]|]; [|done]. split; [done|]. by left.
    + change (hasRole r a (_revokeRole role account env s) <> hasRole r a s) in Hne.
      change (hasRole r a (emit ?e (set_proposals ?p ?s0))) with (hasRole r a s0).
      rewrite hasRole_revokeRole in *.
      destruct (decide _) as [[<- <-]|]; [|done]. split; [done|]. by right.
    + by destruct Hne.
  - (* grantRole *)
    left. cbn [exec] in Hex. unfold grantRole in Hex.
    apply bind_Ok in Hex as (? & Hadm%onlyRole_Ok & [= <-]).
    rewrite hasRole_grantRole in *.
    destruct (decide _) as [[<- <-]|]; done.
  - (* revokeRole *)
    right. left. cbn [exec] in Hex. unfold revokeRole in Hex.
    apply bind_Ok in Hex as (? & Hadm%onlyRole_Ok & [= <-]).
    rewrite hasRole_revokeRole in *.
    destruct (decide _) as [[<- <-]|]; done.
  - (* renounceRole *)
    right. right. left. cbn [exec] in Hex. unfold renounceRole in Hex.
    apply bind_Ok in Hex as (? & Hself%require_Ok & [= <-]).
    apply N.eqb_eq in Hself.
    rewrite hasRole_revokeRole in *.
    destruct (decide _) as [[<- <-]|]; done.
Qed.

(** X16. Executing a passed GrantRole (RevokeRole) proposal whose payload
    decodes to (role, account) succeeds for any caller, whatever roles the
    caller holds; afterwards the account holds (does not hold) the role,
    every other membership is as before and the proposal is Executed. A
    passed GrantRole proposal for the moderator role lets the account pass
    the moderator gate of [verifyUser]. *)
Theorem executeProposal_grants_and_revokes_roles pid role account env s :
  let proposal := (proposals s).[pid] in
  Proposal.id proposal = pid ->
  Proposal.status proposal = Active ->
  Proposal.endTime proposal <= block_timestamp env ->
  Proposal.forVotes proposal + Proposal.againstVotes proposal < uint256_limit ->
  passes proposal = true ->
  Proposal.proposalType proposal = GrantRole \/ Proposal.proposalType proposal = RevokeRole ->
  abi_decode_bytes32_address (Proposal.data proposal) = Ok (role, account) ->
  exists s',
    executeProposal pid env s = Ok s' /\
    Proposal.status ((proposals s').[pid]) = Executed /\
    hasRole role account s' =
      bool_decide (Proposal.proposalType proposal = GrantRole) /\
    (forall r a, (r, a) <> (role, account) -> hasRole r a s' = hasRole r a s) /\
    (Proposal.proposalType proposal = GrantRole -> role = MODERATOR_ROLE ->
     forall u env2,
       msg_sender env2 = account ->
       registered u s = true ->
       UserProfile.isVerified ((users s).[u]) = false ->
       exists s2, verifyUser u env2 s' = Ok s2 /\
                  UserProfile.isVerified ((users s2).[u]) = true).
Proof.
  cbv zeta. intros Hid Hact Htime Hfit Hpass Hty Hdec.
  rewrite (executeProposal_unfold _ _ _ Hid Hact Htime Hfit), Hpass.
  unfold kind_effect.
  destruct Hty as [Hty|Hty]; rewrite Hty, Hdec; cbn [bool_decide decide_rel]; cbn;
    (eexists; split; [reflexivity|]);
    (split; [cbn; by rewrite read_upd, decide_True|]).
  - change (hasRole ?r ?a (emit ?e (set_proposals ?p ?s0))) with (hasRole r a s0).
    split; [by rewrite hasRole_grantRole, decide_True|].
    split.
    { intros r a Hra.
      change (hasRole ?r ?a (emit ?e (set_proposals ?p ?s0))) with (hasRole r a s0).
      rewrite hasRole_grantRole. destruct (decide _) as [[<- <-]|]; done. }
    intros _ -> u env2 Hsender Hreg Hnv.
    unfold verifyUser, onlyRole. rewrite Hsender.
    change (hasRole ?r ?a (emit ?e (set_proposals ?p ?s0))) with (hasRole r a s0).
    rewrite hasRole_grantRole, decide_True by done. cbn.
    assert (users (_grantRole MODERATOR_ROLE account env s) = users s) as Hu.
    { unfold _grantRole. by case_match. }
    unfold registered in *. cbn. rewrite !Hu, Hreg, Hnv. cbn.
    eexists. split; [reflexivity|]. cbn. by rewrite read_upd, decide_True.
  - change (hasRole ?r ?a (emit ?e (set_proposals ?p ?s0))) with (hasRole r a s0).
    split; [by rewrite hasRole_revokeRole, decide_True|].
    split; [|done].
    intros r a Hra.
    change (hasRole ?r ?a (emit ?e (set_proposals ?p ?s0))) with (hasRole r a s0).
    rewrite hasRole_revokeRole. destruct (decide _) as [[<- <-]|]; done.
Qed.

(** ** Opening a moderation vote and voting on it *)

(** X17. A successful [startModerationVote] on a post (by a moderator, on a
    Flagged post) allocates the next proposal id, stores a RemoveContent
    proposal whose payload decodes back to the post id, stores the
    moderation vote of the post linked to that proposal, both with zero
    tallies and the deadline now + voteDuration, and moves the post to
    UnderVote. Afterwards the post can be neither flagged nor put to a
    second vote, and its vote cannot be executed before the deadline. *)
Theorem startModerationVote_opens_a_linked_vote p env s s1 :
  p < uint256_limit ->
  startModerationVote p env s = Ok s1 ->
  let pid := _proposalIdCounter s in
  let deadline := block_timestamp env + voteDuration s in
  hasRole MODERATOR_ROLE (msg_sender env) s = true /\
  NewsPost.moderationStatus ((posts s).[p]) = Flagged /\
  NewsPost.moderationStatus ((posts s1).[p]) = UnderVote /\
  _proposalIdCounter s1 = pid + 1 /\
  (proposals s1).[pid] =
    Proposal.mk pid (msg_sender env) RemoveContent (abi_encode_uint256 p)
      (block_timestamp env) deadline 0 0 Active "" /\
  (moderationVotes s1).[p] =
    ModerationVote.mk pid p (block_timestamp env) deadline 0 0 false /\
  abi_decode_uint256 (Proposal.data ((proposals s1).[pid])) = Ok p /\
  (forall env2, exists e, flagContent p env2 s1 = Revert e) /\
  (forall env2,
     hasRole MODERATOR_ROLE (msg_sender env2) s1 = true ->
     startModerationVote p env2 s1 = Revert (Require_failed "Content not flagged")) /\
  (forall env2,
     block_timestamp env2 < deadline ->
     executeModerationVote p env2 s1 = Revert (Require_failed "Voting period not ended")).
Proof.
  intros Hp Hex. cbv zeta. unfold startModerationVote in Hex.
  apply bind_Ok in Hex as (? & Hmod%onlyRole_Ok & Hex).
  apply bind_Ok in Hex as (? & Hexi%require_Ok & Hex).
  apply bind_Ok in Hex as (? & Hfl%require_Ok & Hex).
  cbv zeta in Hex.
  apply bind_Ok in Hex as (endTime & [-> Hfit]%checked_add_Ok & [= Hs1]).
  apply bool_decide_eq_true_1 in Hfl. cbn in Hfit.
  assert (posts s1 = upd (posts s) p (NewsPost.with_moderationStatus UnderVote))
    as Hposts by (by rewrite <- Hs1).
  assert (proposals s1 =
            <[_proposalIdCounter s :=
                Proposal.mk (_proposalIdCounter s) (msg_sender env) RemoveContent
                  (abi_encode_uint256 p) (block_timestamp env)
                  (block_timestamp env + voteDuration s) 0 0 Active ""]> (proposals s))
    as Hprops by (by rewrite <- Hs1).
  assert (moderationVotes s1 =
            <[p := ModerationVote.mk (_proposalIdCounter s) p (block_timestamp env)
                     (block_timestamp env + voteDuration s) 0 0 false]> (moderationVotes s))
    as Hmv by (by rewrite <- Hs1).
  assert (_proposalIdCounter s1 = _proposalIdCounter s + 1) as Hctr by (by rewrite <- Hs1).
  clear Hs1.
  assert (post_exists p s1 = true) as Hexi'.
  { unfold post_exists in *. by rewrite Hposts, read_upd, decide_True. }
  split; [done|]. split; [done|].
  split; [by rewrite Hposts, read_upd, decide_True|].
  split; [done|].
  split; [by rewrite Hprops, read_insert, decide_True|].
  split; [by rewrite Hmv, read_insert, decide_True|].
  split; [rewrite Hprops, read_insert, decide_True by done; cbn;
          by apply abi_uint256_roundtrip|].
  split; [|split].
  - intros env2. unfold flagContent. rewrite Hexi'. cbn.
    destruct (registered _ _); cbn; [|by eexists].
    rewrite Hposts, read_upd, decide_True by done. cbn. by eexists.
  - intros env2 Hmod2. unfold startModerationVote, onlyRole. rewrite Hmod2, Hexi'. cbn.
    by rewrite Hposts, read_upd, decide_True.
  - intros env2 Hearly. unfold executeModerationVote. cbv zeta.
    rewrite Hmv, read_insert, decide_True by done. cbn.
    rewrite N.eqb_refl. cbn.
    apply N.leb_gt in Hearly. by rewrite Hearly.
Qed.

(** X18. A successful vote on a RemoveContent proposal whose payload
    decodes to a post id adds the weight to the same side of the proposal
    and of that post's moderation vote: if the two pairs of tallies were
    equal before the vote they are equal after it, and the proposal's kind
    and payload are as before, so the same holds for the next vote on that
    proposal. *)
Theorem cast_on_the_linked_proposal_keeps_tallies_equal pid p support w env s s' :
  Proposal.proposalType ((proposals s).[pid]) = RemoveContent ->
  abi_decode_uint256 (Proposal.data ((proposals s).[pid])) = Ok p ->
  tallies_agree ((moderationVotes s).[p]) ((proposals s).[pid]) ->
  castModerationVote pid support w env s = Ok s' ->
  tallies_agree ((moderationVotes s').[p]) ((proposals s').[pid]) /\
  Proposal.forVotes ((proposals s').[pid]) =
    Proposal.forVotes ((proposals s).[pid]) + (if support then w else 0) /\
  Proposal.againstVotes ((proposals s').[pid]) =
    Proposal.againstVotes ((proposals s).[pid]) + (if support then 0 else w) /\
  Proposal.proposalType ((proposals s').[pid]) = RemoveContent /\
  Proposal.data ((proposals s').[pid]) = Proposal.data ((proposals s).[pid]) /\
  ModerationVote.proposalId ((moderationVotes s').[p]) =
    ModerationVote.proposalId ((moderationVotes s).[p]).
Proof.
  intros Hty Hdec [Hfor Hagainst] Hex.
  pose proof (castModerationVote_mirrors_by_payload _ _ _ _ _ _ _ Hty Hdec Hex)
    as [Hmf Hma].
  apply castModerationVote_Ok in Hex as (_ & _ & _ & s2 & Ht & ->).
  unfold tally_vote, mirror_vote, record_vote in Ht. cbn in Ht.
  unfold tallies_agree. cbn in Hmf, Hma |- *. rewrite Hmf, Hma, Hfor, Hagainst.
  destruct support;
    apply bind_Ok in Ht as (n & [-> _]%checked_add_Ok & Ht); cbn in Ht;
    rewrite read_upd, decide_True in Ht by done; cbn in Ht;
    rewrite (bool_decide_eq_true_2 _ Hty), Hdec in Ht; cbn in Ht;
    apply bind_Ok in Ht as (m & _ & [= <-]); cbn;
    rewrite !read_upd, !decide_True by done; cbn;
    rewrite ?N.add_0_r; done.
Qed.

(** ** The parameters that no function reads *)

Ltac state_fields :=
  cbn [_roles _status _postIdCounter _commentIdCounter _proposalIdCounter users posts
       postComments userPosts following postLikes proposals hasVoted moderationVotes
       flagThreshold voteDuration quorumPercentage events
       with_unused_parameters set_roles set_status set_postIdCounter set_commentIdCounter
       set_proposalIdCounter set_users set_posts set_postComments set_userPosts
       set_following set_postLikes set_proposals set_hasVoted set_moderationVotes
       set_flagThreshold set_voteDuration set_quorumPercentage emit fst snd].

Ltac outcome_cases :=
  repeat (case_match; try done; try discriminate);
  repeat match goal with
         | H : Ok _ = Ok _ |- _ => injection H as <-
         | H : Revert _ = Revert _ |- _ => injection H as <-
         end;
  state_fields; try done.

(** Every call but [executeProposal] commutes with a change of the two
    parameters. *)
Lemma exec_with_unused_parameters_plain c env s ft qp :
  (forall p, c <> ExecuteProposal p) ->
  exec c env (with_unused_parameters ft qp s) =
    match exec c env s with
    | Ok s' => Ok (with_unused_parameters ft qp s')
    | Revert e => Revert e
    end.
Proof.
  intros Hc.
  destruct c; try (exfalso; by eapply Hc); clear Hc; cbn [exec];
    unfold registerUser, verifyUser, createPost, likePost, unlikePost, addComment,
      flagContent, startModerationVote, castModerationVote, executeModerationVote,
      createProposal, followUser, grantRole, revokeRole,
      renounceRole, _grantRole, _revokeRole, onlyRole, hasRole, registered, post_exists,
      bind, require, checked_add, checked_sub;
    state_fields; outcome_cases.
Qed.

(** [executeProposal] does so up to the parameter that it overwrites. *)
Lemma executeProposal_with_unused_parameters p env s ft qp :
  match executeProposal p env s with
  | Ok s' =>
      exists ft' qp',
        executeProposal p env (with_unused_parameters ft qp s)
          = Ok (with_unused_parameters ft' qp' s')
  | Revert e => executeProposal p env (with_unused_parameters ft qp s) = Revert e
  end.
Proof.
  unfold executeProposal, _grantRole, _revokeRole, hasRole, bind, require, checked_add.
  state_fields. outcome_cases.
  all: eexists _, _; state_fields; reflexivity.
Qed.

Lemma differ_only_in_unused_parameters_inv s t :
  differ_only_in_unused_parameters s t ->
  t = with_unused_parameters (flagThreshold t) (quorumPercentage t) s.
Proof.
  unfold differ_only_in_unused_parameters, with_unused_parameters.
  destruct s, t. cbn. intros [=]. by subst.
Qed.

Lemma with_unused_parameters_differ ft qp s :
  differ_only_in_unused_parameters s (with_unused_parameters ft qp s) /\
  events s = events (with_unused_parameters ft qp s).
Proof. by destruct s. Qed.

(** X19. No function reads [flagThreshold] or [quorumPercentage]: two
    states that differ in these two parameters only give the same outcome
    for every call, that is both calls revert with the same error or both
    succeed with states that again differ in these two parameters only, and
    so with the same posts, votes, roles and event log. In particular
    neither the number of flags on a post nor any quorum percentage has an
    effect on moderation or on whether a proposal passes. *)
Theorem flagThreshold_and_quorumPercentage_are_never_read c env s t :
  differ_only_in_unused_parameters s t ->
  match exec c env s, exec c env t with
  | Ok s', Ok t' => differ_only_in_unused_parameters s' t' /\ events s' = events t'
  | Revert e, Revert e' => e = e'
  | _, _ => False
  end.
Proof.
  intros Hst. rewrite (differ_only_in_unused_parameters_inv _ _ Hst).
  generalize (flagThreshold t) (quorumPercentage t). intros ft qp.
  assert ((exists p, c = ExecuteProposal p) \/ (forall p, c <> ExecuteProposal p))
    as [[pid ->] | Hc].
  { destruct c; eauto; right; done. }
  - cbn [exec].
    pose proof (executeProposal_with_unused_parameters pid env s ft qp) as Hex.
    destruct (executeProposal pid env s) as [s'|e].
    + destruct Hex as (ft' & qp' & ->). apply with_unused_parameters_differ.
    + by rewrite Hex.
  - rewrite (exec_with_unused_parameters_plain _ _ _ _ _ Hc).
    destruct (exec c env s) as [s'|e]; [|done].
    apply with_unused_parameters_differ.
Qed.

(** ** Deployment *)

(** X20. Right after deployment the deployer holds the default admin role
    and the admin role, nobody holds the moderator role and nobody else
    holds any role, and the parameters are 3 flags, three days and 10
    percent. So [verifyUser] and [startModerationVote] revert for every
    caller, the deployer included, until a moderator is appointed; the
    deployer, and nobody else, can appoint one with [grantRole]. *)
Theorem fresh_deployment_has_no_moderator env0 :
  let s := constructor env0 in
  hasRole DEFAULT_ADMIN_ROLE (msg_sender env0) s = true /\
  hasRole ADMIN_ROLE (msg_sender env0) s = true /\
  (forall a, hasRole MODERATOR_ROLE a s = false) /\
  (forall r a, a <> msg_sender env0 -> hasRole r a s = false) /\
  parameters s = (3, 259200, 10) /\
  (forall env u,
     verifyUser u env s = Revert (Missing_role MODERATOR_ROLE (msg_sender env))) /\
  (forall env p,
     startModerationVote p env s = Revert (Missing_role MODERATOR_ROLE (msg_sender env))) /\
  (forall env a,
     msg_sender env = msg_sender env0 ->
     exists s', grantRole MODERATOR_ROLE a env s = Ok s' /\
                hasRole MODERATOR_ROLE a s' = true) /\
  (forall env r a,
     msg_sender env <> msg_sender env0 ->
     grantRole r a env s = Revert (Missing_role DEFAULT_ADMIN_ROLE (msg_sender env))).
Proof.
  cbv zeta.
  assert (forall r a,
            hasRole r a (constructor env0) =
              bool_decide ((r = DEFAULT_ADMIN_ROLE \/ r = ADMIN_ROLE) /\ a = msg_sender env0))
    as Hroles.
  { intros r a. unfold constructor. rewrite !hasRole_grantRole.
    unfold hasRole. cbn. rewrite !read_empty.
    destruct (decide (ADMIN_ROLE = r /\ _)) as [[<- <-]|Ha].
    { rewrite bool_decide_eq_true_2; [done|]. split; [by right | done]. }
    destruct (decide (DEFAULT_ADMIN_ROLE = r /\ _)) as [[<- <-]|Hd].
    { rewrite bool_decide_eq_true_2; [done|]. split; [by left | done]. }
    rewrite bool_decide_eq_false_2; [done|].
    intros [[->| ->] ->]; [apply Hd | apply Ha]; done. }
  assert (forall a, hasRole MODERATOR_ROLE a (constructor env0) = false) as Hmod.
  { intros a. rewrite Hroles. apply bool_decide_eq_false_2.
    intros [[H|H] _]; vm_compute in H; discriminate H. }
  split; [rewrite Hroles; apply bool_decide_eq_true_2; split; [by left | done]|].
  split; [rewrite Hroles; apply bool_decide_eq_true_2; split; [by right | done]|].
  split; [done|].
  split.
  { intros r a Ha. rewrite Hroles. apply bool_decide_eq_false_2. by intros [_ ?]. }
  split.
  { unfold constructor. rewrite !grantRole_parameters. reflexivity. }
  split; [intros env u; unfold verifyUser, onlyRole; by rewrite Hmod|].
  split; [intros env p; unfold startModerationVote, onlyRole; by rewrite Hmod|].
  split.
  - intros env a Hsender. unfold grantRole, onlyRole.
    rewrite Hroles, Hsender, bool_decide_eq_true_2 by (split; [by left | done]).
    cbn. eexists. split; [reflexivity|].
    by rewrite hasRole_grantRole, decide_True.
  - intros env r a Hsender. unfold grantRole, onlyRole.
    rewrite Hroles, bool_decide_eq_false_2; [done|]. by intros [_ ?].
Qed.

(** ** Registration as a gate *)

Lemma exec_registered c env s s' a :
  exec c env s = Ok s' -> registered a s = true -> registered a s' = true.
Proof.
  intros Hex Hreg. destruct (exec_profile _ _ _ _ a Hex Hreg) as [Hid _].
  by rewrite (registered_identity _ _ _ Hid).
Qed.

Lemma exec_new_voter c env s s' pid a :
  exec c env s = Ok s' ->
  (hasVoted s').[pid].[a] = true ->
  (hasVoted s).[pid].[a] = true \/ a = msg_sender env /\ registered a s = true.
Proof.
  intros Hex Hv. destruct c; cbn [exec] in Hex;
    try (left; unfold_calls Hex; tx_inv; cbn in Hv;
         repeat (case_match; cbn in Hv); exact Hv).
  apply castModerationVote_Ok in Hex as (_ & _ & Hreg & s2 & Ht & ->).
  apply tally_vote_Ok in Ht as (_ & mv & _ & ->). cbn in Hv.
  rewrite read_write2 in Hv. destruct (decide _) as [[<- <-]|]; [right | left]; done.
Qed.

Lemma participants_registered_deploy env : participants_registered (constructor env).
Proof.
  unfold participants_registered, constructor, _grantRole.
  repeat (case_match; cbn); (split; [intros p Hp; lia|]);
    (split; [intros p c; rewrite read_empty; by intros ?%elem_of_nil |]);
    intros pid a; by rewrite !read_empty.
Qed.

Lemma participants_registered_call c env s s' :
  exec c env s = Ok s' -> participants_registered s -> participants_registered s'.
Proof.
  intros Hex (Hposts & Hcomments & Hvoters).
  pose proof (fun a => exec_registered _ _ _ _ a Hex) as Hkeep.
  split; [|split].
  - intros p Hp.
    assert ((exists a b d, c = CreatePost a b d) \/ (forall a b d, c <> CreatePost a b d))
      as [(a & b & d & ->) | Hc].
    { destruct c; eauto; right; done. }
    + pose proof Hex as Hex'. cbn [exec] in Hex'.
      apply bind_Ok in Hex' as (r & Hr & [= <-]).
      apply createPost_Ok in Hr as (Hreg & ->). cbn in Hp |- *.
      change (registered ?x (emit ?e (set_userPosts ?u (set_posts ?ps
               (set_postIdCounter ?n s))))) with (registered x s).
      rewrite read_insert. destruct (decide _) as [<-|Hne]; cbn; [done|].
      apply Hposts. lia.
    + destruct (exec_post_content _ _ _ _ Hex Hc) as (Hctr & _ & Hcontent).
      specialize (Hcontent p). unfold post_content in Hcontent.
      injection Hcontent as _ Hauthor _ _ _ _. rewrite Hauthor.
      apply Hkeep, Hposts. lia.
  - intros p c0 Hin.
    assert ((exists q t, c = AddComment q t) \/ (forall q t, c <> AddComment q t))
      as [(q & t & ->) | Hc].
    { destruct c; eauto; right; done. }
    + pose proof Hex as Hex'. cbn [exec] in Hex'.
      apply bind_Ok in Hex' as (r & Hr & [= <-]).
      apply addComment_Ok in Hr as (_ & Hreg & ->). cbn in Hin.
      rewrite read_upd in Hin. destruct (decide _) as [<-|Hne].
      * apply elem_of_app in Hin as [Hin | ->%list_elem_of_singleton].
        -- eapply Hkeep, Hcomments, Hin.
        -- cbn. by apply Hkeep.
      * eapply Hkeep, Hcomments, Hin.
    + assert ((exists a b d, c = CreatePost a b d) \/ (forall a b d, c <> CreatePost a b d))
        as [(a & b & d & ->) | Hc'].
      { destruct c; eauto; right; done. }
      * pose proof Hex as Hex'. cbn [exec] in Hex'.
        apply bind_Ok in Hex' as (r & Hr & [= <-]).
        apply createPost_Ok in Hr as (Hreg & ->). cbn in Hin.
        eapply Hkeep, Hcomments, Hin.
      * destruct (exec_comments_frame _ _ _ _ Hex Hc' Hc) as (_ & _ & Hpc & _).
        rewrite Hpc in Hin. eapply Hkeep, Hcomments, Hin.
  - intros pid a Hv.
    destruct (exec_new_voter _ _ _ _ _ _ Hex Hv) as [Hold | [_ Hreg]].
    + eapply Hkeep, Hvoters, Hold.
    + by apply Hkeep.
Qed.

Lemma participants_registered_reachable s : reachable s -> participants_registered s.
Proof.
  induction 1 as [env | s env c s' _ IH Hex].
  - apply participants_registered_deploy.
  - by eapply participants_registered_call.
Qed.

(** X24. In every reachable state the author of every created post, the
    author of every stored comment and everyone recorded as having voted on
    a proposal is a registered user. Likes are different: [likePost] does
    not ask for registration, so an address that never registered can like
    an existing post, while every other content, voting or follow call by
    that address reverts. *)
Theorem only_likes_need_no_registration s env :
  reachable s ->
  participants_registered s /\
  (registered (msg_sender env) s = false ->
   (forall c m k, exists e, createPost c m k env s = Revert e) /\
   (forall p text, exists e, addComment p text env s = Revert e) /\
   (forall p, exists e, flagContent p env s = Revert e) /\
   (forall pid support w, exists e, castModerationVote pid support w env s = Revert e) /\
   (forall ty data descr, exists e, createProposal ty data descr env s = Revert e) /\
   (forall u, exists e, followUser u env s = Revert e) /\
   (forall p,
      post_exists p s = true ->
      hasLiked p (msg_sender env) s = false ->
      NewsPost.likes ((posts s).[p]) + 1 < uint256_limit ->
      exists s', likePost p env s = Ok s' /\ hasLiked p (msg_sender env) s' = true)).
Proof.
  intros Hr. split; [by apply participants_registered_reachable|].
  intros Hno.
  split.
  { intros c m k. destruct (createPost c m k env s) as [r|e] eqn:E; [|eauto].
    apply createPost_Ok in E as [? _]. congruence. }
  split.
  { intros p text. destruct (addComment p text env s) as [r|e] eqn:E; [|eauto].
    apply addComment_Ok in E as (_ & ? & _). congruence. }
  split.
  { intros p. destruct (flagContent p env s) as [r|e] eqn:E; [|eauto].
    unfold flagContent in E. tx_inv. congruence. }
  split.
  { intros pid support w.
    destruct (castModerationVote pid support w env s) as [r|e] eqn:E; [|eauto].
    apply castModerationVote_Ok in E as (_ & _ & ? & _). congruence. }
  split.
  { intros ty data descr.
    destruct (createProposal ty data descr env s) as [r|e] eqn:E; [|eauto].
    unfold createProposal in E. apply bind_Ok in E as (? & ?%require_Ok & _). congruence. }
  split.
  { intros u. destruct (followUser u env s) as [r|e] eqn:E; [|eauto].
    apply followUser_Ok in E. destruct E as (_ & _ & ? & _). congruence. }
  intros p Hexi Hnl Hfit. unfold likePost, hasLiked in *. rewrite Hexi, Hnl. cbn.
  rewrite checked_add_fits by done. cbn.
  eexists. split; [reflexivity|]. cbn. by rewrite read_write2, decide_True.
Qed.

(** ** The token contract *)

Lemma sum_insert (m : gmap N N) (k v : N) :
  map_fold (fun _ x acc => x + acc) 0 (<[k := v]> m) + m.[k]
    = map_fold (fun _ x acc => x + acc) 0 m + v.
Proof.
  unfold read. destruct (m !! k) as [x|] eqn:Hk; cbn.
  - rewrite <- insert_delete_eq.
    rewrite map_fold_insert_L; [|intros; lia|apply lookup_delete_eq].
    rewrite (map_fold_delete_L _ _ k x m); [lia|intros; lia|done].
  - rewrite map_fold_insert_L; [|intros; lia|done]. unfold zero, N_zero. lia.
Qed.

Lemma sum_bounds (m : gmap N N) (j k : N) :
  j <> k -> m.[j] + m.[k] <= map_fold (fun _ x acc => x + acc) 0 m.
Proof.
  intros Hjk.
  pose proof (sum_insert m j 0) as Hj.
  pose proof (sum_insert (<[j := 0]> m) k 0) as Hk.
  rewrite read_insert, decide_False in Hk by done. lia.
Qed.

(** X21. [increaseReputation] is for the owner only and adds up: for any
    other caller it fails and changes nothing; for the owner it fails
    exactly when the new score would not fit 256 bits; two successive
    increases by a and b leave the same scores as one increase by a + b,
    the score of the user being the old one plus a + b, the scores of all
    other users and all balances being as before. *)
Theorem increaseReputation_adds_up user a b env s :
  (Token.owner s <> msg_sender env ->
   Token.increaseReputation user a env s
     = Token.Failed (Token.Unauthorized_account (msg_sender env))) /\
  (Token.owner s = msg_sender env ->
   uint256_limit <= Token.getReputation user s + a ->
   Token.increaseReputation user a env s = Token.Failed Token.Arithmetic_panic) /\
  (Token.owner s = msg_sender env ->
   Token.getReputation user s + a + b < uint256_limit ->
   exists s1 s2 s12,
     Token.increaseReputation user a env s = Token.Done s1 /\
     Token.increaseReputation user b env s1 = Token.Done s2 /\
     Token.increaseReputation user (a + b) env s = Token.Done s12 /\
     Token.reputationScores s12 = Token.reputationScores s2 /\
     Token.getReputation user s2 = Token.getReputation user s + a + b /\
     (forall u, u <> user -> Token.getReputation u s2 = Token.getReputation u s) /\
     Token._balances s2 = Token._balances s /\
     Token.owner s2 = Token.owner s).
Proof.
  unfold Token.increaseReputation, Token.onlyOwner, Token.getReputation.
  split; [|split].
  - intros Hno. apply N.eqb_neq in Hno. by rewrite Hno.
  - intros -> Hbig. rewrite N.eqb_refl.
    apply N.ltb_ge in Hbig. by rewrite Hbig.
  - intros Hown Hfit. rewrite Hown, N.eqb_refl.
    assert (((Token.reputationScores s).[user] + a <? uint256_limit) = true) as ->
      by (apply N.ltb_lt; lia).
    assert (((Token.reputationScores s).[user] + (a + b) <? uint256_limit) = true) as ->
      by (apply N.ltb_lt; lia).
    eexists _, _, _. split; [reflexivity|]. cbn.
    unfold Token.owner in *. cbn. rewrite Hown, N.eqb_refl.
    rewrite read_insert, decide_True by done.
    assert (((Token.reputationScores s).[user] + a + b <? uint256_limit) = true) as ->
      by (apply N.ltb_lt; lia).
    split; [reflexivity|]. split; [reflexivity|]. cbn.
    split; [by rewrite insert_insert_eq, N.add_assoc|].
    split; [by rewrite read_insert, decide_True|].
    split; [|done].
    intros u Hu. by rewrite !read_insert, !decide_False.
Qed.

(** X22. [distributeReward] is for the owner only and moves tokens from
    the owner to the user: it fails with "Insufficient balance for reward"
    when the owner holds less than the amount, so the transfer's own
    balance check never fails; when the owner holds the amount, neither
    address is zero and the balances sum to less than 2^256, it succeeds,
    the owner's balance goes down and the user's goes up by the amount
    (nothing changes when the user is the owner), every other balance, the
    sum of all balances, the total supply and the reputation scores are as
    before. *)
Theorem distributeReward_moves_tokens_from_the_owner user amount env s :
  (Token.owner s <> msg_sender env ->
   Token.distributeReward user amount env s
     = Token.Failed (Token.Unauthorized_account (msg_sender env))) /\
  (Token.owner s = msg_sender env ->
   Token.balanceOf (Token.owner s) s < amount ->
   Token.distributeReward user amount env s
     = Token.Failed (Token.Reason "Insufficient balance for reward")) /\
  (forall a, Token.distributeReward user amount env s
               <> Token.Failed (Token.Insufficient_balance a)) /\
  (Token.owner s = msg_sender env ->
   amount <= Token.balanceOf (Token.owner s) s ->
   Token.owner s <> 0 -> user <> 0 ->
   Token.sum_of_balances s < uint256_limit ->
   exists s',
     Token.distributeReward user amount env s = Token.Done s' /\
     (user <> Token.owner s ->
      Token.balanceOf (Token.owner s) s' = Token.balanceOf (Token.owner s) s - amount /\
      Token.balanceOf user s' = Token.balanceOf user s + amount) /\
     (user = Token.owner s -> Token.balanceOf user s' = Token.balanceOf user s) /\
     (forall a, a <> user -> a <> Token.owner s ->
                Token.balanceOf a s' = Token.balanceOf a s) /\
     Token.sum_of_balances s' = Token.sum_of_balances s /\
     Token._totalSupply s' = Token._totalSupply s /\
     Token.reputationScores s' = Token.reputationScores s /\
     Token.owner s' = Token.owner s).
Proof.
  unfold Token.distributeReward, Token.onlyOwner, Token._transfer, Token.balanceOf,
    Token.sum_of_balances.
  split; [|split; [|split]].
  - intros Hno. apply N.eqb_neq in Hno. by rewrite Hno.
  - intros -> Hlow. rewrite N.eqb_refl. apply N.leb_gt in Hlow. by rewrite Hlow.
  - intros a. destruct (_ =? msg_sender env); [|done].
    destruct (amount <=? _) eqn:Hle; [|done].
    destruct (_ =? 0); [done|]. destruct (user =? 0); [done|].
    apply N.leb_le in Hle. apply N.ltb_ge in Hle. by rewrite Hle.
  - intros Hown Hle Ho Hu Hsum. rewrite Hown, N.eqb_refl.
    unfold Token.owner in *. rewrite Hown in *.
    rewrite (proj2 (N.leb_le _ _) Hle).
    apply N.eqb_neq in Ho as ->. apply N.eqb_neq in Hu as ->.
    rewrite (proj2 (N.ltb_ge _ _) Hle).
    eexists. split; [reflexivity|]. cbn.
    set (o := msg_sender env) in *. set (m := Token._balances s) in *.
    pose proof (sum_insert m o (m.[o] - amount)) as H1.
    pose proof (sum_insert (<[o := m.[o] - amount]> m) user
                  (((<[o := m.[o] - amount]> m).[user] + amount) mod uint256_limit)) as H2.
    pose proof (sum_insert m o 0) as H3.
    rewrite !read_insert in *.
    destruct (decide (o = user)) as [<-|Hne].
    + rewrite !decide_True in * by done.
      rewrite N.sub_add, N.mod_small in * by lia.
      split; [done|]. split; [done|].
      split; [by intros a Ha _; rewrite !read_insert, !decide_False|].
      split; [lia|done].
    + pose proof (sum_bounds m o user Hne).
      rewrite N.mod_small in * by lia.
      split.
      { intros _. rewrite (decide_False (P := user = o)), !decide_True by done. done. }
      split; [by intros ->|].
      split; [intros a Ha1 Ha2; by rewrite !read_insert, !decide_False|].
      split; [lia|done].
Qed.

(** ** Reassembling content chunks *)

Lemma merge_chunks_app prev curr : merge_chunks prev curr = Some (prev ++ curr).
Proof.
  unfold merge_chunks, Uint8Array.set, Uint8Array.new.
  rewrite length_replicate.
  assert ((length prev + length curr <? 0 + length prev)%nat = false) as ->
    by (apply Nat.ltb_ge; lia).
  cbn [mbind option_bind firstn app Nat.add].
  rewrite drop_replicate.
  replace (length prev + length curr - length prev)%nat with (length curr) by lia.
  rewrite take_0. cbn [app].
  rewrite length_app, length_replicate, Nat.ltb_irrefl.
  rewrite take_app_length.
  rewrite drop_ge by (rewrite length_app, length_replicate; lia).
  by rewrite app_nil_r.
Qed.

(** X23. Combining the chunks of a file never throws and yields their
    concatenation in order: prepending a chunk to the sequence prepends its
    bytes to the result, no chunks give the empty array, and the length of
    the result is the sum of the lengths of the chunks. *)
Theorem combine_chunks_concatenates chunks :
  combine_chunks chunks = Some (concat chunks) /\
  (forall chunk rest result,
     combine_chunks rest = Some result ->
     combine_chunks (chunk :: rest) = Some (chunk ++ result)) /\
  (forall result,
     combine_chunks chunks = Some result ->
     length result = foldr (fun chunk n => (length chunk + n)%nat) 0%nat chunks).
Proof.
  assert (forall l acc,
            foldl (fun acc curr => prev ← acc ; merge_chunks prev curr) (Some acc) l
              = Some (acc ++ concat l)) as Hfold.
  { induction l as [|c l IH]; intros acc; cbn.
    - by rewrite app_nil_r.
    - rewrite merge_chunks_app, IH. by rewrite <- app_assoc. }
  assert (forall l, combine_chunks l = Some (concat l)) as Hall.
  { intros l. unfold combine_chunks. by rewrite Hfold. }
  split; [apply Hall|]. split.
  - intros chunk rest result. rewrite !Hall. by intros [= <-].
  - intros result. rewrite Hall. intros [= <-].
    induction chunks as [|c l IH]; cbn; [done|].
    by rewrite length_app, IH.
Qed.

(** ** The properties at concrete inputs *)

Lemma further_scenarios_run :
  all_succeed scenario_flagged deployed = true /\
  all_succeed scenario_removed deployed = true /\
  all_succeed scenario_verified deployed = true /\
  all_succeed scenario_fourth_post deployed = true /\
  all_succeed scenario_commented deployed = true /\
  all_succeed scenario_new_duration_executed deployed = true /\
  all_succeed scenario_moderator deployed = true.
Proof. by_evaluation. Qed.

Lemma registerUser_registers_once_witness :
  exists s',
    registerUser "dave" "" Individual (mkEnv 5 2000) (run scenario_liked deployed) = Ok s' /\
    getUserVerificationInfo 5 s' = (Individual, false) /\
    registerUser "david" "" Journalist (mkEnv 5 2001) s'
      = Revert (Require_failed "User already registered").
Proof.
  destruct (registerUser_registers_once "dave" "" Individual (mkEnv 5 2000)
              (run scenario_liked deployed))
    as (s' & Hex & _ & Hinfo & _ & Hagain).
  - reflexivity.
  - vm_compute; reflexivity.
  - exists s'. split; [exact Hex|]. split; [exact Hinfo|].
    apply Hagain; [apply steps_refl | reflexivity].
Defined.

Lemma profile_frozen_after_registration_witness :
  profile_identity ((users (run scenario_voted_for deployed)).[alice])
    = profile_identity ((users (run scenario_vote_open deployed)).[alice]) /\
  registered alice (run scenario_voted_for deployed) = true.
Proof.
  destruct (profile_frozen_after_registration alice (run scenario_vote_open deployed)
              (run scenario_voted_for deployed)) as (Hid & Hreg & _).
  - apply (steps_call _ (mkEnv bob 1006) (CastModerationVote 1 true 100)
             (run scenario_voted_for deployed)); [vm_compute; reflexivity | apply steps_refl].
  - vm_compute; reflexivity.
  - split; [exact Hid | exact Hreg].
Defined.

Lemma verifyUser_verifies_once_witness :
  verifyUser bob (mkEnv alice 1006) (run scenario_vote_open deployed)
    = Ok (run scenario_verified deployed) /\
  UserProfile.isVerified ((users (run scenario_verified deployed)).[bob]) = true /\
  verifyUser bob (mkEnv alice 1007) (run scenario_verified deployed)
    = Revert (Require_failed "User already verified").
Proof.
  assert (verifyUser bob (mkEnv alice 1006) (run scenario_vote_open deployed)
          = Ok (run scenario_verified deployed)) as Hex by (vm_compute; reflexivity).
  destruct (verifyUser_verifies_once bob (mkEnv alice 1006)
              (run scenario_vote_open deployed) (run scenario_verified deployed) Hex)
    as (_ & _ & _ & _ & _ & _ & Hlater).
  destruct (Hlater (run scenario_verified deployed) (mkEnv alice 1007) (steps_refl _))
    as (Hver & _ & Hagain).
  split; [exact Hex|]. split; [exact Hver|].
  apply Hagain. vm_compute; reflexivity.
Defined.

Lemma created_post_content_is_permanent_witness :
  1 < _postIdCounter (run scenario_voted_for deployed) /\
  post_content ((posts (run scenario_voted_for deployed)).[1])
    = post_content ((posts (run scenario_vote_open deployed)).[1]).
Proof.
  apply (created_post_content_is_permanent 1 (run scenario_vote_open deployed)
           (run scenario_voted_for deployed)).
  - apply (steps_call _ (mkEnv bob 1006) (CastModerationVote 1 true 100)
             (run scenario_voted_for deployed)); [vm_compute; reflexivity | apply steps_refl].
  - vm_compute; reflexivity.
Defined.

Lemma getPostsByUser_lists_the_authors_posts_witness :
  StronglySorted N.lt (getPostsByUser alice (run scenario_vote_open deployed)) /\
  NoDup (getPostsByUser alice (run scenario_vote_open deployed)).
Proof.
  destruct (getPostsByUser_lists_the_authors_posts (run scenario_vote_open deployed)
              (reachable_scenario scenario_vote_open) alice) as (_ & Hsorted & Hnodup & _).
  split; [exact Hsorted | exact Hnodup].
Defined.

Lemma createPost_never_reuses_an_id_witness :
  2 = _postIdCounter (run scenario_vote_open deployed) /\ 2 < 3 /\
  post_content ((posts (run scenario_fourth_post deployed)).[2])
    = (2, msg_sender (mkEnv alice 1006), "ref2"%string, ""%string,
       block_timestamp (mkEnv alice 1006), "news"%string).
Proof.
  apply (createPost_never_reuses_an_id "ref2" "" "news" (mkEnv alice 1006)
           (run scenario_vote_open deployed) 2 (run scenario_third_post deployed)
           "ref3" "" "news" (mkEnv alice 1007) (run scenario_third_post deployed)
           3 (run scenario_fourth_post deployed)).
  - vm_compute; reflexivity.
  - apply steps_refl.
  - vm_compute; reflexivity.
Defined.

Lemma commentCount_counts_stored_comments_witness :
  NewsPost.comments ((posts (run scenario_commented deployed)).[0])
    = N.of_nat (length (getCommentsByPost 0 (run scenario_commented deployed))).
Proof.
  destruct (commentCount_counts_stored_comments (run scenario_commented deployed)
              (reachable_scenario scenario_commented)) as (Hcount & _).
  exact (Hcount 0).
Defined.

Lemma removed_post_stays_removed_witness :
  NewsPost.moderationStatus ((posts (run scenario_removed deployed)).[1]) = Removed /\
  (exists e, flagContent 1 (mkEnv bob 300001) (run scenario_removed deployed) = Revert e).
Proof.
  destruct (removed_post_stays_removed 1 (run scenario_removed deployed)
              (run scenario_removed deployed)) as (Hst & Hflag & _).
  - apply reachable_scenario.
  - apply steps_refl.
  - vm_compute; reflexivity.
  - vm_compute; reflexivity.
  - split; [exact Hst | exact (Hflag (mkEnv bob 300001))].
Defined.

Lemma calls_on_uncreated_posts_revert_witness :
  likePost 7 (mkEnv bob 1004) (run scenario_liked deployed)
    = Revert (Require_failed "Post does not exist") /\
  getCommentsByPost 7 (run scenario_liked deployed) = [].
Proof.
  destruct (calls_on_uncreated_posts_revert (run scenario_liked deployed) 7 (mkEnv bob 1004))
    as (Hlike & _ & _ & _ & _ & Hnone & _).
  - apply reachable_scenario.
  - vm_compute; discriminate.
  - split; [exact Hlike | exact Hnone].
Defined.

Lemma created_proposal_terms_are_permanent_witness :
  (Proposal.id ((proposals (run scenario_voted_for deployed)).[1]),
   Proposal.proposer ((proposals (run scenario_voted_for deployed)).[1]),
   Proposal.proposalType ((proposals (run scenario_voted_for deployed)).[1]),
   Proposal.data ((proposals (run scenario_voted_for deployed)).[1]),
   Proposal.startTime ((proposals (run scenario_voted_for deployed)).[1]),
   Proposal.endTime ((proposals (run scenario_voted_for deployed)).[1]),
   Proposal.descriptionHash ((proposals (run scenario_voted_for deployed)).[1])) =
  (Proposal.id ((proposals (run scenario_vote_open deployed)).[1]),
   Proposal.proposer ((proposals (run scenario_vote_open deployed)).[1]),
   Proposal.proposalType ((proposals (run scenario_vote_open deployed)).[1]),
   Proposal.data ((proposals (run scenario_vote_open deployed)).[1]),
   Proposal.startTime ((proposals (run scenario_vote_open deployed)).[1]),
   Proposal.endTime ((proposals (run scenario_vote_open deployed)).[1]),
   Proposal.descriptionHash ((proposals (run scenario_vote_open deployed)).[1])) /\
  Proposal.forVotes ((proposals (run scenario_vote_open deployed)).[1])
    <= Proposal.forVotes ((proposals (run scenario_voted_for deployed)).[1]).
Proof.
  destruct (created_proposal_terms_are_permanent 1 (run scenario_vote_open deployed)
              (run scenario_voted_for deployed)) as (Hterms & Hfor & _).
  - apply (steps_call _ (mkEnv bob 1006) (CastModerationVote 1 true 100)
             (run scenario_voted_for deployed)); [vm_compute; reflexivity | apply steps_refl].
  - vm_compute; reflexivity.
  - split; [exact Hterms | exact Hfor].
Defined.

Lemma tallies_change_only_by_votes_before_the_deadline_witness :
  Proposal.status ((proposals (run scenario_vote_open deployed)).[1]) = Active /\
  block_timestamp (mkEnv bob 1006)
    < Proposal.endTime ((proposals (run scenario_vote_open deployed)).[1]).
Proof.
  destruct (tallies_change_only_by_votes_before_the_deadline
              (CastModerationVote 1 true 100) (mkEnv bob 1006)
              (run scenario_vote_open deployed) (run scenario_voted_for deployed) 1)
    as (Hchange & _).
  - vm_compute; reflexivity.
  - vm_compute; reflexivity.
  - destruct Hchange as (Hact & Htime & _).
    + vm_compute; discriminate.
    + split; [exact Hact | exact Htime].
Defined.

Lemma calls_on_uncreated_proposals_witness :
  castModerationVote 5 true 1 (mkEnv bob 1004) (run scenario_liked deployed)
    = Revert (Require_failed "Proposal does not exist") /\
  executeProposal 5 (mkEnv bob 1004) (run scenario_liked deployed)
    = Revert (Require_failed "Proposal does not exist").
Proof.
  destruct (calls_on_uncreated_proposals (run scenario_liked deployed) 5 (mkEnv bob 1004))
    as (_ & Hnonzero & _).
  - apply reachable_scenario.
  - vm_compute; discriminate.
  - destruct Hnonzero as (Hcast & Hexec); [discriminate|].
    split; [exact (Hcast true 1) | exact Hexec].
Defined.

Lemma parameters_change_only_by_passed_proposals_witness :
  exists pid name value,
    ExecuteProposal 0 = ExecuteProposal pid /\
    Proposal.proposalType ((proposals (run scenario_new_duration deployed)).[pid])
      = UpdateParameters /\
    abi_decode_string_uint256
      (Proposal.data ((proposals (run scenario_new_duration deployed)).[pid]))
      = Ok (name, value).
Proof.
  destruct (parameters_change_only_by_passed_proposals (ExecuteProposal 0)
              (mkEnv carol 300000) (run scenario_new_duration deployed)
              (run scenario_new_duration_executed deployed))
    as (pid & name & value & Hc & Hty & _ & _ & _ & Hdec & _).
  - vm_compute; reflexivity.
  - vm_compute; discriminate.
  - exists pid, name, value. split; [exact Hc|]. split; [exact Hty | exact Hdec].
Defined.

Lemma executeProposal_updates_the_named_parameter_witness :
  exists s',
    executeProposal 0 (mkEnv carol 300000) (run scenario_new_duration deployed) = Ok s' /\
    Proposal.status ((proposals s').[0]) = Executed /\
    parameters s' = (3, 100, 10).
Proof.
  destruct (executeProposal_updates_the_named_parameter 0 "voteDuration" 100
              (mkEnv carol 300000) (run scenario_new_duration deployed))
    as (s' & Hex & Hst & Hpar & _).
  - vm_compute; reflexivity.
  - vm_compute; reflexivity.
  - vm_compute; discriminate.
  - vm_compute; reflexivity.
  - vm_compute; reflexivity.
  - vm_compute; reflexivity.
  - vm_compute; reflexivity.
  - exists s'. split; [exact Hex|]. split; [exact Hst|].
    rewrite Hpar. vm_compute; reflexivity.
Defined.

Lemma roles_change_only_by_admin_or_passed_proposals_witness :
  (GrantRoleCall MODERATOR_ROLE alice = GrantRoleCall MODERATOR_ROLE alice /\
   hasRole DEFAULT_ADMIN_ROLE (msg_sender (mkEnv deployer 1000)) deployed = true /\
   hasRole MODERATOR_ROLE alice (run scenario_moderator deployed) = true) \/
  (GrantRoleCall MODERATOR_ROLE alice = RevokeRoleCall MODERATOR_ROLE alice /\
   hasRole DEFAULT_ADMIN_ROLE (msg_sender (mkEnv deployer 1000)) deployed = true /\
   hasRole MODERATOR_ROLE alice (run scenario_moderator deployed) = false) \/
  (GrantRoleCall MODERATOR_ROLE alice = RenounceRoleCall MODERATOR_ROLE alice /\
   alice = msg_sender (mkEnv deployer 1000) /\
   hasRole MODERATOR_ROLE alice (run scenario_moderator deployed) = false) \/
  (exists pid,
     GrantRoleCall MODERATOR_ROLE alice = ExecuteProposal pid /\
     Proposal.status ((proposals deployed).[pid]) = Active /\
     Proposal.endTime ((proposals deployed).[pid]) <= block_timestamp (mkEnv deployer 1000) /\
     passes ((proposals deployed).[pid]) = true /\
     abi_decode_bytes32_address (Proposal.data ((proposals deployed).[pid]))
       = Ok (MODERATOR_ROLE, alice) /\
     (Proposal.proposalType ((proposals deployed).[pid]) = GrantRole /\
      hasRole MODERATOR_ROLE alice (run scenario_moderator deployed) = true \/
      Proposal.proposalType ((proposals deployed).[pid]) = RevokeRole /\
      hasRole MODERATOR_ROLE alice (run scenario_moderator deployed) = false)).
Proof.
  apply (roles_change_only_by_admin_or_passed_proposals
           (GrantRoleCall MODERATOR_ROLE alice) (mkEnv deployer 1000) deployed
           (run scenario_moderator deployed) MODERATOR_ROLE alice).
  - vm_compute; reflexivity.
  - vm_compute; discriminate.
Defined.

Lemma executeProposal_grants_and_revokes_roles_witness :
  exists s',
    executeProposal 0 (mkEnv bob 300000) (run scenario_grant_role deployed) = Ok s' /\
    Proposal.status ((proposals s').[0]) = Executed /\
    hasRole MODERATOR_ROLE carol s' = true.
Proof.
  destruct (executeProposal_grants_and_revokes_roles 0 MODERATOR_ROLE carol
              (mkEnv bob 300000) (run scenario_grant_role deployed))
    as (s' & Hex & Hst & Hrole & _).
  - vm_compute; reflexivity.
  - vm_compute; reflexivity.
  - vm_compute; discriminate.
  - vm_compute; reflexivity.
  - vm_compute; reflexivity.
  - left. vm_compute; reflexivity.
  - vm_compute; reflexivity.
  - exists s'. split; [exact Hex|]. split; [exact Hst|].
    rewrite Hrole. vm_compute; reflexivity.
Defined.

Lemma startModerationVote_opens_a_linked_vote_witness :
  abi_decode_uint256
    (Proposal.data
       ((proposals (run scenario_vote_open deployed)).[_proposalIdCounter
                                                        (run scenario_flagged deployed)]))
    = Ok 1 /\
  executeModerationVote 1 (mkEnv carol 2000) (run scenario_vote_open deployed)
    = Revert (Require_failed "Voting period not ended").
Proof.
  destruct (startModerationVote_opens_a_linked_vote 1 (mkEnv alice 1005)
              (run scenario_flagged deployed) (run scenario_vote_open deployed))
    as (_ & _ & _ & _ & _ & _ & Hdec & _ & _ & Hearly).
  - vm_compute; reflexivity.
  - vm_compute; reflexivity.
  - split; [exact Hdec|]. apply Hearly. vm_compute; reflexivity.
Defined.

Lemma cast_on_the_linked_proposal_keeps_tallies_equal_witness :
  tallies_agree ((moderationVotes (run scenario_voted_for deployed)).[1])
    ((proposals (run scenario_voted_for deployed)).[1]).
Proof.
  destruct (cast_on_the_linked_proposal_keeps_tallies_equal 1 1 true 100 (mkEnv bob 1006)
              (run scenario_vote_open deployed) (run scenario_voted_for deployed))
    as (Hagree & _).
  - vm_compute; reflexivity.
  - vm_compute; reflexivity.
  - unfold tallies_agree. by_evaluation.
  - vm_compute; reflexivity.
  - exact Hagree.
Defined.

Lemma flagThreshold_and_quorumPercentage_are_never_read_witness :
  match exec (FlagContent 0) (mkEnv bob 1004) (run scenario_liked deployed),
        exec (FlagContent 0) (mkEnv bob 1004)
          (with_unused_parameters 1 100 (run scenario_liked deployed)) with
  | Ok s', Ok t' => differ_only_in_unused_parameters s' t' /\ events s' = events t'
  | Revert e, Revert e' => e = e'
  | _, _ => False
  end.
Proof.
  apply (flagThreshold_and_quorumPercentage_are_never_read (FlagContent 0)
           (mkEnv bob 1004) (run scenario_liked deployed)
           (with_unused_parameters 1 100 (run scenario_liked deployed))).
  unfold differ_only_in_unused_parameters. vm_compute; reflexivity.
Defined.

Lemma fresh_deployment_has_no_moderator_witness :
  verifyUser bob (mkEnv deployer 1001) (constructor (mkEnv deployer 1000))
    = Revert (Missing_role MODERATOR_ROLE (msg_sender (mkEnv deployer 1001))) /\
  exists s',
    grantRole MODERATOR_ROLE alice (mkEnv deployer 1001) (constructor (mkEnv deployer 1000))
      = Ok s' /\
    hasRole MODERATOR_ROLE alice s' = true.
Proof.
  destruct (fresh_deployment_has_no_moderator (mkEnv deployer 1000))
    as (_ & _ & _ & _ & _ & Hverify & _ & Hgrant & _).
  split; [exact (Hverify (mkEnv deployer 1001) bob)|].
  apply (Hgrant (mkEnv deployer 1001) alice). reflexivity.
Defined.

Lemma increaseReputation_adds_up_witness :
  exists s1 s2 s12,
    Token.increaseReputation alice 3 (mkEnv deployer 1000) token_deployed = Token.Done s1 /\
    Token.increaseReputation alice 4 (mkEnv deployer 1000) s1 = Token.Done s2 /\
    Token.increaseReputation alice (3 + 4) (mkEnv deployer 1000) token_deployed
      = Token.Done s12 /\
    Token.reputationScores s12 = Token.reputationScores s2 /\
    Token.getReputation alice s2 = Token.getReputation alice token_deployed + 3 + 4.
Proof.
  destruct (increaseReputation_adds_up alice 3 4 (mkEnv deployer 1000) token_deployed)
    as (_ & _ & Hadd).
  destruct Hadd as (s1 & s2 & s12 & H1 & H2 & H12 & Hsame & Hscore & _).
  - reflexivity.
  - vm_compute; reflexivity.
  - exists s1, s2, s12.
    split; [exact H1|]. split; [exact H2|]. split; [exact H12|].
    split; [exact Hsame | exact Hscore].
Defined.

Lemma distributeReward_moves_tokens_from_the_owner_witness :
  exists s',
    Token.distributeReward alice 300 (mkEnv deployer 1000) token_deployed = Token.Done s' /\
    Token.balanceOf (Token.owner token_deployed) s'
      = Token.balanceOf (Token.owner token_deployed) token_deployed - 300 /\
    Token.balanceOf alice s' = Token.balanceOf alice token_deployed + 300 /\
    Token.sum_of_balances s' = Token.sum_of_balances token_deployed.
Proof.
  destruct (distributeReward_moves_tokens_from_the_owner alice 300 (mkEnv deployer 1000)
              token_deployed) as (_ & _ & _ & Hmove).
  destruct Hmove as (s' & Hex & Hmoved & _ & _ & Hsum & _).
  - reflexivity.
  - vm_compute; discriminate.
  - vm_compute; discriminate.
  - vm_compute; discriminate.
  - vm_compute; reflexivity.
  - destruct Hmoved as [Howner Huser]; [vm_compute; discriminate|].
    exists s'. split; [exact Hex|]. split; [exact Howner|]. split; [exact Huser | exact Hsum].
Defined.

Lemma combine_chunks_concatenates_witness :
  combine_chunks [[x01; x02]; []; [x03]] = Some (concat [[x01; x02]; []; [x03]]) /\
  length (concat [[x01; x02]; []; [x03]])
    = foldr (fun chunk n => (length chunk + n)%nat) 0%nat [[x01; x02]; []; [x03]].
Proof.
  destruct (combine_chunks_concatenates [[x01; x02]; []; [x03]]) as (Hall & _ & Hlen).
  split; [exact Hall | exact (Hlen _ Hall)].
Defined.

Lemma only_likes_need_no_registration_witness :
  (exists e, createPost "ref" "" "news" (mkEnv carol 1004) (run scenario_liked deployed)
               = Revert e) /\
  (exists s',
     likePost 0 (mkEnv carol 1004) (run scenario_liked deployed) = Ok s' /\
     hasLiked 0 (msg_sender (mkEnv carol 1004)) s' = true).
Proof.
  destruct (only_likes_need_no_registration (run scenario_liked deployed) (mkEnv carol 1004)
              (reachable_scenario scenario_liked)) as (_ & Hgate).
  destruct Hgate as (Hpost & _ & _ & _ & _ & _ & Hlike).
  - vm_compute; reflexivity.
  - split; [exact (Hpost "ref"%string ""%string "news"%string)|].
    apply (Hlike 0).
    + vm_compute; reflexivity.
    + vm_compute; reflexivity.
    + vm_compute; reflexivity.
Defined.
